(** * Visa appointment bot: polling, freshness verification and booking

  A shallow embedding of the three bot variants of the repository
  (the v2.3 bot with stale-data protection, [visa-bot.js] and [ok.js])
  and the properties of their polling cadence, slot tracking, freshness
  verdict, booking coordinator and login escalation.

  Part I holds the definitions, one module per source file; Part II the
  theorems. *)

From Stdlib Require Import ZArith QArith Qround Bool List String Ascii Lia Lqa.
Import ListNotations.
Local Open Scope string_scope.
Local Open Scope Z_scope.

(* ====================================================================== *)
(** * Part I: definitions *)
(* ====================================================================== *)

(** ** The JavaScript values the bots compute with *)
Module Js.

(** Numbers. The bots only divide, scale, shift, floor and clamp small
    integers, so a finite number is an exact rational; the non-finite
    results of a division by zero are kept apart. *)
Inductive jsnum : Type :=
| JFin (q : Q)
| JPosInf
| JNegInf
| JNaN.

Definition of_Z (z : Z) : jsnum := JFin (inject_Z z).

Definition js_neg (x : jsnum) : jsnum :=
  match x with
  | JFin q => JFin (- q)
  | JPosInf => JNegInf
  | JNegInf => JPosInf
  | JNaN => JNaN
  end.

Definition js_add (x y : jsnum) : jsnum :=
  match x, y with
  | JFin a, JFin b => JFin (a + b)
  | JNaN, _ | _, JNaN => JNaN
  | JPosInf, JNegInf | JNegInf, JPosInf => JNaN
  | JPosInf, _ | _, JPosInf => JPosInf
  | JNegInf, _ | _, JNegInf => JNegInf
  end.

Definition js_sub (x y : jsnum) : jsnum := js_add x (js_neg y).

(** The infinity carrying the sign of [q]; not a number when [q] is zero. *)
Definition signed_inf (q : Q) (positive : bool) : jsnum :=
  match Qcompare q 0 with
  | Eq => JNaN
  | Gt => if positive then JPosInf else JNegInf
  | Lt => if positive then JNegInf else JPosInf
  end.

Definition js_mul (x y : jsnum) : jsnum :=
  match x, y with
  | JFin a, JFin b => JFin (a * b)
  | JNaN, _ | _, JNaN => JNaN
  | JFin a, JPosInf | JPosInf, JFin a => signed_inf a true
  | JFin a, JNegInf | JNegInf, JFin a => signed_inf a false
  | JPosInf, JPosInf | JNegInf, JNegInf => JPosInf
  | JPosInf, JNegInf | JNegInf, JPosInf => JNegInf
  end.

Definition js_div (x y : jsnum) : jsnum :=
  match x, y with
  | JFin a, JFin b =>
      match Qcompare b 0 with
      | Eq => signed_inf a true
      | _ => JFin (a / b)
      end
  | JNaN, _ | _, JNaN => JNaN
  | JFin _, _ => JFin 0
  | JPosInf, JFin b => if Qle_bool 0 b then JPosInf else JNegInf
  | JNegInf, JFin b => if Qle_bool 0 b then JNegInf else JPosInf
  | _, _ => JNaN
  end.

(** [Math.floor] *)
Definition js_floor (x : jsnum) : jsnum :=
  match x with
  | JFin q => of_Z (Qfloor q)
  | other => other
  end.

(** [Math.max] of two arguments *)
Definition js_max (x y : jsnum) : jsnum :=
  match x, y with
  | JNaN, _ | _, JNaN => JNaN
  | JPosInf, _ | _, JPosInf => JPosInf
  | JNegInf, other | other, JNegInf => other
  | JFin a, JFin b => if Qle_bool a b then JFin b else JFin a
  end.

(** The whole number of milliseconds a number stands for, when it is one. *)
Definition whole (x : jsnum) : option Z :=
  match x with
  | JFin q => if Qeq_bool q (inject_Z (Qfloor q)) then Some (Qfloor q) else None
  | _ => None
  end.

(** Strings. [truthy] is the test [if (s)] applies to a string or null. *)
Definition truthy (s : option string) : bool :=
  match s with
  | Some s => negb (s =? "")%string
  | None => false
  end.

(** [s.includes(sub)] *)
Fixpoint includes (s sub : string) : bool :=
  if prefix sub s then true
  else match s with
       | EmptyString => false
       | String _ rest => includes rest sub
       end.

(** Dates. A [Date] object is its time value in milliseconds since the
    epoch; [None] is the Invalid Date, whose time value is NaN and which
    fails every comparison. *)
Definition jsdate := option Z.

Definition date_ge (a b : jsdate) : bool :=
  match a, b with
  | Some x, Some y => y <=? x
  | _, _ => false
  end.

Definition date_le (a b : jsdate) : bool := date_ge b a.

Definition date_lt (a b : jsdate) : bool :=
  match a, b with
  | Some x, Some y => x <? y
  | _, _ => false
  end.

(** [new Date(str)] belongs to the runtime, not to the bots. *)
Class Runtime : Type := { Date_parse : string -> jsdate }.

(** A promise that was awaited: its value, or the message of the error it
    rejected with. *)
Inductive Res (A : Type) : Type :=
| Ok (a : A)
| Err (msg : string).
Arguments Ok {A} a.
Arguments Err {A} msg.

Definition bind {A B : Type} (r : Res A) (k : A -> Res B) : Res B :=
  match r with
  | Ok a => k a
  | Err m => Err m
  end.

(** [p.catch(() => v)] *)
Definition catch_with {A : Type} (r : Res A) (v : A) : A :=
  match r with
  | Ok a => a
  | Err _ => v
  end.

End Js.

(** ** The runtime's reading of date-only ISO strings

  [new Date("YYYY-MM-DD")] is midnight UTC of that calendar day. The
  instance reads exactly that form; it serves the worked scenarios, the
  general statements hold for every runtime. *)
Module IsoDate.

Definition digit (c : ascii) : option Z :=
  let n := Z.of_nat (nat_of_ascii c) in
  if (48 <=? n) && (n <=? 57) then Some (n - 48) else None.

Fixpoint number (acc : Z) (cs : list ascii) : option Z :=
  match cs with
  | [] => Some acc
  | c :: rest =>
      match digit c with
      | Some d => number (10 * acc + d) rest
      | None => None
      end
  end.

Definition is_leap (y : Z) : bool :=
  ((y mod 4 =? 0) && negb (y mod 100 =? 0)) || (y mod 400 =? 0).

Definition days_in_month (y m : Z) : Z :=
  if m =? 2 then (if is_leap y then 29 else 28)
  else if (m =? 4) || (m =? 6) || (m =? 9) || (m =? 11) then 30
  else 31.

(** Days from 1970-01-01 to the civil date [y]-[m]-[d]. *)
Definition days_from_civil (y m d : Z) : Z :=
  let y' := if m <=? 2 then y - 1 else y in
  let era := y' / 400 in
  let yoe := y' - era * 400 in
  let mp := if 2 <? m then m - 3 else m + 9 in
  let doy := (153 * mp + 2) / 5 + d - 1 in
  let doe := yoe * 365 + yoe / 4 - yoe / 100 + doy in
  era * 146097 + doe - 719468.

Definition ms_per_day : Z := 86400000.

Definition parse (s : string) : Js.jsdate :=
  match list_ascii_of_string s with
  | [y1; y2; y3; y4; "-"%char; m1; m2; "-"%char; d1; d2] =>
      match number 0 [y1; y2; y3; y4], number 0 [m1; m2], number 0 [d1; d2] with
      | Some y, Some m, Some d =>
          if (1 <=? m) && (m <=? 12) && (1 <=? d) && (d <=? days_in_month y m)
          then Some (days_from_civil y m d * ms_per_day)
          else None
      | _, _, _ => None
      end
  | _ => None
  end.

Definition runtime : Js.Runtime := {| Js.Date_parse := parse |}.

End IsoDate.

(** ** The v2.3 bot with stale-data protection ([unnamed/part_000]) *)
Module Part000.
Import Js.

(** A record of an availability response; only its date is read. *)
Record Slot : Type := { date : string }.

(** [CONFIG], as far as the engine reads it. *)
Record Config : Type := {
  verifyEmail : string;        (* '' when VERIFY_EMAIL is unset *)
  verifyPassword : string;     (* '' when VERIFY_PASSWORD is unset *)
  intervalMins : Z;
  startDate : jsdate;
  endDate : jsdate;
  targetCPM : Z
}.

(** [parseInt(process.env.X) || fallback]: NaN and 0 give the fallback. *)
Definition parsed_or (parsed : option Z) (fallback : Z) : Z :=
  match parsed with
  | Some n => if n =? 0 then fallback else n
  | None => fallback
  end.

(** The module-level variables, followed by the locals of the monitoring
    loop of [runBot]. *)
Record State : Type := {
  availableDate : option Slot;
  availableTime : option string;
  lastResponseTime : Z;
  closestSlotFound : option Slot;
  lastRequestTime : Z;
  lastLatency : Z;
  bookingInProgress : bool;
  verifyBrowser : bool;        (* true while it holds a browser *)
  lastVerifyTime : Z;
  checkCount : Z;
  lastCookieReset : Z
}.

Definition set_availableDate (v : option Slot) (g : State) : State :=
  {| availableDate := v; availableTime := availableTime g;
     lastResponseTime := lastResponseTime g;
     closestSlotFound := closestSlotFound g;
     lastRequestTime := lastRequestTime g; lastLatency := lastLatency g;
     bookingInProgress := bookingInProgress g;
     verifyBrowser := verifyBrowser g; lastVerifyTime := lastVerifyTime g;
     checkCount := checkCount g; lastCookieReset := lastCookieReset g |}.

Definition set_availableTime (v : option string) (g : State) : State :=
  {| availableDate := availableDate g; availableTime := v;
     lastResponseTime := lastResponseTime g;
     closestSlotFound := closestSlotFound g;
     lastRequestTime := lastRequestTime g; lastLatency := lastLatency g;
     bookingInProgress := bookingInProgress g;
     verifyBrowser := verifyBrowser g; lastVerifyTime := lastVerifyTime g;
     checkCount := checkCount g; lastCookieReset := lastCookieReset g |}.

Definition set_lastResponseTime (v : Z) (g : State) : State :=
  {| availableDate := availableDate g; availableTime := availableTime g;
     lastResponseTime := v;
     closestSlotFound := closestSlotFound g;
     lastRequestTime := lastRequestTime g; lastLatency := lastLatency g;
     bookingInProgress := bookingInProgress g;
     verifyBrowser := verifyBrowser g; lastVerifyTime := lastVerifyTime g;
     checkCount := checkCount g; lastCookieReset := lastCookieReset g |}.

Definition set_closestSlotFound (v : option Slot) (g : State) : State :=
  {| availableDate := availableDate g; availableTime := availableTime g;
     lastResponseTime := lastResponseTime g;
     closestSlotFound := v;
     lastRequestTime := lastRequestTime g; lastLatency := lastLatency g;
     bookingInProgress := bookingInProgress g;
     verifyBrowser := verifyBrowser g; lastVerifyTime := lastVerifyTime g;
     checkCount := checkCount g; lastCookieReset := lastCookieReset g |}.

Definition set_lastRequestTime (v : Z) (g : State) : State :=
  {| availableDate := availableDate g; availableTime := availableTime g;
     lastResponseTime := lastResponseTime g;
     closestSlotFound := closestSlotFound g;
     lastRequestTime := v; lastLatency := lastLatency g;
     bookingInProgress := bookingInProgress g;
     verifyBrowser := verifyBrowser g; lastVerifyTime := lastVerifyTime g;
     checkCount := checkCount g; lastCookieReset := lastCookieReset g |}.

Definition set_lastLatency (v : Z) (g : State) : State :=
  {| availableDate := availableDate g; availableTime := availableTime g;
     lastResponseTime := lastResponseTime g;
     closestSlotFound := closestSlotFound g;
     lastRequestTime := lastRequestTime g; lastLatency := v;
     bookingInProgress := bookingInProgress g;
     verifyBrowser := verifyBrowser g; lastVerifyTime := lastVerifyTime g;
     checkCount := checkCount g; lastCookieReset := lastCookieReset g |}.

Definition set_bookingInProgress (v : bool) (g : State) : State :=
  {| availableDate := availableDate g; availableTime := availableTime g;
     lastResponseTime := lastResponseTime g;
     closestSlotFound := closestSlotFound g;
     lastRequestTime := lastRequestTime g; lastLatency := lastLatency g;
     bookingInProgress := v;
     verifyBrowser := verifyBrowser g; lastVerifyTime := lastVerifyTime g;
     checkCount := checkCount g; lastCookieReset := lastCookieReset g |}.

Definition set_verifyBrowser (v : bool) (g : State) : State :=
  {| availableDate := availableDate g; availableTime := availableTime g;
     lastResponseTime := lastResponseTime g;
     closestSlotFound := closestSlotFound g;
     lastRequestTime := lastRequestTime g; lastLatency := lastLatency g;
     bookingInProgress := bookingInProgress g;
     verifyBrowser := v; lastVerifyTime := lastVerifyTime g;
     checkCount := checkCount g; lastCookieReset := lastCookieReset g |}.

Definition set_lastVerifyTime (v : Z) (g : State) : State :=
  {| availableDate := availableDate g; availableTime := availableTime g;
     lastResponseTime := lastResponseTime g;
     closestSlotFound := closestSlotFound g;
     lastRequestTime := lastRequestTime g; lastLatency := lastLatency g;
     bookingInProgress := bookingInProgress g;
     verifyBrowser := verifyBrowser g; lastVerifyTime := v;
     checkCount := checkCount g; lastCookieReset := lastCookieReset g |}.

Definition set_checkCount (v : Z) (g : State) : State :=
  {| availableDate := availableDate g; availableTime := availableTime g;
     lastResponseTime := lastResponseTime g;
     closestSlotFound := closestSlotFound g;
     lastRequestTime := lastRequestTime g; lastLatency := lastLatency g;
     bookingInProgress := bookingInProgress g;
     verifyBrowser := verifyBrowser g; lastVerifyTime := lastVerifyTime g;
     checkCount := v; lastCookieReset := lastCookieReset g |}.

Definition set_lastCookieReset (v : Z) (g : State) : State :=
  {| availableDate := availableDate g; availableTime := availableTime g;
     lastResponseTime := lastResponseTime g;
     closestSlotFound := closestSlotFound g;
     lastRequestTime := lastRequestTime g; lastLatency := lastLatency g;
     bookingInProgress := bookingInProgress g;
     verifyBrowser := verifyBrowser g; lastVerifyTime := lastVerifyTime g;
     checkCount := checkCount g; lastCookieReset := v |}.

(** The values the module-level variables are declared with; [loadedAt]
    is [Date.now()] when the script is loaded. *)
Definition initial (loadedAt : Z) : State :=
  {| availableDate := None; availableTime := None; lastResponseTime := 0;
     closestSlotFound := None; lastRequestTime := 0; lastLatency := 0;
     bookingInProgress := false; verifyBrowser := false;
     lastVerifyTime := loadedAt; checkCount := 0; lastCookieReset := 0 |}.

(** *** Utilities *)

Section WithRuntime.
Context {rt : Runtime}.

Definition isDateInRange (dateStr : string) (startDate endDate : jsdate) : bool :=
  let date := Date_parse dateStr in
  date_ge date startDate && date_le date endDate.

End WithRuntime.

Definition getDelay (targetCPM : Z) : jsnum :=
  let overhead := of_Z 100 in
  let idealCycle := js_div (of_Z 60000) (of_Z targetCPM) in
  js_max (of_Z 0) (js_floor (js_sub idealCycle overhead)).

(** *** The response listener *)

(** What [response.json()] gives, in the shapes the listener tells apart.
    An element of an array is a record, an object of which only the date is
    read, or [None]: null, or another value that has no date (a boolean, a
    number, a string). Every read of [availableDate] tests the value and
    then reads its date, and so takes such a value as it takes null. *)
Inductive Body : Type :=
| NotJson                          (* response.json() rejects *)
| DateList (records : list (option Slot))   (* an array *)
| TimesObj (times : list (option string))
                                   (* an object with available_times; an
                                      element is a time, or [None] for null *)
| OtherJson.

(** A response event, with the clock readings its handler takes:
    [Date.now()] and local midnight of the current day. *)
Record Arrival : Type := {
  url : string;
  body : Body;
  now : Z;
  today : Z
}.

(** Line 274: the URL of an availability list. *)
Definition isDatesUrl (u : string) : bool :=
  includes u ".json" && includes u "appointments" && negb (includes u "date=").

(** Line 303: the URL of the times of one date. *)
Definition isTimesUrl (u : string) : bool :=
  includes u ".json" && includes u "date=".

(** What an arrival makes the handler store in [availableDate], when it
    stores: the first element of a non-empty array (line 277). *)
Definition observed (a : Arrival) : option (option Slot) :=
  if isDatesUrl (url a) then
    match body a with
    | DateList (first :: _) => Some first
    | _ => None
    end
  else None.

Section Listener.
Context {rt : Runtime}.

(** Lines 283-293: the closest-slot tracker. *)
Definition trackClosest (today : Z) (g : State) : State :=
  match availableDate g with
  | None => g
  | Some slot =>
      let slotDate := Date_parse (date slot) in
      if date_ge slotDate (Some today) then
        match closestSlotFound g with
        | None => set_closestSlotFound (Some slot) g
        | Some closest =>
            if date_lt slotDate (Date_parse (date closest))
            then set_closestSlotFound (Some slot) g
            else g
        end
      else g
  end.

(** Lines 274-300: an availability list. With null at its head the read
    of line 283 throws, after the assignments of lines 277-281; the tracker
    is then left as it is, as it is for a head with no date. *)
Definition onDates (a : Arrival) (g : State) : State :=
  if isDatesUrl (url a)
  then
    match body a with
    | DateList (first :: _) =>
        let g := set_availableDate first g in
        let g := set_lastResponseTime (now a) g in
        let g := if 0 <? lastRequestTime g
                 then set_lastLatency (lastResponseTime g - lastRequestTime g) g
                 else g in
        trackClosest (today a) g
    | _ => g
    end
  else g.

(** Lines 303-309: the times of one date. *)
Definition onTimes (a : Arrival) (g : State) : State :=
  if isTimesUrl (url a)
  then
    match body a with
    | TimesObj (first :: _) => set_availableTime first g
    | _ => g
    end
  else g.

(** The handler of [page.on('response', ...)]: the two tests one after the
    other. A rejected [response.json()] ends the handler; it comes before
    any assignment, and no URL passes both tests. *)
Definition onResponse (a : Arrival) (g : State) : State :=
  onTimes a (onDates a g).

Definition deliver (arrivals : list Arrival) (g : State) : State :=
  fold_left (fun g a => onResponse a g) arrivals g.

(** [waitForAvailableSlot]: sleep 25 ms at a time until a response was
    recorded or the timeout has elapsed; [sleeps k] are the responses that
    arrive during the sleep number [k]. *)
Fixpoint waitLoop (prevTime : Z) (timeoutMs elapsed : Z) (rounds : nat)
    (k : nat) (sleeps : nat -> list Arrival) (g : State) : State :=
  match rounds with
  | O => g
  | S rounds' =>
      if (lastResponseTime g =? prevTime) && (elapsed <? timeoutMs)
      then waitLoop prevTime timeoutMs (elapsed + 25) rounds' (S k) sleeps
             (deliver (sleeps k) g)
      else g
  end.

Definition waitForAvailableSlot (timeoutMs : Z) (sleeps : nat -> list Arrival)
    (g : State) : option Slot * State :=
  let g' := waitLoop (lastResponseTime g) timeoutMs 0
              (Z.to_nat ((timeoutMs + 24) / 25)) 0 sleeps g in
  (availableDate g', g').

End Listener.

(** *** Awaited calls, early exits and the calls worth recording *)

(** Each call is recorded with the value [bookingInProgress] has when it
    is made. *)
Inductive Event : Type :=
| EvVerify (busy : bool)                        (* verifyDataFreshness *)
| EvPerformBooking (slot : Slot) (busy : bool)  (* performBooking *)
| EvLogin.                                      (* login *)

(** How a block stops short of its end. *)
Inductive Stop : Type :=
| Thrown (msg : string)
| Restart                          (* return runBot() *)
| Exit (code : Z)                  (* process.exit(code) *)
| Skip                             (* continue *)
| Pending.                         (* an unbounded wait has not ended yet *)

Inductive Flow (A : Type) : Type :=
| Go (a : A)
| Halt (s : Stop).
Arguments Go {A} a.
Arguments Halt {A} s.

Definition M (A : Type) : Type := State -> list Event * State * Flow A.

Definition trace_of {A : Type} (x : list Event * State * Flow A) : list Event :=
  fst (fst x).
Definition state_of {A : Type} (x : list Event * State * Flow A) : State :=
  snd (fst x).
Definition flow_of {A : Type} (x : list Event * State * Flow A) : Flow A :=
  snd x.

Definition ret {A : Type} (a : A) : M A := fun g => ([], g, Go a).

Definition mbind {A B : Type} (m : M A) (k : A -> M B) : M B :=
  fun g =>
    match m g with
    | (t, g', Go a) =>
        match k a g' with
        | (t', g'', r) => ((t ++ t')%list, g'', r)
        end
    | (t, g', Halt s) => (t, g', Halt s)
    end.

Notation "x <- m ;; k" := (mbind m (fun x => k))
  (at level 61, m at next level, right associativity).
Notation "m ;;; k" := (mbind m (fun _ => k))
  (at level 61, right associativity).

Definition emit (e : bool -> Event) : M unit :=
  fun g => ([e (bookingInProgress g)], g, Go tt).
Definition get : M State := fun g => ([], g, Go g).
Definition update (f : State -> State) : M unit := fun g => ([], f g, Go tt).
Definition halt {A : Type} (s : Stop) : M A := fun g => ([], g, Halt s).

(** [await p] for a promise of the driver. *)
Definition await {A : Type} (r : Res A) : M A :=
  match r with
  | Ok a => ret a
  | Err msg => halt (Thrown msg)
  end.

(** [try { body } catch (e) { handler(e.message) }]; the assignments made
    before the throw stay. *)
Definition tryCatch {A : Type} (body : M A) (handler : string -> M A) : M A :=
  fun g =>
    match body g with
    | (t, g', Halt (Thrown msg)) =>
        match handler msg g' with
        | (t', g'', r) => ((t ++ t')%list, g'', r)
        end
    | other => other
    end.

Definition when (b : bool) (m : M unit) : M unit := if b then m else ret tt.

(** *** Stale-data verification *)

(** What one run of [verifyDataFreshness] meets. *)
Record VerifyRun : Type := {
  vr_launch : Res unit;        (* lines 358-381: proxy session id, launch *)
  vr_signIn : Res unit;        (* lines 382-419: context, page, form, submit *)
  vr_onSignIn : bool;          (* line 422: the URL still has 'sign_in' *)
  vr_closeAfterLogin : Res unit;  (* line 424 *)
  vr_navigate : Res unit;      (* lines 431-454: appointment page, city, 3 s *)
  vr_meanwhile : list Arrival; (* responses of the main page up to line 457 *)
  vr_captured : option Slot;   (* capturedVerifyDate at line 458 *)
  vr_close : Res unit;         (* line 462 *)
  vr_now : Z                   (* Date.now() where the timer is assigned *)
}.

Definition dateOf (s : option Slot) : option string :=
  match s with
  | Some slot => Some (date slot)
  | None => None
  end.

(** [a !== b] on two strings-or-null *)
Definition strict_neq (a b : option string) : bool :=
  match a, b with
  | Some x, Some y => negb (x =? y)%string
  | None, None => false
  | _, _ => true
  end.

(** Lines 466-490. *)
Definition verdict (mainDate verifyDate : option string) : bool :=
  if truthy mainDate && truthy verifyDate && strict_neq mainDate verifyDate
  then false
  else if negb (truthy mainDate) && truthy verifyDate
  then false
  else true.

(** Lines 339-342. *)
Definition hasVerifyAccount (cfg : Config) : bool :=
  truthy (Some (verifyEmail cfg)) && (0 <? Z.of_nat (length (verifyEmail cfg)))
  && truthy (Some (verifyPassword cfg))
  && (0 <? Z.of_nat (length (verifyPassword cfg))).

Section Verification.
Context {rt : Runtime}.

Definition verifyDataFreshness (cfg : Config) (run : VerifyRun) : M bool :=
  emit EvVerify ;;;
  if negb (hasVerifyAccount cfg) then
    update (set_lastVerifyTime (vr_now run)) ;;;
    ret true
  else
    tryCatch
      (await (vr_launch run) ;;;
       update (set_verifyBrowser true) ;;;
       await (vr_signIn run) ;;;
       if vr_onSignIn run then
         await (vr_closeAfterLogin run) ;;;
         ret true
       else
         await (vr_navigate run) ;;;
         update (deliver (vr_meanwhile run)) ;;;
         g <- get ;;
         let mainDate := dateOf (availableDate g) in
         let verifyDate := dateOf (vr_captured run) in
         await (vr_close run) ;;;
         update (set_verifyBrowser false) ;;;
         update (set_lastVerifyTime (vr_now run)) ;;;
         ret (verdict mainDate verifyDate))
      (fun _ =>
         g <- get ;;
         when (verifyBrowser g) (update (set_verifyBrowser false)) ;;;
         update (set_lastVerifyTime (vr_now run)) ;;;
         ret true).

End Verification.

(** *** Booking *)

(** One round of the wait for a time at lines 647-658. *)
Record Poll : Type := {
  pl_wait : Res unit;          (* page.waitForTimeout(10) *)
  pl_heard : option string;    (* a time the listener stored meanwhile *)
  pl_dropdown : option string  (* the first option of the time dropdown, or null *)
}.

(** What one call of [performBooking] meets. *)
Record Attempt : Type := {
  at_setDate : Res unit;       (* line 634 *)
  at_heard : option string;    (* a time the listener stored meanwhile *)
  at_polls : nat -> Poll;
  at_setTime : Res unit;       (* line 661 *)
  at_confirm : Res unit;       (* line 675 *)
  at_formFound : Res bool      (* page.$('#appointments_submit') *)
}.

Definition hear (t : option string) : M unit :=
  match t with
  | Some _ => update (set_availableTime t)
  | None => ret tt
  end.

(** [while (!availableTime) { ... }]: [rounds] bounds the rounds looked at. *)
Fixpoint waitForTime (rounds : nat) (k : nat) (polls : nat -> Poll) : M unit :=
  g <- get ;;
  if truthy (availableTime g) then ret tt
  else
    match rounds with
    | O => halt Pending
    | S rounds' =>
        await (pl_wait (polls k)) ;;;
        hear (pl_heard (polls k)) ;;;
        if truthy (pl_dropdown (polls k))
        then update (set_availableTime (pl_dropdown (polls k)))
        else waitForTime rounds' (S k) polls
    end.

(** [await page.$('#appointments_submit').catch(() => null)], as a boolean *)
Definition stillOnForm (a : Attempt) : bool := catch_with (at_formFound a) false.

Definition performBooking (rounds : nat) (a : Attempt) (slot : Slot) : M bool :=
  emit (EvPerformBooking slot) ;;;
  tryCatch
    (update (set_availableTime None) ;;;
     await (at_setDate a) ;;;
     hear (at_heard a) ;;;
     waitForTime rounds 0 (at_polls a) ;;;
     await (at_setTime a) ;;;
     await (at_confirm a) ;;;
     if stillOnForm a then ret false else ret true)
    (fun _ =>
       if negb (stillOnForm a) then ret true else ret false).

(** *** The monitoring loop of [runBot] *)

(** What one pass of the [while (true)] loop meets. *)
Record Iteration : Type := {
  it_early : list Arrival;     (* responses since the previous pass *)
  it_tCookie : Z;              (* Date.now() at line 814 *)
  it_clearCookies : Res unit;  (* line 820 *)
  it_relogin : Res unit;       (* lines 824-825 *)
  it_tCookieDone : Z;          (* Date.now() at line 827 *)
  it_alive : Res unit;         (* line 844 *)
  it_tVerify : Z;              (* Date.now() at line 858 *)
  it_verify : VerifyRun;
  it_tVerifyFailed : Z;        (* Date.now() at line 871 *)
  it_bodyText : string;        (* lower-cased body text, '' when unreadable *)
  it_busyWait : Res unit;      (* line 880 *)
  it_trigger : Res unit;       (* the page.evaluate of resetSelection *)
  it_tRequest : Z;             (* Date.now() at line 517 *)
  it_sleeps : nat -> list Arrival;
  it_attempts : nat -> Attempt;
  it_pauses : nat -> Res unit; (* line 936 *)
  it_delay : Res unit          (* line 958 *)
}.

Definition cookieResetIntervalMs : Z := 15 * 60 * 1000.

Definition verifyIntervalMs (cfg : Config) : Z := intervalMins cfg * 60 * 1000.

(** The guard of line 858. *)
Definition verifyDue (cfg : Config) (tNow : Z) (g : State) : bool :=
  negb (bookingInProgress g) && (verifyIntervalMs cfg <? tNow - lastVerifyTime g).

Section Loop.
Context {rt : Runtime}.

(** [resetSelection]: its own try/catch swallows a failed trigger. *)
Definition resetSelection (it : Iteration) : M unit :=
  tryCatch
    (await (it_trigger it) ;;;
     update (set_lastRequestTime (it_tRequest it)))
    (fun _ => ret tt).

(** Lines 923-935: one attempt; a booked slot ends the process. *)
Definition attemptOnce (rounds : nat) (a : Attempt) (slot : Slot) : M unit :=
  tryCatch
    (booked <- performBooking rounds a slot ;;
     if booked then halt (Exit 0) else ret tt)
    (fun _ => ret tt).

(** Lines 921-937: [left] more attempts, numbered from [attempt]. *)
Fixpoint attemptsFrom (left : nat) (attempt : nat) (rounds : nat)
    (it : Iteration) (slot : Slot) : M unit :=
  match left with
  | O => ret tt
  | S left' =>
      attemptOnce rounds (it_attempts it attempt) slot ;;;
      await (it_pauses it attempt) ;;;
      attemptsFrom left' (S attempt) rounds it slot
  end.

(** The condition of line 914. *)
Definition qualifies (cfg : Config) (slot : option Slot) : bool :=
  match slot with
  | Some s => isDateInRange (date s) (startDate cfg) (endDate cfg)
  | None => false
  end.

(** Lines 914-939. *)
Definition bookingBlock (cfg : Config) (rounds : nat) (it : Iteration)
    (slot : option Slot) : M unit :=
  match slot with
  | Some s =>
      if isDateInRange (date s) (startDate cfg) (endDate cfg) then
        update (set_bookingInProgress true) ;;;
        attemptsFrom 3 1 rounds it s ;;;
        update (set_bookingInProgress false)
      else ret tt
  | None => ret tt
  end.

(** Lines 814-837: the cookie reset every 15 minutes. *)
Definition cookieBlock (it : Iteration) : M unit :=
  g <- get ;;
  when (negb (bookingInProgress g)
        && (cookieResetIntervalMs <? it_tCookie it - lastCookieReset g))
    (tryCatch
       (await (it_clearCookies it) ;;;
        emit (fun _ => EvLogin) ;;;
        await (it_relogin it) ;;;
        update (set_lastCookieReset (it_tCookieDone it)))
       (fun _ => halt Restart)).

(** Lines 842-852: the liveness probe every 100 checks. *)
Definition aliveBlock (it : Iteration) : M unit :=
  g <- get ;;
  when (checkCount g mod 100 =? 0)
    (tryCatch (await (it_alive it)) (fun _ => halt Restart)).

(** Lines 858-873: the stale-data verification. *)
Definition verifyBlock (cfg : Config) (it : Iteration) : M unit :=
  g <- get ;;
  when (verifyDue cfg (it_tVerify it) g)
    (tryCatch
       (dataIsFresh <- verifyDataFreshness cfg (it_verify it) ;;
        if negb dataIsFresh then halt Restart else ret tt)
       (fun _ => update (set_lastVerifyTime (it_tVerifyFailed it)))).

(** Lines 876-891: "system is busy" and an expired session, every 50
    checks. *)
Definition busyBlock (it : Iteration) : M unit :=
  g <- get ;;
  when (negb (bookingInProgress g) && (checkCount g mod 50 =? 0))
    (if includes (it_bodyText it) "system is busy" then
       await (it_busyWait it) ;;;
       halt Skip
     else if includes (it_bodyText it) "sign in"
             || includes (it_bodyText it) "log in" then
       halt Restart
     else ret tt).

(** Lines 809-897: a pass up to the slot it observes. *)
Definition scan (cfg : Config) (it : Iteration) : M (option Slot) :=
  update (deliver (it_early it)) ;;;
  update (fun g => set_checkCount (checkCount g + 1) g) ;;;
  cookieBlock it ;;;
  aliveBlock it ;;;
  verifyBlock cfg it ;;;
  busyBlock it ;;;
  resetSelection it ;;;
  g <- get ;;
  let (slot, g') := waitForAvailableSlot 100 (it_sleeps it) g in
  update (fun _ => g') ;;;
  ret slot.

(** Lines 808-959, the body of the inner [try]. *)
Definition pass (cfg : Config) (rounds : nat) (it : Iteration) : M unit :=
  slot <- scan cfg it ;;
  bookingBlock cfg rounds it slot ;;;
  await (it_delay it).

(** One pass with the [catch (loopError)] of lines 960-973; [continue]
    and a swallowed error both lead to the next pass. *)
Definition iteration (cfg : Config) (rounds : nat) (it : Iteration) : M unit :=
  fun g =>
    match tryCatch (pass cfg rounds it)
            (fun msg =>
               if includes msg "closed" || includes msg "Target"
               then halt Restart
               else ret tt) g with
    | (t, g', Halt Skip) => (t, g', Go tt)
    | other => other
    end.

(** The loop over the passes a script describes; a script that ends leaves
    the loop running. *)
Fixpoint monitor (cfg : Config) (rounds : nat) (its : list Iteration) : M unit :=
  match its with
  | [] => halt Pending
  | it :: rest => iteration cfg rounds it ;;; monitor cfg rounds rest
  end.

(** What one call of [runBot] meets before and in its loop. *)
Record Session : Type := {
  ss_proxyOk : bool;           (* proxy off, or verifyProxyIP gave an address *)
  ss_launch : Res unit;        (* line 770: chromium.launch *)
  ss_page : Res unit;          (* lines 776-783: newContext, newPage *)
  ss_login : Res unit;         (* line 790 *)
  ss_navigate : Res unit;      (* line 793 *)
  ss_now : Z;                  (* Date.now() at lines 799-802 *)
  ss_passes : list Iteration;
  ss_close : Res unit          (* line 980: browser.close() in the catch *)
}.

(** [if (browser)] in the [catch] of [runBot]: the variable is assigned
    when the launch of line 770 resolves. *)
Definition launched (ss : Session) : bool :=
  match ss_launch ss with
  | Ok _ => true
  | Err _ => false
  end.

(** Lines 976-987, the [catch] of [runBot]. The browser is closed without
    a [catch] of its own: when that rejects, so does [runBot], and nothing
    calls it again. *)
Definition recover (ss : Session) : M unit :=
  when (launched ss) (await (ss_close ss)) ;;;
  halt Restart.

(** One call of [runBot] up to its [return runBot()], exit or throw. *)
Definition session (cfg : Config) (rounds : nat) (ss : Session) : M unit :=
  if negb (ss_proxyOk ss) then halt (Exit 1)
  else
    match startDate cfg, endDate cfg with
    | Some _, Some _ =>
        tryCatch
          (await (ss_launch ss) ;;;
           await (ss_page ss) ;;;
           emit (fun _ => EvLogin) ;;;
           await (ss_login ss) ;;;
           await (ss_navigate ss) ;;;
           update (set_checkCount 0) ;;;
           update (set_lastCookieReset (ss_now ss)) ;;;
           update (set_lastVerifyTime (ss_now ss)) ;;;
           monitor cfg rounds (ss_passes ss))
          (fun _ => recover ss)
    | _, _ => halt (Thrown "Invalid time value")
    end.

(** [runBot] with its restarts, one scripted session per call. *)
Fixpoint runBot (cfg : Config) (rounds : nat) (script : list Session) : M unit :=
  match script with
  | [] => halt Pending
  | ss :: rest =>
      fun g =>
        match session cfg rounds ss g with
        | (t, g', Halt Restart) =>
            match runBot cfg rounds rest g' with
            | (t', g'', r) => ((t ++ t')%list, g'', r)
            end
        | other => other
        end
  end.

End Loop.

End Part000.

(** ** The rewritten bot ([visa-bot.js]) *)
Module VisaBot.
Import Js.

(** [slot] as [SlotChecker.checkForSlot] returns it; only its date is read. *)
Record Slot : Type := { date : string }.

(** [getRandomDelay]; [random] is the value [Math.random()] returns. *)
Definition getRandomDelay (targetCPM : Z) (random : Q) : jsnum :=
  let baseDelay := js_div (of_Z 60000) (of_Z targetCPM) in
  let jitter :=
    js_mul (js_mul baseDelay (JFin (3 # 10)))
           (js_sub (JFin random) (JFin (1 # 2))) in
  js_max (of_Z 1000) (js_floor (js_add baseDelay jitter)).

Section Tracker.
Context {rt : Runtime}.

(** Lines 787-793 of [runMonitoringLoop]: the new value of
    [this.closestSlot] after a check that returned [slot]. *)
Definition trackClosest (slot : option Slot) (closestSlot : option Slot)
    : option Slot :=
  match slot with
  | Some s =>
      let slotDate := Date_parse (date s) in
      match closestSlot with
      | None => Some s
      | Some closest =>
          if date_lt slotDate (Date_parse (date closest))
          then Some s
          else closestSlot
      end
  | None => closestSlot
  end.

Definition trackAll (slots : list (option Slot)) (closestSlot : option Slot)
    : option Slot :=
  fold_left (fun c s => trackClosest s c) slots closestSlot.

End Tracker.

End VisaBot.

(** ** The direct-connection bot ([ok.js]) *)
Module Ok.
Import Js.

(** Modelled from the spec: [ban_tracker.js], which [ok.js] requires for
    [banAccount] and [isAccountBanned], is not among the sources. The spec
    gives the record ([CredentialBanRecord]: email, reason, bannedAt), the
    interface ([ban(id, reason)], [isBanned(id)]) and the policy: the list
    is persisted across restarts and append-only during a run, and a
    credential is banned once a record for it is present. *)
Record CredentialBanRecord : Type := {
  email : string;
  reason : string;
  bannedAt : Z
}.

Definition BanList : Type := list CredentialBanRecord.

Definition banAccount (who why : string) (at_ : Z) (bans : BanList) : BanList :=
  (bans ++ [{| email := who; reason := why; bannedAt := at_ |}])%list.

Definition isAccountBanned (who : string) (bans : BanList) : bool :=
  existsb (fun r => (email r =? who)%string) bans.

(** The counter of the module and the ban list on disk. *)
Record State : Type := {
  consecutiveLoginFailures : Z;
  bans : BanList
}.


(** How [login(page, browser)] ends. A call that rejects may have
    recorded a ban before: it calls [banAccount] at lines 547 and 602 and
    then closes the browser, at lines 556 and 607, without a [catch];
    [banned] is the reason it gave, if it did. *)
Inductive LoginResult : Type :=
| LoggedIn
| LoginThrew (msg : string) (banned : option string)
                                   (* rejected; [.catch] turns it into false *)
| LoginBusy                        (* lines 531-539: cooldown, process.exit(20) *)
| LoginLocked (lockMsg : string).  (* lines 542-558, 600-608: ban, process.exit(10) *)

(** How a session that logged in goes on. *)
Inductive AfterLogin : Type :=
| NavigationFailed                 (* line 254: return runBot() *)
| SessionLost                      (* line 414: return runBot() *)
| Booked                           (* line 376: break *)
| BusyExit                         (* line 302: process.exit(20) *)
| Crashed.                         (* an error caught at line 426 *)

Record Session : Type := {
  ss_launch : Res unit;            (* lines 94-202 *)
  ss_login : LoginResult;
  ss_close : Res unit;             (* line 223: browser.close() *)
  ss_after : AfterLogin;
  ss_clock : Z                     (* the time a ban would be recorded at *)
}.

Inductive Event : Type :=
| EvLogin (who : string).          (* login is called for the credential *)

Inductive Outcome : Type :=
| Exited (code : Z)                (* process.exit(code) *)
| Returned                         (* runBot returned without a restart *)
| Running.                         (* the script ended before the bot did *)

Definition ban (who why : string) (at_ : Z) (st : State) : State :=
  {| consecutiveLoginFailures := consecutiveLoginFailures st;
     bans := banAccount who why at_ (bans st) |}.

Definition set_failures (n : Z) (st : State) : State :=
  {| consecutiveLoginFailures := n; bans := bans st |}.

(** [runBot] with its restarts, one scripted session per call. An error
    that reaches the [catch] of line 426 ends the call without a restart. *)
Fixpoint runBot (who : string) (script : list Session) (st : State)
    : list Event * State * Outcome :=
  if isAccountBanned who (bans st) then ([], st, Exited 10)
  else
    match script with
    | [] => ([], st, Running)
    | ss :: rest =>
        if 3 <=? consecutiveLoginFailures st then
          ([], ban who "Too many login failures" (ss_clock ss) st, Exited 1)
        else
          match ss_launch ss with
          | Err _ => ([], st, Returned)
          | Ok _ =>
              match ss_login ss with
              | LoginBusy => ([EvLogin who], st, Exited 20)
              | LoginLocked lockMsg =>
                  ([EvLogin who], ban who lockMsg (ss_clock ss) st, Exited 10)
              | LoginThrew _ banned =>
                  let st := match banned with
                            | Some lockMsg => ban who lockMsg (ss_clock ss) st
                            | None => st
                            end in
                  let st := set_failures (consecutiveLoginFailures st + 1) st in
                  match ss_close ss with
                  | Err _ => ([EvLogin who], st, Returned)
                  | Ok _ =>
                      if consecutiveLoginFailures st <? 3 then
                        match runBot who rest st with
                        | (t, st', r) => (EvLogin who :: t, st', r)
                        end
                      else
                        ([EvLogin who],
                         ban who "Max login attempts reached (3 failures)"
                           (ss_clock ss) st,
                         Exited 10)
                  end
              | LoggedIn =>
                  let st := set_failures 0 st in
                  match ss_after ss with
                  | NavigationFailed | SessionLost =>
                      match runBot who rest st with
                      | (t, st', r) => (EvLogin who :: t, st', r)
                      end
                  | Booked | Crashed => ([EvLogin who], st, Returned)
                  | BusyExit => ([EvLogin who], st, Exited 20)
                  end
              end
          end
    end.

End Ok.

(** ** The formula of the spec for the cadence *)
Module Spec.

(** "max(0, floor(60000/targetCPM - 100))", read over the rationals. *)
Definition inter_tick_delay (targetCPM : Z) : Z :=
  Z.max 0 (Qfloor (inject_Z 60000 / inject_Z targetCPM - inject_Z 100)).

End Spec.

(** ** The vocabulary of the spec's freshness rule *)
Module Verdict.

(** A date is defined when a slot was captured and its date is not the
    empty string, which no calendar date is: the test the bot applies to a
    date with [if (date)]. *)
Definition defined (d : option string) : Prop :=
  exists s, d = Some s /\ s <> "".

(** The run gets as far as the comparison of lines 466-490: an account is
    configured, the secondary login succeeds and no step rejects. *)
Definition compares (cfg : Part000.Config) (run : Part000.VerifyRun) : Prop :=
  Part000.verifyEmail cfg <> "" /\ Part000.verifyPassword cfg <> ""
  /\ Part000.vr_launch run = Js.Ok tt /\ Part000.vr_signIn run = Js.Ok tt
  /\ Part000.vr_onSignIn run = false
  /\ Part000.vr_navigate run = Js.Ok tt /\ Part000.vr_close run = Js.Ok tt.

(** The secondary login fails: the page is still the sign-in page. *)
Definition loginFails (cfg : Part000.Config) (run : Part000.VerifyRun) : Prop :=
  Part000.verifyEmail cfg <> "" /\ Part000.verifyPassword cfg <> ""
  /\ Part000.vr_launch run = Js.Ok tt /\ Part000.vr_signIn run = Js.Ok tt
  /\ Part000.vr_onSignIn run = true
  /\ Part000.vr_closeAfterLogin run = Js.Ok tt.

End Verdict.

(** ** The vocabulary of the closest-slot tracker *)
Module Tracker.
Section Vocabulary.
Context {rt : Js.Runtime}.

(** The arrival makes the v2.3 listener store a slot whose date reads as
    the time [t], today or later by the listener's own clock. *)
Definition shows (a : Part000.Arrival) (t : Z) : Prop :=
  exists s, Part000.observed a = Some (Some s)
            /\ Js.Date_parse (Part000.date s) = Some t
            /\ Part000.today a <= t.

(** The v2.3 tracker holds a slot, dated [t] or earlier. *)
Definition holds_by (g : Part000.State) (t : Z) : Prop :=
  exists c tc, Part000.closestSlotFound g = Some c
               /\ Js.Date_parse (Part000.date c) = Some tc /\ tc <= t.

(** The v2.3 tracker went from [before] to [after] by taking the slot the
    arrival [a] shows, dated today or later and strictly earlier than the
    slot it held, if it held one. *)
Definition improved (a : Part000.Arrival) (before after : option Part000.Slot)
    : Prop :=
  exists s t, Part000.observed a = Some (Some s) /\ after = Some s
              /\ Js.Date_parse (Part000.date s) = Some t
              /\ Part000.today a <= t
              /\ (before = None
                  \/ exists c tc, before = Some c
                                  /\ Js.Date_parse (Part000.date c) = Some tc
                                  /\ t < tc).

(** The same for the tracker of [visa-bot.js], which has no clock. *)
Definition improved_vb (slot : option VisaBot.Slot)
    (before after : option VisaBot.Slot) : Prop :=
  exists s, slot = Some s /\ after = Some s
            /\ (before = None
                \/ exists c t tc, before = Some c
                                  /\ Js.Date_parse (VisaBot.date s) = Some t
                                  /\ Js.Date_parse (VisaBot.date c) = Some tc
                                  /\ t < tc).

End Vocabulary.
End Tracker.

(** ** The vocabulary of a booking attempt *)
Module Booking.

(** The wait for a time ends in round [k]: the pause of that round rejects,
    or a time is heard or shows in the dropdown during it. *)
Definition ends_in (a : Part000.Attempt) (k : nat) : Prop :=
  (exists msg, Part000.pl_wait (Part000.at_polls a k) = Js.Err msg)
  \/ Js.truthy (Part000.pl_heard (Part000.at_polls a k)) = true
  \/ Js.truthy (Part000.pl_dropdown (Part000.at_polls a k)) = true.

(** The submission form is absent after the attempt: the lookup of
    [#appointments_submit] finds nothing, or fails and is taken as null. *)
Definition formAbsent (a : Part000.Attempt) : bool :=
  match Part000.at_formFound a with
  | Js.Ok found => negb found
  | Js.Err _ => true
  end.

(** The calls of [performBooking] in a trace. *)
Definition attempts (t : list Part000.Event) : nat :=
  List.length (filter (fun e => match e with
                                | Part000.EvPerformBooking _ _ => true
                                | _ => false
                                end) t).

(** The calls of [verifyDataFreshness] in a trace. *)
Definition verifications (t : list Part000.Event) : nat :=
  List.length (filter (fun e => match e with
                                | Part000.EvVerify _ => true
                                | _ => false
                                end) t).

Section Window.
Context {rt : Js.Runtime}.

(** The date of the slot lies within the DateWindow, both ends included:
    it reads as a time between the times of the start and of the end. *)
Definition in_window (cfg : Part000.Config) (s : Part000.Slot) : Prop :=
  exists d lo hi,
    Js.Date_parse (Part000.date s) = Some d
    /\ Part000.startDate cfg = Some lo /\ Part000.endDate cfg = Some hi
    /\ lo <= d <= hi.

End Window.


(** Run from [g], the block leaves the flag as it is and calls nothing
    but a login or, the flag being cleared, a verification. *)
Definition quiet {A : Type} (m : Part000.M A) (g : Part000.State) : Prop :=
  Part000.bookingInProgress (Part000.state_of (m g))
    = Part000.bookingInProgress g
  /\ Forall (fun e => e = Part000.EvLogin
                      \/ (e = Part000.EvVerify false
                          /\ Part000.bookingInProgress g = false))
       (Part000.trace_of (m g)).

(** In the trace, every verification starts with the flag cleared and
    every booking attempt with the flag set. *)
Definition disciplined (t : list Part000.Event) : Prop :=
  Forall (fun e => match e with
                   | Part000.EvVerify busy => busy = false
                   | Part000.EvPerformBooking _ busy => busy = true
                   | Part000.EvLogin => True
                   end) t.

End Booking.

(** ** The vocabulary of the login escalation *)
Module Escalation.

(** A call of [runBot] in [ok.js] whose login is refused: the browser
    starts and [login] rejects, with or without a ban of its own. *)
Definition refused (ss : Ok.Session) : Prop :=
  Ok.ss_launch ss = Js.Ok tt
  /\ exists msg banned, Ok.ss_login ss = Ok.LoginThrew msg banned.


(** A call of [runBot] in [ok.js] whose login fails and nothing else: the
    browser starts, [login] rejects without having recorded a ban, and the
    browser closes. *)
Definition fails (ss : Ok.Session) : Prop :=
  Ok.ss_launch ss = Js.Ok tt
  /\ (exists msg, Ok.ss_login ss = Ok.LoginThrew msg None)
  /\ Ok.ss_close ss = Js.Ok tt.

(** A call of [runBot] in the v2.3 bot whose login fails. *)
Definition fails_v23 (ss : Part000.Session) : Prop :=
  Part000.ss_proxyOk ss = true
  /\ Part000.ss_launch ss = Js.Ok tt
  /\ Part000.ss_page ss = Js.Ok tt
  /\ exists msg, Part000.ss_login ss = Js.Err msg.

(** The browser closes in the [catch] of the v2.3 bot (line 980). *)
Definition closes_v23 (ss : Part000.Session) : Prop :=
  Part000.ss_close ss = Js.Ok tt.

(** The calls of [login] in a trace of the v2.3 bot. *)
Definition logins (t : list Part000.Event) : nat :=
  List.length (filter (fun e => match e with
                                | Part000.EvLogin => true
                                | _ => false
                                end) t).

End Escalation.

(** ** The scenarios of the spec, as inputs *)
Module Scenario.
Import Js Part000.

(** Window 2026-01-01 to 2026-03-31, verification every 5 minutes with a
    configured secondary account, 240 checks per minute. *)
Definition cfg : Config :=
  {| verifyEmail := "verify@example.com"; verifyPassword := "secret";
     intervalMins := 5;
     startDate := IsoDate.parse "2026-01-01";
     endDate := IsoDate.parse "2026-03-31";
     targetCPM := 240 |}.

Definition slot (d : string) : Slot := {| date := d |}.

(** An availability response whose first record is dated [d], read at
    time [t] on the day that starts at [midnight]. *)
Definition availability (d : string) (t midnight : Z) : Arrival :=
  {| url := "/schedule/1/appointment/days/95.json?appointments[expedite]=false";
     body := DateList [Some (slot d); Some (slot "2027-01-01")];
     now := t; today := midnight |}.

(** A verification run in which nothing rejects, the secondary login
    succeeds and the verification page captures [seen]. *)
Definition verification (seen : option Slot) (t : Z) : VerifyRun :=
  {| vr_launch := Ok tt; vr_signIn := Ok tt; vr_onSignIn := false;
     vr_closeAfterLogin := Ok tt; vr_navigate := Ok tt; vr_meanwhile := [];
     vr_captured := seen; vr_close := Ok tt; vr_now := t |}.

(** A verification run whose secondary login stays on the sign-in page. *)
Definition loginFailure (t : Z) : VerifyRun :=
  {| vr_launch := Ok tt; vr_signIn := Ok tt; vr_onSignIn := true;
     vr_closeAfterLogin := Ok tt; vr_navigate := Ok tt; vr_meanwhile := [];
     vr_captured := None; vr_close := Ok tt; vr_now := t |}.

(** A booking attempt that hears the time "09:15" at once and ends with
    the form found ([true]) or gone ([false]). *)
Definition attempt (formFound : Res bool) : Attempt :=
  {| at_setDate := Ok tt; at_heard := Some "09:15";
     at_polls := fun _ => {| pl_wait := Ok tt; pl_heard := None;
                            pl_dropdown := None |};
     at_setTime := Ok tt; at_confirm := Ok tt; at_formFound := formFound |}.

(** A pass at time [t] in which no driver call rejects: [arrivals] come in
    during the first sleep of the wait, [run] is the verification it would
    start, every booking attempt ends as [formFound] says. *)
Definition pass (t : Z) (arrivals : list Arrival) (run : VerifyRun)
    (formFound : Res bool) : Iteration :=
  {| it_early := []; it_tCookie := t; it_clearCookies := Ok tt;
     it_relogin := Ok tt; it_tCookieDone := t; it_alive := Ok tt;
     it_tVerify := t; it_verify := run; it_tVerifyFailed := t;
     it_bodyText := "schedule appointments"; it_busyWait := Ok tt;
     it_trigger := Ok tt; it_tRequest := t;
     it_sleeps := fun k => match k with O => arrivals | _ => [] end;
     it_attempts := fun _ => attempt formFound;
     it_pauses := fun _ => Ok tt; it_delay := Ok tt |}.

(** The pass [it] with the pause after the attempt numbered [k] ending as
    [r] says. *)
Definition withPause (it : Iteration) (k : nat) (r : Res unit) : Iteration :=
  {| it_early := it_early it; it_tCookie := it_tCookie it;
     it_clearCookies := it_clearCookies it; it_relogin := it_relogin it;
     it_tCookieDone := it_tCookieDone it; it_alive := it_alive it;
     it_tVerify := it_tVerify it; it_verify := it_verify it;
     it_tVerifyFailed := it_tVerifyFailed it; it_bodyText := it_bodyText it;
     it_busyWait := it_busyWait it; it_trigger := it_trigger it;
     it_tRequest := it_tRequest it; it_sleeps := it_sleeps it;
     it_attempts := it_attempts it;
     it_pauses := fun n => if Nat.eqb n k then r else it_pauses it n;
     it_delay := it_delay it |}.

(** The bot in its loop since time 0, nothing observed yet. *)
Definition idle : State := initial 0.

(** A call of [runBot] whose login is refused. *)
Definition failedLogin : Session :=
  {| ss_proxyOk := true; ss_launch := Ok tt; ss_page := Ok tt;
     ss_login := Err "LOGIN_FAILED";
     ss_navigate := Ok tt; ss_now := 0; ss_passes := []; ss_close := Ok tt |}.

End Scenario.

(** * Part I, continued: the rest of the sources *)

(** ** What the three files share *)
Module Shared.
Import Js.

Definition isSlash (c : ascii) : bool := (c =? "/")%char.

Fixpoint noSlash (s : string) : bool :=
  match s with
  | EmptyString => true
  | String c rest => negb (isSlash c) && noSlash rest
  end.

(** [[^\/]+$]: one character or more, none of them a slash, up to the end. *)
Definition lastSegment (s : string) : bool :=
  negb (s =? "")%string && noSlash s.

(** [currentUrl.replace(/\/[^\/]+$/, '/appointment')]: the search goes from
    the left, and the first slash after which only a last segment is left
    is where the match starts. *)
Fixpoint appointmentUrl (currentUrl : string) : string :=
  match currentUrl with
  | EmptyString => EmptyString
  | String c rest =>
      if isSlash c && lastSegment rest then "/appointment"
      else String c (appointmentUrl rest)
  end.

(** [xs[Math.floor(Math.random() * xs.length)]]; [random] is the value
    [Math.random()] returns. [None] is [undefined]. *)
Definition pick {A : Type} (xs : list A) (random : Q) : option A :=
  match Qfloor (random * inject_Z (Z.of_nat (List.length xs))) with
  | Zneg _ => None
  | i => nth_error xs (Z.to_nat i)
  end.

End Shared.

(** ** The cooldown files of [ok.js] *)
Module OkCooldown.

Definition isAlnum (c : ascii) : bool :=
  let n := Z.of_nat (nat_of_ascii c) in
  ((48 <=? n) && (n <=? 57)) || ((65 <=? n) && (n <=? 90))
  || ((97 <=? n) && (n <=? 122)).

(** [email.replace(/[^a-zA-Z0-9]/g, '_')], one character at a time. *)
Fixpoint sanitize (email : string) : string :=
  match email with
  | EmptyString => EmptyString
  | String c rest =>
      String (if isAlnum c then c else "_"%char) (sanitize rest)
  end.

Definition COOLDOWN_DURATION : Z := 5 * 60 * 1000.

(** The name of the file under the [cooldowns] directory. *)
Definition cooldownFile (email : string) : string :=
  sanitize email ++ ".json".

(** What [setCooldown] writes; [createdAt] is kept as the instant that
    [new Date()] reads, its ISO rendering is not modelled. *)
Record Cooldown : Type := {
  email : string;
  reason : string;
  until : Z;
  createdAt : Z
}.

(** The cooldown directory, file name to content. *)
Definition Dir : Type := list (string * Cooldown).

Definition readFile (name : string) (d : Dir) : option Cooldown :=
  match find (fun e => (fst e =? name)%string) d with
  | Some e => Some (snd e)
  | None => None
  end.

(** [fs.writeFileSync]: the file is created or replaced. *)
Definition writeFile (name : string) (c : Cooldown) (d : Dir) : Dir :=
  (name, c) :: filter (fun e => negb (fst e =? name)%string) d.

(** [now] is what [Date.now()] returns and [created] what [new Date()]
    reads right after it. *)
Definition setCooldown (who why : string) (now created : Z) (d : Dir) : Dir :=
  writeFile (cooldownFile who)
    {| email := who; reason := why; until := now + COOLDOWN_DURATION;
       createdAt := created |} d.

End OkCooldown.

(** ** What a block of the v2.3 bot keeps *)
Module Frame.
Import Part000.

(** Every run of the block takes a state to one related to it by [R]. *)
Definition keeps (R : State -> State -> Prop) {A : Type} (m : M A) : Prop :=
  forall g, R g (state_of (m g)).

(** What an arrival makes the handler store in [availableTime], when it
    stores: the first element of a non-empty [available_times] (line 306). *)
Definition heardTime (a : Arrival) : option (option string) :=
  if isTimesUrl (url a) then
    match body a with
    | TimesObj (first :: _) => Some first
    | _ => None
    end
  else None.

(** Run from [g], the block calls nothing worth recording and leaves the
    flag as it is. *)
Definition mute {A : Type} (m : M A) (g : State) : Prop :=
  trace_of (m g) = []
  /\ bookingInProgress (state_of (m g)) = bookingInProgress g.

(** Every early end of the block is one that [P] allows after the calls
    made. *)
Definition ends {A : Type} (P : list Event -> Stop -> Prop) (m : M A) : Prop :=
  forall g s, flow_of (m g) = Halt s -> P (trace_of (m g)) s.

(** An exit, if it is one, is the exit with code 0, after a call of
    [performBooking]. *)
Definition bookedExit (t : list Event) (s : Stop) : Prop :=
  match s with
  | Exit code => code = 0 /\ (0 < Booking.attempts t)%nat
  | _ => True
  end.

Section Relations.
Context {rt : Js.Runtime}.

(** The tracker holds what it held, or a slot of a strictly earlier date. *)
Definition no_later (g g' : State) : Prop :=
  forall c, closestSlotFound g = Some c ->
    exists c', closestSlotFound g' = Some c'
      /\ (c' = c
          \/ exists t t', Js.Date_parse (date c) = Some t
                          /\ Js.Date_parse (date c') = Some t' /\ t' < t).

(** The tracker, if it holds a slot, holds one whose date reads as a
    date. *)
Definition dated (g : State) : Prop :=
  forall c, closestSlotFound g = Some c ->
    exists tc, Js.Date_parse (date c) = Some tc.

End Relations.

End Frame.

(** ** Scenes for the listener and the wait *)
Module Scenes.
Import Js Part000.

(** An availability response with no date to offer. *)
Definition noSlots (t midnight : Z) : Arrival :=
  {| url := "/schedule/1/appointment/days/95.json?appointments[expedite]=false";
     body := DateList []; now := t; today := midnight |}.

(** An availability response whose array is headed by null. *)
Definition nullHead (t midnight : Z) : Arrival :=
  {| url := "/schedule/1/appointment/days/95.json?appointments[expedite]=false";
     body := DateList [None]; now := t; today := midnight |}.

(** The times of one date. *)
Definition times (time : string) (t midnight : Z) : Arrival :=
  {| url := "/schedule/1/appointment/times/95.json?date=2026-02-10&appointments[expedite]=false";
     body := TimesObj [Some time]; now := t; today := midnight |}.

(** A booking attempt on a form whose time never shows. *)
Definition noTime : Attempt :=
  {| at_setDate := Ok tt; at_heard := None;
     at_polls := fun _ => {| pl_wait := Ok tt; pl_heard := None;
                            pl_dropdown := None |};
     at_setTime := Ok tt; at_confirm := Ok tt; at_formFound := Ok true |}.

End Scenes.

(** ** Page texts *)
Module Text.

(** [c.toLowerCase()] on the letters A to Z. The markers the bots look for
    in a lower-cased page text are made of a to z and the blank, and of the
    letters outside A to Z only the Kelvin sign lowers into one of a to z,
    into a k, which no marker holds. *)
Definition lowerChar (c : ascii) : ascii :=
  let n := nat_of_ascii c in
  if (65 <=? n)%nat && (n <=? 90)%nat then ascii_of_nat (n + 32) else c.

Fixpoint toLowerCase (s : string) : string :=
  match s with
  | EmptyString => EmptyString
  | String c rest => String (lowerChar c) (toLowerCase rest)
  end.

End Text.

(** ** The login of the v2.3 bot *)
Module Part000Login.
Import Js.

(** What one call of [login] meets. The checkbox clicks and the error
    modal are inside handlers that swallow every error, and so is the wait
    for the navigation; they cannot end the call. *)
Record LoginRun : Type := {
  lg_open : Res unit;          (* lines 529-534: goto, the form appears *)
  lg_pageText : Res string;    (* line 537: innerText('body') *)
  lg_submit : Res unit;        (* lines 547-548 and 557: fill, fill, submit *)
  lg_onSignIn : bool           (* line 571: the URL still has 'sign_in' *)
}.

Definition busyText (pageText : string) : bool :=
  includes (Text.toLowerCase pageText) "system is busy"
  || includes (Text.toLowerCase pageText) "too many requests".

Definition lockedText (pageText : string) : bool :=
  includes pageText "account is locked".

(** Lines 526-577. *)
Definition login (run : LoginRun) : Res bool :=
  bind (lg_open run) (fun _ =>
    let pageText := catch_with (lg_pageText run) "" in
    if busyText pageText then Err "SYSTEM_BUSY"
    else if lockedText pageText then Err "ACCOUNT_LOCKED"
    else
      bind (lg_submit run) (fun _ =>
        if lg_onSignIn run then Err "LOGIN_FAILED" else Ok true)).

(** A call of [runBot] with the proxy verified and the browser started,
    whose [login] goes as [run] says; [close] is how the browser closes if
    the call ends in the [catch] of [runBot]. *)
Definition sessionWith (run : LoginRun) (navigate : Res unit) (tNow : Z)
    (passes : list Part000.Iteration) (close : Res unit) : Part000.Session :=
  {| Part000.ss_proxyOk := true;
     Part000.ss_launch := Ok tt;
     Part000.ss_page := Ok tt;
     Part000.ss_login := bind (login run) (fun _ => Ok tt);
     Part000.ss_navigate := navigate;
     Part000.ss_now := tNow;
     Part000.ss_passes := passes;
     Part000.ss_close := close |}.

End Part000Login.

(** ** Scenes of [ok.js] *)
Module OkScenes.
Import Js Ok.

(** A session whose login is refused. *)
Definition refused : Session :=
  {| ss_launch := Ok tt; ss_login := LoginThrew "STILL_ON_SIGN_IN" None;
     ss_close := Ok tt; ss_after := Crashed; ss_clock := 0 |}.

(** A session that logs in and loses its session later. *)
Definition lost : Session :=
  {| ss_launch := Ok tt; ss_login := LoggedIn;
     ss_close := Ok tt; ss_after := SessionLost; ss_clock := 0 |}.

Definition fresh : State := {| consecutiveLoginFailures := 0; bans := [] |}.

End OkScenes.

(** ** The login of [ok.js] *)
Module OkLogin.
Import Js.

(** What one call of [login(page, browser)] meets. The clicks on the
    checkbox swallow their errors; the notifications are sent with a
    [catch]. *)
Record LoginRun : Type := {
  lr_gotos : nat -> Res unit;       (* lines 505-512, by attempt from 0: the
                                       goto rejects, or the response is
                                       missing or not ok (HTTP_...) *)
  lr_retryPauses : nat -> Res unit; (* line 518, after the failed attempt *)
  lr_form : Res unit;               (* line 523 *)
  lr_pageText : Res string;         (* line 524 *)
  lr_lockMsg : string;              (* lines 543-544 *)
  lr_close : Res unit;              (* browser.close() at line 538, 556 or 607 *)
  lr_submit : Res unit;             (* lines 560-561 and 587 *)
  lr_modal : Res unit;              (* lines 589-595 *)
  lr_navigation : Res unit;         (* line 597 *)
  lr_postLoginText : Res string;    (* line 599 *)
  lr_onSignIn : bool                (* line 611 *)
}.

Definition maxRetries : nat := 3.

Definition busyText (pageText : string) : bool :=
  includes (Text.toLowerCase pageText) "system is busy"
  || includes (Text.toLowerCase pageText) "try again later"
  || includes (Text.toLowerCase pageText) "service unavailable"
  || includes (Text.toLowerCase pageText) "too many requests".

Definition lockedText (pageText : string) : bool :=
  includes pageText "Your account is locked"
  || includes pageText "too many login attempts".

(** How the call ends, and what it did on the way. *)
Record LoginEnd : Type := {
  le_result : Ok.LoginResult;
  le_gotos : nat;                   (* calls of page.goto *)
  le_cooldown : option string;      (* the reason given to setCooldown *)
  le_ban : option string;           (* the reason given to banAccount *)
  le_submitted : bool               (* the credentials were typed and sent *)
}.

(** Lines 503-520: [left] attempts remain, [retryCount] have failed. The
    result is the error that leaves the loop, if one does, and the number
    of gotos made. *)
Fixpoint connect (left retryCount : nat) (run : LoginRun) : Res unit * nat :=
  match left with
  | O => (Ok tt, O)
  | S left' =>
      match lr_gotos run retryCount with
      | Ok _ => (Ok tt, 1%nat)
      | Err msg =>
          if (maxRetries <=? S retryCount)%nat then (Err msg, 1%nat)
          else
            match lr_retryPauses run retryCount with
            | Err msg' => (Err msg', 1%nat)
            | Ok _ =>
                let (r, n) := connect left' (S retryCount) run in (r, S n)
            end
      end
  end.

Definition threw (msg : string) (gotos : nat) (cooldown ban : option string)
    (submitted : bool) : LoginEnd :=
  {| le_result := Ok.LoginThrew msg ban; le_gotos := gotos;
     le_cooldown := cooldown; le_ban := ban; le_submitted := submitted |}.

(** Lines 498-621. *)
Definition login (run : LoginRun) : LoginEnd :=
  match connect maxRetries 0 run with
  | (Err msg, n) => threw msg n None None false
  | (Ok _, n) =>
      match lr_form run with
      | Err msg => threw msg n None None false
      | Ok _ =>
      match lr_pageText run with
      | Err msg => threw msg n None None false
      | Ok pageText =>
          if busyText pageText then
            match lr_close run with
            | Err msg => threw msg n (Some "System busy") None false
            | Ok _ =>
                {| le_result := Ok.LoginBusy; le_gotos := n;
                   le_cooldown := Some "System busy"; le_ban := None;
                   le_submitted := false |}
            end
          else if lockedText pageText then
            match lr_close run with
            | Err msg => threw msg n None (Some (lr_lockMsg run)) false
            | Ok _ =>
                {| le_result := Ok.LoginLocked (lr_lockMsg run); le_gotos := n;
                   le_cooldown := None; le_ban := Some (lr_lockMsg run);
                   le_submitted := false |}
            end
          else
            match lr_submit run with
            | Err msg => threw msg n None None false
            | Ok _ =>
            match lr_modal run with
            | Err msg => threw msg n None None true
            | Ok _ =>
            match lr_navigation run with
            | Err msg => threw msg n None None true
            | Ok _ =>
            match lr_postLoginText run with
            | Err msg => threw msg n None None true
            | Ok postLoginText =>
                if lockedText postLoginText then
                  match lr_close run with
                  | Err msg =>
                      threw msg n None (Some "Account locked post-login") true
                  | Ok _ =>
                      {| le_result := Ok.LoginLocked "Account locked post-login";
                         le_gotos := n; le_cooldown := None;
                         le_ban := Some "Account locked post-login";
                         le_submitted := true |}
                  end
                else if lr_onSignIn run then
                  threw "STILL_ON_SIGN_IN" n None None true
                else
                  {| le_result := Ok.LoggedIn; le_gotos := n;
                     le_cooldown := None; le_ban := None;
                     le_submitted := true |}
            end end end end
      end end
  end.

(** A call of [runBot] whose browser starts and closes, with the login
    going as [run] says. *)
Definition sessionWith (run : LoginRun) (clock : Z) : Ok.Session :=
  {| Ok.ss_launch := Ok tt; Ok.ss_login := le_result (login run);
     Ok.ss_close := Ok tt; Ok.ss_after := Ok.Crashed; Ok.ss_clock := clock |}.

(** The site does not answer: every goto fails, the pauses in between
    elapse. *)
Definition outage (run : LoginRun) : Prop :=
  forall k, (exists msg, lr_gotos run k = Err msg)
            /\ lr_retryPauses run k = Ok tt.

End OkLogin.

(** ** The booking of [ok.js] *)
Module OkBooking.
Import Js.

(** What one call of [performBooking(page, slot)] meets. The listener of
    the page stays attached for the whole session and stores a time in
    [availableTime] whenever the times of a date arrive; nothing in
    [ok.js] ever sets the variable back to null. *)
Record BookingRun : Type := {
  bk_open : Res unit;          (* lines 695-699: the date picker opens *)
  bk_month : Res unit;         (* lines 702-743: to the month of the slot *)
  bk_day : Res bool;           (* lines 746-769: the day was clicked *)
  bk_settle : Res unit;        (* line 783 *)
  bk_heard : option string;    (* the last time stored during lines 695-783 *)
  bk_polls : nat -> Res unit * option string;
                               (* line 788, and a time stored meanwhile *)
  bk_submit : Res unit         (* lines 793 and 795 *)
}.

Definition hear (heard : option string) (availableTime : option string)
    : option string :=
  match heard with
  | Some t => Some t
  | None => availableTime
  end.

(** Lines 786-790: [left] polls remain. The result is the error that ends
    the wait, if one does, else the time; and the number of polls made. *)
Fixpoint waitForTime (left timeCounter : nat) (run : BookingRun)
    (availableTime : option string) : Res (option string) * nat :=
  match availableTime with
  | Some _ => (Ok availableTime, O)
  | None =>
      match left with
      | O => (Ok None, O)
      | S left' =>
          match fst (bk_polls run timeCounter) with
          | Err msg => (Err msg, 1%nat)
          | Ok _ =>
              let (r, n) :=
                waitForTime left' (S timeCounter) run
                  (hear (snd (bk_polls run timeCounter)) None) in
              (r, S n)
          end
      end
  end.

(** Lines 686-812: the result, the value [availableTime] is left with (as
    far as the call itself tells), and the polls made. The fallback click
    of line 775 swallows its error, so the call goes on whether or not the
    day was clicked. *)
Definition performBooking (run : BookingRun) (availableTime : option string)
    : bool * option string * nat :=
  let heard := hear (bk_heard run) availableTime in
  match bk_open run, bk_month run, bk_day run, bk_settle run with
  | Ok _, Ok _, Ok _, Ok _ =>
      match waitForTime 50 0 run heard with
      | (Err _, n) => (false, heard, n)
      | (Ok time, n) =>
          if truthy time then
            match bk_submit run with
            | Ok _ => (true, time, n)
            | Err _ => (false, time, n)
            end
          else (false, time, n)
      end
  | _, _, _, _ => (false, heard, O)
  end.

(** The date picker works and the settling pause elapses. *)
Definition prepared (run : BookingRun) : Prop :=
  bk_open run = Ok tt /\ bk_month run = Ok tt
  /\ (exists clicked, bk_day run = Ok clicked) /\ bk_settle run = Ok tt.

End OkBooking.

(** ** The loops of [visa-bot.js] *)
Module VisaBotLoop.
Import Js VisaBot.

(** A value of a response body as far as the bot reads one: whether it is
    truthy, whether it is a record with a string in [date], and what
    [new Date(value.date)] makes of it. *)
Inductive Value : Type :=
| VNull                        (* null or undefined *)
| VRecord (s : Slot)           (* an object whose date is a string *)
| VString (s : string)         (* a string *)
| VOther (isTruthy : bool) (d : jsdate).
                               (* a number, a boolean, an array, an object
                                  whose date is no string; [d] is
                                  [new Date(value.date)] *)

(** [if (value)] *)
Definition truthy (v : Value) : bool :=
  match v with
  | VNull => false
  | VRecord _ => true
  | VString s => negb (s =? "")%string
  | VOther isTruthy _ => isTruthy
  end.

(** What has a [length], as [x.length > 0] and [x[0]] read it. *)
Inductive Seq : Type :=
| SArray (items : list Value)  (* an array *)
| SText (s : string)           (* a string: its characters *)
| SArrayLike (positive : bool) (first : Value)
                               (* another object with a length: whether it
                                  is above 0, and the property 0 *)
| SNone.                       (* anything else: null, a number, an object
                                  without a length *)

(** [x[0]] when [x && x.length > 0] holds. Nothing asks whether [x] is an
    array: a string passes with its first character. *)
Definition first (x : Seq) : option Value :=
  match x with
  | SArray (v :: _) => Some v
  | SText (String c _) => Some (VString (String c EmptyString))
  | SArrayLike true v => Some v
  | _ => None
  end.

(** What [response.json()] gives: [data], and [data.available_times]. *)
Inductive Body : Type :=
| NotJson                      (* response.json() rejects *)
| Json (data : Seq) (available_times : Seq).

Record Response : Type := { url : string; body : Body }.

(** A [SlotChecker]; [attached] says whether its handler is registered on
    the page. *)
Record Checker : Type := {
  lastSlotData : Value;
  lastTimeData : Value;
  responseReceived : bool;
  attached : bool
}.

(** [new SlotChecker(page)] *)
Definition newChecker : Checker :=
  {| lastSlotData := VNull; lastTimeData := VNull; responseReceived := false;
     attached := false |}.

(** Lines 265-283. When [data] is null the read of line 276 throws, and
    the handler's [catch] leaves everything as it is. *)
Definition handler (c : Checker) (r : Response) : Checker :=
  if includes (url r) "json?appointments" then
    match body r with
    | Json data _ =>
        match first data with
        | Some v =>
            {| lastSlotData := v; lastTimeData := lastTimeData c;
               responseReceived := true; attached := attached c |}
        | None => c
        end
    | NotJson => c
    end
  else if includes (url r) "json?date" then
    match body r with
    | Json _ available_times =>
        match first available_times with
        | Some v =>
            {| lastSlotData := lastSlotData c; lastTimeData := v;
               responseReceived := responseReceived c;
               attached := attached c |}
        | None => c
        end
    | NotJson => c
    end
  else c.

(** The page hands its responses to the handler while it is registered. *)
Definition dispatch (rs : list Response) (c : Checker) : Checker :=
  if attached c then fold_left handler rs c else c.

(** Lines 260-291, up to the registration. *)
Definition setupResponseListener (c : Checker) : Checker :=
  {| lastSlotData := VNull; lastTimeData := VNull; responseReceived := false;
     attached := true |}.

(** The function [setupResponseListener] returns: [page.off]. *)
Definition cleanup (c : Checker) : Checker :=
  {| lastSlotData := lastSlotData c; lastTimeData := lastTimeData c;
     responseReceived := responseReceived c; attached := false |}.

(** What one call of [checkForSlot] meets: the responses that come in
    while the request is triggered, and those of each 50 ms sleep that
    starts before the timeout. [triggerFreshRequest] swallows its errors. *)
Record Check : Type := {
  ck_trigger : list Response;
  ck_sleeps : list (list Response)
}.

(** Lines 306-308. *)
Fixpoint waitForResponse (sleeps : list (list Response)) (c : Checker)
    : Checker :=
  match sleeps with
  | [] => c
  | rs :: rest =>
      if responseReceived c then c else waitForResponse rest (dispatch rs c)
  end.

(** Lines 297-315; the [finally] removes the handler on every path. *)
Definition checkForSlot (ck : Check) (c : Checker) : Value * Checker :=
  let c := setupResponseListener c in
  let c := dispatch (ck_trigger ck) c in
  let c := waitForResponse (ck_sleeps ck) c in
  (lastSlotData c, cleanup c).

(** What one call of [BookingHandler.performBooking] meets. *)
Record BookingRun : Type := {
  bk_open : Res unit;          (* lines 550-554 *)
  bk_month : Res unit;         (* line 557 *)
  bk_day : Res bool;           (* line 560 *)
  bk_settle : Res unit;        (* line 566 *)
  bk_early : list Response;    (* responses during lines 550-566 *)
  bk_polls : nat -> Res unit * list Response;
                               (* line 573, and the responses meanwhile *)
  bk_submit : Res unit         (* lines 582 and 586 *)
}.

(** Lines 569-574: [left] rounds remain, [timeData] is what the round
    before read. *)
Fixpoint waitForTime (left i : nat) (run : BookingRun) (c : Checker)
    (timeData : Value) : Res Value * Checker * nat :=
  match left with
  | O => (Ok timeData, c, O)
  | S left' =>
      let timeData := lastTimeData c in
      if truthy timeData then (Ok timeData, c, O)
      else
        match fst (bk_polls run i) with
        | Err msg => (Err msg, c, 1%nat)
        | Ok _ =>
            match waitForTime left' (S i) run
                    (dispatch (snd (bk_polls run i)) c) timeData with
            | (r, c', n) => (r, c', S n)
            end
        end
  end.

(** Lines 543-601: the result, the checker, and the pauses of line 573
    made. Line 547 splits [slot.date]: unless that is a string it throws,
    and the [catch] answers [false]. *)
Definition performBooking (slot : Value) (run : BookingRun) (c : Checker)
    : bool * Checker * nat :=
  match slot with
  | VRecord _ =>
      match bk_open run, bk_month run, bk_day run with
      | Ok _, Ok _, Ok true =>
          match bk_settle run with
          | Err _ => (false, c, O)
          | Ok _ =>
              match waitForTime 50 0 run (dispatch (bk_early run) c) VNull with
              | (Err _, c', n) => (false, c', n)
              | (Ok timeData, c', n) =>
                  if truthy timeData then
                    match bk_submit run with
                    | Ok _ => (true, c', n)
                    | Err _ => (false, c', n)
                    end
                  else (false, c', n)
              end
          end
      | _, _, _ => (false, c, O)
      end
  | _ => (false, c, O)
  end.

(** The fields of [VisaBot]. *)
Record Bot : Type := {
  checkCount : Z;
  consecutiveErrors : Z;
  loginFailures : Z;
  closestSlot : Value;
  isRunning : bool
}.

(** [new VisaBot()] once [start] has set [isRunning]. *)
Definition started : Bot :=
  {| checkCount := 0; consecutiveErrors := 0; loginFailures := 0;
     closestSlot := VNull; isRunning := true |}.

Definition maxLoginRetries : Z := 3.
Definition maxConsecutiveErrors : Z := 10.
Definition contextRefreshInterval : Z := 50.

(** [date.setHours(0, 0, 0, 0)]: local midnight of the day of an instant;
    it never moves an instant forward and keeps the order of instants. *)
Class Calendar : Type := {
  startOfDay : Z -> Z;
  startOfDay_le : forall t, startOfDay t <= t;
  startOfDay_mono : forall t u, t <= u -> startOfDay t <= startOfDay u
}.

Section Window.
Context {rt : Runtime} {cal : Calendar}.

Definition setHours0 (d : jsdate) : jsdate :=
  match d with
  | Some t => Some (startOfDay t)
  | None => None
  end.

(** Lines 109-114, from the date [new Date(dateStr)] gave. *)
Definition inRange (date startDate endDate : jsdate) : bool :=
  let date := setHours0 date in
  let start := setHours0 startDate in
  let end_ := setHours0 endDate in
  date_ge date start && date_le date end_.

(** Lines 107-115. *)
Definition isDateInRange (dateStr : string) (startDate endDate : jsdate) : bool :=
  inRange (Date_parse dateStr) startDate endDate.

(** [new Date(value.date)] for a value that is not null. *)
Definition dateOf (v : Value) : jsdate :=
  match v with
  | VRecord s => Date_parse (date s)
  | VOther _ d => d
  | VString _ | VNull => None
  end.

(** Lines 787-793 on any value a check may return: a value with no date
    to read is taken when nothing is tracked, and once tracked it is never
    replaced, its date failing every comparison. *)
Definition track (slot closestSlot : Value) : Value :=
  if truthy slot then
    if negb (truthy closestSlot)
       || date_lt (dateOf slot) (dateOf closestSlot)
    then slot else closestSlot
  else closestSlot.

End Window.

(** A record or null as a value. *)
Definition ofSlot (slot : option Slot) : Value :=
  match slot with
  | Some s => VRecord s
  | None => VNull
  end.

(** What one turn of the monitoring loop meets. *)
Record Pass : Type := {
  ps_busy : bool;              (* line 772: checkSystemBusy *)
  ps_check : Check;            (* line 780 *)
  ps_booking : BookingRun;     (* line 809, if it comes to it *)
  ps_delay : Res unit          (* line 843 *)
}.

Inductive Event : Type :=
| EvLogin
| EvCheck
| EvBook (slot : Value).

(** How [runMonitoringLoop] ends. *)
Inductive MonitorEnd : Type :=
| Booked                       (* line 818 *)
| BusyBreak                    (* line 776 *)
| RefreshBreak                 (* line 838 *)
| ErrorBreak                   (* line 850 *)
| Stopped                      (* line 765: isRunning is false *)
| Unfinished.                  (* the script ended before the loop did *)

Definition counted (b : Bot) : Bot :=
  {| checkCount := checkCount b + 1; consecutiveErrors := 0;
     loginFailures := loginFailures b; closestSlot := closestSlot b;
     isRunning := isRunning b |}.

Definition set_closestSlot (v : Value) (b : Bot) : Bot :=
  {| checkCount := checkCount b; consecutiveErrors := consecutiveErrors b;
     loginFailures := loginFailures b; closestSlot := v;
     isRunning := isRunning b |}.

Definition set_consecutiveErrors (v : Z) (b : Bot) : Bot :=
  {| checkCount := checkCount b; consecutiveErrors := v;
     loginFailures := loginFailures b; closestSlot := closestSlot b;
     isRunning := isRunning b |}.

Definition set_loginFailures (v : Z) (b : Bot) : Bot :=
  {| checkCount := checkCount b; consecutiveErrors := consecutiveErrors b;
     loginFailures := v; closestSlot := closestSlot b;
     isRunning := isRunning b |}.

Definition set_isRunning (v : bool) (b : Bot) : Bot :=
  {| checkCount := checkCount b; consecutiveErrors := consecutiveErrors b;
     loginFailures := loginFailures b; closestSlot := closestSlot b;
     isRunning := v |}.

Section Loops.
Context {rt : Runtime} {cal : Calendar}.
Variables (startDate endDate : jsdate).

(** Lines 823-852, the end of a turn in which nothing was booked: the
    refresh after [contextRefreshInterval] checks, the closing pause, and
    the [catch] of the loop, which only that pause can reach (the busy
    test, the check, the booking and the notifications catch their own
    errors). *)
Definition closeTurn (ps : Pass) (sessionCheckCount : Z) (t : list Event)
    (b : Bot) (c : Checker) : list Event * Bot * Checker * option MonitorEnd :=
  if contextRefreshInterval <=? sessionCheckCount
  then (t, b, c, Some RefreshBreak)
  else
    match ps_delay ps with
    | Ok _ => (t, b, c, None)
    | Err _ =>
        let b := set_consecutiveErrors (consecutiveErrors b + 1) b in
        if 5 <=? consecutiveErrors b then (t, b, c, Some ErrorBreak)
        else (t, b, c, None)
    end.

(** Lines 766-852, one turn of the monitoring loop, [sessionCheckCount]
    being the count after line 768: the calls, the bot, the checker, and
    how the loop ends if it ends here. *)
Definition monitoringTurn (ps : Pass) (sessionCheckCount : Z) (c : Checker)
    (b : Bot) : list Event * Bot * Checker * option MonitorEnd :=
  let b := counted b in
  if ps_busy ps then ([], b, c, Some BusyBreak)
  else
    let (slot, c) := checkForSlot (ps_check ps) c in
    let b := set_closestSlot (track slot (closestSlot b)) b in
    if truthy slot then
      if inRange (dateOf slot) startDate endDate then
        match performBooking slot (ps_booking ps) c with
        | (true, c', _) =>
            ([EvCheck; EvBook slot], set_isRunning false b, c', Some Booked)
        | (false, c', _) =>
            closeTurn ps sessionCheckCount [EvCheck; EvBook slot] b c'
        end
      else closeTurn ps sessionCheckCount [EvCheck] b c
    else closeTurn ps sessionCheckCount [EvCheck] b c.

(** Lines 759-854. *)
Fixpoint runMonitoringLoop (passes : list Pass) (sessionCheckCount : Z)
    (c : Checker) (b : Bot) : list Event * Bot * MonitorEnd :=
  if negb (isRunning b) then ([], b, Stopped)
  else
    match passes with
    | [] => ([], b, Unfinished)
    | ps :: rest =>
        match monitoringTurn ps (sessionCheckCount + 1) c b with
        | (t, b', _, Some e) => (t, b', e)
        | (t, b', c', None) =>
            match runMonitoringLoop rest (sessionCheckCount + 1) c' b' with
            | (t', b'', e) => ((t ++ t')%list, b'', e)
            end
        end
    end.

(** What one turn of the main loop meets. *)
Record Session : Type := {
  vs_context : Res unit;       (* line 707 *)
  vs_login : bool;             (* lines 711-714: login, false when it throws *)
  vs_navigate : bool;          (* line 729 *)
  vs_passes : list Pass
}.

Inductive Outcome : Type :=
| Crashed (msg : string)       (* runMainLoop throws *)
| Finished                     (* isRunning is false *)
| Running.                     (* the script ended before the bot did *)

(** The [catch] of lines 746-755. *)
Definition caught (t : list Event) (b : Bot)
    : list Event * Bot * option Outcome :=
  let b := set_consecutiveErrors (consecutiveErrors b + 1) b in
  if maxConsecutiveErrors <=? consecutiveErrors b
  then (t, b, Some (Crashed "Too many consecutive errors"))
  else (t, b, None).

(** Lines 705-755, one turn of the main loop. *)
Definition mainTurn (ss : Session) (b : Bot)
    : list Event * Bot * option Outcome :=
  match vs_context ss with
  | Err _ => caught [] b
  | Ok _ =>
      if negb (vs_login ss) then
        let b := set_loginFailures (loginFailures b + 1) b in
        if maxLoginRetries <=? loginFailures b
        then caught [EvLogin] b
        else ([EvLogin], b, None)
      else
        let b := set_loginFailures 0 b in
        if negb (vs_navigate ss) then ([EvLogin], b, None)
        else
          match runMonitoringLoop (vs_passes ss) 0 newChecker b with
          | (t, b', Unfinished) => (EvLogin :: t, b', Some Running)
          | (t, b', _) => (EvLogin :: t, b', None)
          end
  end.

(** Lines 703-757. *)
Fixpoint runMainLoop (script : list Session) (b : Bot)
    : list Event * Bot * Outcome :=
  if negb (isRunning b) then ([], b, Finished)
  else
    match script with
    | [] => ([], b, Running)
    | ss :: rest =>
        match mainTurn ss b with
        | (t, b', Some r) => (t, b', r)
        | (t, b', None) =>
            match runMainLoop rest b' with
            | (t', b'', r) => ((t ++ t')%list, b'', r)
            end
        end
    end.

End Loops.

(** The calls of [login] and the checks in a trace. *)
Definition logins (t : list Event) : nat :=
  List.length (filter (fun e => match e with EvLogin => true | _ => false end) t).

Definition checks (t : list Event) : nat :=
  List.length (filter (fun e => match e with EvCheck => true | _ => false end) t).

(** A turn of the main loop in which the context is created and the login
    fails. *)
Definition failedLogin (ss : Session) : Prop :=
  vs_context ss = Ok tt /\ vs_login ss = false.

(** The response is read as an availability list and passes the test of
    line 270, [v] being its [data[0]]. *)
Definition shows (r : Response) (v : Value) : Prop :=
  includes (url r) "json?appointments" = true
  /\ exists data times, body r = Json data times /\ first data = Some v.



(** Days in universal time, a calendar for the scenes. *)
Definition utcDay (t : Z) : Z := 86400000 * (t / 86400000).

Lemma utcDay_le (t : Z) : utcDay t <= t.
Proof. unfold utcDay. apply Z.mul_div_le. lia. Qed.

Lemma utcDay_mono (t u : Z) : t <= u -> utcDay t <= utcDay u.
Proof.
  intros H. unfold utcDay. apply Z.mul_le_mono_nonneg_l; [lia|].
  apply Z.div_le_mono; lia.
Qed.

Definition utc : Calendar :=
  {| startOfDay := utcDay; startOfDay_le := utcDay_le;
     startOfDay_mono := utcDay_mono |}.

End VisaBotLoop.

(** ** More scenes of [ok.js] *)
Module OkLoginScenes.
Import Js OkLogin.

(** The site answers every goto with HTTP 503. *)
Definition down : LoginRun :=
  {| lr_gotos := fun _ => Err "HTTP_503"; lr_retryPauses := fun _ => Ok tt;
     lr_form := Ok tt; lr_pageText := Ok ""; lr_lockMsg := "Account Locked";
     lr_close := Ok tt; lr_submit := Ok tt; lr_modal := Ok tt;
     lr_navigation := Ok tt; lr_postLoginText := Ok ""; lr_onSignIn := false |}.

End OkLoginScenes.

(* ====================================================================== *)
(** * Part II: theorems *)
(* ====================================================================== *)

(** ** The date reader on the dates of the scenarios *)

Example iso_epoch : IsoDate.parse "1970-01-01" = Some 0.
Proof. reflexivity. Qed.

Example iso_2026_02_10 : IsoDate.parse "2026-02-10" = Some 1770681600000.
Proof. reflexivity. Qed.

Example iso_rejects_text : IsoDate.parse "tomorrow" = None.
Proof. reflexivity. Qed.

(** ** Arithmetic of the delays *)
Section Delays.
Import Js.

Lemma Qle_bool_inject (a b : Z) : Qle_bool (inject_Z a) (inject_Z b) = (a <=? b).
Proof.
  unfold Qle_bool, inject_Z; simpl. now rewrite !Z.mul_1_r.
Qed.

Lemma js_max_of_Z (a b : Z) : js_max (of_Z a) (of_Z b) = of_Z (Z.max a b).
Proof.
  unfold js_max, of_Z. rewrite Qle_bool_inject.
  destruct (Z.leb_spec a b).
  - now rewrite Z.max_r.
  - rewrite Z.max_l by lia. reflexivity.
Qed.

Lemma Qfloor_unique (q : Q) (z : Z) :
  (inject_Z z <= q)%Q -> (q < inject_Z (z + 1))%Q -> Qfloor q = z.
Proof.
  intros Hlo Hhi.
  pose proof (Qfloor_le q) as Hf. pose proof (Qlt_floor q) as Hg.
  assert (H1 : (inject_Z z < inject_Z (Qfloor q + 1))%Q)
    by (eapply Qle_lt_trans; eassumption).
  assert (H2 : (inject_Z (Qfloor q) < inject_Z (z + 1))%Q)
    by (eapply Qle_lt_trans; eassumption).
  rewrite <- Zlt_Qlt in H1, H2. lia.
Qed.

Lemma Qfloor_minus_Z (q : Q) (k : Z) :
  Qfloor (q + - inject_Z k) = Qfloor q - k.
Proof.
  apply Qfloor_unique.
  - unfold Z.sub. rewrite inject_Z_plus, inject_Z_opp.
    apply Qplus_le_l. apply Qfloor_le.
  - replace (Qfloor q - k + 1) with ((Qfloor q + 1) + - k) by lia.
    rewrite inject_Z_plus, inject_Z_opp.
    apply Qplus_lt_l. apply Qlt_floor.
Qed.

Lemma js_div_of_Z (a b : Z) :
  b <> 0 -> js_div (of_Z a) (of_Z b) = JFin (inject_Z a / inject_Z b).
Proof.
  intros Hb. unfold js_div, of_Z.
  destruct (Qcompare (inject_Z b) 0) eqn:E; try reflexivity.
  apply Qeq_alt in E. unfold Qeq, inject_Z in E; simpl in E. lia.
Qed.

End Delays.

(** ** C9: the inter-tick delay *)

(** C9. For every target rate (any integer but zero, which the
    configuration never yields), [getDelay] is the spec's
    max(0, floor(60000/targetCPM - 100)): the floor of the ideal cycle minus
    the 100 ms overhead, in integer arithmetic [60000 / targetCPM - 100]
    with the quotient rounded down, clamped at zero and so never negative;
    for 240 checks per minute it is 150 ms. *)
Theorem getDelay_is_clamped_cycle (targetCPM : Z) :
  targetCPM <> 0 ->
  Part000.getDelay targetCPM = Js.of_Z (Spec.inter_tick_delay targetCPM)
  /\ Spec.inter_tick_delay targetCPM = Z.max 0 (60000 / targetCPM - 100)
  /\ 0 <= Spec.inter_tick_delay targetCPM
  /\ Part000.getDelay 240 = Js.of_Z 150
  /\ (forall parsed, Part000.parsed_or parsed 240 <> 0).
Proof.
  intros Ht.
  assert (Hfloor : Qfloor (inject_Z 60000 / inject_Z targetCPM - inject_Z 100)
                   = 60000 / targetCPM - 100).
  { unfold Qminus. rewrite Qfloor_minus_Z. now rewrite <- Zdiv_Qdiv. }
  split; [| split; [| split; [| split]]].
  - unfold Part000.getDelay, Spec.inter_tick_delay.
    rewrite js_div_of_Z by assumption.
    unfold Js.js_sub, Js.js_neg, Js.of_Z at 2, Js.js_add, Js.js_floor.
    rewrite js_max_of_Z. reflexivity.
  - unfold Spec.inter_tick_delay. now rewrite Hfloor.
  - unfold Spec.inter_tick_delay. lia.
  - reflexivity.
  - intros [n|]; simpl; [destruct (Z.eqb_spec n 0)|]; lia.
Qed.

Lemma getDelay_is_clamped_cycle_witness :
  Part000.getDelay 20 = Js.of_Z (Spec.inter_tick_delay 20)
  /\ Spec.inter_tick_delay 20 = Z.max 0 (60000 / 20 - 100)
  /\ 0 <= Spec.inter_tick_delay 20
  /\ Part000.getDelay 240 = Js.of_Z 150
  /\ (forall parsed, Part000.parsed_or parsed 240 <> 0).
Proof. apply (getDelay_is_clamped_cycle 20). lia. Defined.

Example getDelay_20 : Part000.getDelay 20 = Js.of_Z 2900.
Proof. reflexivity. Qed.

Example getDelay_1000 : Part000.getDelay 1000 = Js.of_Z 0.
Proof. reflexivity. Qed.

Example getDelay_7 : Part000.getDelay 7 = Js.of_Z 8471.
Proof. reflexivity. Qed.

(** ** C10: the jittered delay of [visa-bot.js] *)

Lemma getRandomDelay_clamped (targetCPM : Z) (random : Q) :
  targetCPM <> 0 ->
  exists d, VisaBot.getRandomDelay targetCPM random = Js.of_Z d /\ 1000 <= d.
Proof.
  intros Ht. unfold VisaBot.getRandomDelay.
  rewrite js_div_of_Z by assumption.
  unfold Js.js_mul, Js.js_sub, Js.js_neg, Js.js_add, Js.js_floor.
  rewrite js_max_of_Z.
  eexists; split; [reflexivity | lia].
Qed.

(** C10. In [visa-bot.js], for every positive target rate and every value
    of [Math.random()], [getRandomDelay] is a whole number of at least
    1000 ms; so the waits of any run of checks sum to at least one second
    per check, and the checks whose waits fit into one minute number at
    most 60, whatever the configured rate. *)
Theorem getRandomDelay_at_least_one_second (targetCPM : Z) (randoms : list Q) :
  0 < targetCPM ->
  exists ds : list Z,
    map (VisaBot.getRandomDelay targetCPM) randoms = map Js.of_Z ds
    /\ Forall (fun d => 1000 <= d) ds
    /\ 1000 * Z.of_nat (List.length randoms) <= fold_right Z.add 0 ds
    /\ (fold_right Z.add 0 ds <= 60000 -> (List.length randoms <= 60)%nat).
Proof.
  intros Ht.
  assert (H : exists ds : list Z,
             map (VisaBot.getRandomDelay targetCPM) randoms = map Js.of_Z ds
             /\ Forall (fun d => 1000 <= d) ds
             /\ 1000 * Z.of_nat (List.length randoms) <= fold_right Z.add 0 ds).
  { induction randoms as [|r rs IH].
    - exists []. repeat split; simpl; [constructor | lia].
    - destruct IH as (ds & Hmap & Hall & Hsum).
      destruct (getRandomDelay_clamped targetCPM r) as (d & Hd & Hge); [lia|].
      exists (d :: ds). repeat split.
      + simpl. now rewrite Hd, Hmap.
      + now constructor.
      + simpl fold_right. simpl List.length. lia. }
  destruct H as (ds & Hmap & Hall & Hsum).
  exists ds. repeat split; try assumption. lia.
Qed.

Lemma getRandomDelay_at_least_one_second_witness :
  exists ds : list Z,
    map (VisaBot.getRandomDelay 240) [0%Q; 1 # 2; 99 # 100] = map Js.of_Z ds
    /\ Forall (fun d => 1000 <= d) ds
    /\ 1000 * Z.of_nat (List.length [0%Q; 1 # 2; 99 # 100]) <= fold_right Z.add 0 ds
    /\ (fold_right Z.add 0 ds <= 60000
        -> (List.length [0%Q; 1 # 2; 99 # 100] <= 60)%nat).
Proof. apply (getRandomDelay_at_least_one_second 240). lia. Defined.

Example getRandomDelay_240 : VisaBot.getRandomDelay 240 (99 # 100) = Js.of_Z 1000.
Proof. reflexivity. Qed.

Example getRandomDelay_20 : VisaBot.getRandomDelay 20 (1 # 2) = Js.of_Z 3000.
Proof. reflexivity. Qed.

(** ** C1: the freshness verdict *)

Lemma truthy_defined (d : option string) :
  Js.truthy d = true <-> Verdict.defined d.
Proof.
  unfold Verdict.defined. destruct d as [s|]; simpl.
  - destruct (String.eqb_spec s ""); simpl; split.
    + discriminate.
    + intros (s' & [= <-] & Hne). contradiction.
    + intros _. now exists s.
    + reflexivity.
  - split; [discriminate | intros (s & [=] & _)].
Qed.

Lemma strict_neq_true (a b : option string) :
  Part000.strict_neq a b = true <-> a <> b.
Proof.
  destruct a as [x|], b as [y|]; simpl; try (split; congruence).
  destruct (String.eqb_spec x y); simpl; split; congruence.
Qed.

Lemma verdict_stale (mainDate verifyDate : option string) :
  Part000.verdict mainDate verifyDate = false <->
  (Verdict.defined mainDate /\ Verdict.defined verifyDate
   /\ mainDate <> verifyDate)
  \/ (~ Verdict.defined mainDate /\ Verdict.defined verifyDate).
Proof.
  unfold Part000.verdict.
  rewrite <- !truthy_defined, <- strict_neq_true.
  destruct (Js.truthy mainDate), (Js.truthy verifyDate),
    (Part000.strict_neq mainDate verifyDate); simpl;
    intuition congruence.
Qed.

Lemma verdict_fresh (mainDate verifyDate : option string) :
  Part000.verdict mainDate verifyDate = true <->
  (~ Verdict.defined mainDate /\ ~ Verdict.defined verifyDate)
  \/ (Verdict.defined mainDate /\ Verdict.defined verifyDate
      /\ mainDate = verifyDate)
  \/ (Verdict.defined mainDate /\ ~ Verdict.defined verifyDate).
Proof.
  assert (Heq : mainDate = verifyDate
                <-> Part000.strict_neq mainDate verifyDate = false).
  { pose proof (strict_neq_true mainDate verifyDate) as H.
    assert (Hdec : {mainDate = verifyDate} + {mainDate <> verifyDate})
      by (decide equality; apply string_dec).
    destruct (Part000.strict_neq mainDate verifyDate).
    - split; [intros E | discriminate].
      exfalso. now apply (proj1 H eq_refl).
    - split; [reflexivity | intros _].
      destruct Hdec as [E | NE]; [exact E|].
      apply H in NE. discriminate. }
  unfold Part000.verdict.
  rewrite <- !truthy_defined, Heq.
  destruct (Js.truthy mainDate), (Js.truthy verifyDate),
    (Part000.strict_neq mainDate verifyDate); simpl;
    intuition congruence.
Qed.

Lemma hasVerifyAccount_true (cfg : Part000.Config) :
  Part000.verifyEmail cfg <> "" -> Part000.verifyPassword cfg <> "" ->
  Part000.hasVerifyAccount cfg = true.
Proof.
  unfold Part000.hasVerifyAccount.
  destruct (Part000.verifyEmail cfg), (Part000.verifyPassword cfg);
    intros He Hp; try contradiction; reflexivity.
Qed.

Section Freshness.
Context {rt : Js.Runtime}.
Import Part000.

Lemma verify_compares (cfg : Config) (run : VerifyRun) (g : State) :
  Verdict.compares cfg run ->
  let g1 := deliver (vr_meanwhile run) (set_verifyBrowser true g) in
  verifyDataFreshness cfg run g =
    ([EvVerify (bookingInProgress g)],
     set_lastVerifyTime (vr_now run) (set_verifyBrowser false g1),
     Go (verdict (dateOf (availableDate g1)) (dateOf (vr_captured run)))).
Proof.
  intros (He & Hp & Hl & Hs & Hon & Hn & Hc).
  unfold verifyDataFreshness, mbind, tryCatch, emit.
  rewrite (hasVerifyAccount_true cfg He Hp), Hl, Hs, Hon, Hn, Hc.
  reflexivity.
Qed.

Lemma deliver_verifyBrowser (evs : list Arrival) (b : bool) (g : State) :
  availableDate (deliver evs (set_verifyBrowser b g))
  = availableDate (deliver evs g).
Proof.
  revert g. induction evs as [|a evs IH]; intros g; [reflexivity|].
  unfold deliver in *. simpl.
  replace (onResponse a (set_verifyBrowser b g))
    with (set_verifyBrowser b (onResponse a g)); [apply IH|].
  unfold onResponse, onTimes, onDates, trackClosest.
  repeat (match goal with
          | |- context [if ?c then _ else _] => destruct c
          | |- context [match ?x with _ => _ end] => destruct x
          end; simpl; try reflexivity).
Qed.

(** C1. Whenever a verification run gets as far as the comparison, it
    returns a verdict, and for every pair of the primary date (the date of
    the slot the main page last recorded) and the secondary date (the date
    the verification page captured) the verdict is stale ([false]) if and
    only if both dates are defined and unequal, or the primary date is
    undefined while the secondary is defined; in every other combination
    (both undefined, both defined and equal, secondary undefined while the
    primary is defined) it is fresh ([true]). *)
Theorem verifyDataFreshness_verdict (cfg : Config) (run : VerifyRun) (g : State) :
  Verdict.compares cfg run ->
  let mainDate := dateOf (availableDate (deliver (vr_meanwhile run) g)) in
  let verifyDate := dateOf (vr_captured run) in
  exists fresh g',
    verifyDataFreshness cfg run g
      = ([EvVerify (bookingInProgress g)], g', Go fresh)
    /\ (fresh = false <->
          (Verdict.defined mainDate /\ Verdict.defined verifyDate
           /\ mainDate <> verifyDate)
          \/ (~ Verdict.defined mainDate /\ Verdict.defined verifyDate))
    /\ (fresh = true <->
          (~ Verdict.defined mainDate /\ ~ Verdict.defined verifyDate)
          \/ (Verdict.defined mainDate /\ Verdict.defined verifyDate
              /\ mainDate = verifyDate)
          \/ (Verdict.defined mainDate /\ ~ Verdict.defined verifyDate)).
Proof.
  intros Hc mainDate verifyDate.
  rewrite (verify_compares cfg run g Hc). cbv zeta.
  rewrite deliver_verifyBrowser. fold mainDate. fold verifyDate.
  eexists; eexists; split; [reflexivity|].
  split; [apply verdict_stale | apply verdict_fresh].
Qed.

End Freshness.

Lemma verifyDataFreshness_verdict_witness :
  let cfg := Scenario.cfg in
  let run := Scenario.verification (Some (Scenario.slot "2026-01-05")) 300001 in
  let g := Part000.set_availableDate (Some (Scenario.slot "2026-02-10"))
             Scenario.idle in
  let mainDate :=
    Part000.dateOf
      (Part000.availableDate
         (Part000.deliver (rt := IsoDate.runtime) (Part000.vr_meanwhile run) g)) in
  let verifyDate := Part000.dateOf (Part000.vr_captured run) in
  exists fresh g',
    Part000.verifyDataFreshness (rt := IsoDate.runtime) cfg run g
      = ([Part000.EvVerify (Part000.bookingInProgress g)], g', Part000.Go fresh)
    /\ (fresh = false <->
          (Verdict.defined mainDate /\ Verdict.defined verifyDate
           /\ mainDate <> verifyDate)
          \/ (~ Verdict.defined mainDate /\ Verdict.defined verifyDate))
    /\ (fresh = true <->
          (~ Verdict.defined mainDate /\ ~ Verdict.defined verifyDate)
          \/ (Verdict.defined mainDate /\ Verdict.defined verifyDate
              /\ mainDate = verifyDate)
          \/ (Verdict.defined mainDate /\ ~ Verdict.defined verifyDate)).
Proof.
  apply (verifyDataFreshness_verdict (rt := IsoDate.runtime) Scenario.cfg
           (Scenario.verification (Some (Scenario.slot "2026-01-05")) 300001)).
  unfold Verdict.compares. simpl.
  repeat split; try reflexivity; discriminate.
Defined.

(** The scenarios of the spec: both sessions see 2026-02-10, fresh; the
    verifier sees the earlier 2026-01-05, stale; the verifier sees nothing,
    fresh; the primary has seen nothing and the verifier a date, stale. *)
Example verdict_same_date :
  Part000.verdict (Some "2026-02-10") (Some "2026-02-10") = true.
Proof. reflexivity. Qed.

Example verdict_earlier_date :
  Part000.verdict (Some "2026-02-10") (Some "2026-01-05") = false.
Proof. reflexivity. Qed.

Example verdict_nothing_to_compare :
  Part000.verdict None None = true
  /\ Part000.verdict (Some "2026-02-10") None = true.
Proof. split; reflexivity. Qed.

Example verdict_primary_blind :
  Part000.verdict None (Some "2026-02-10") = false.
Proof. reflexivity. Qed.

Example verify_stale_run :
  Part000.flow_of
    (Part000.verifyDataFreshness (rt := IsoDate.runtime) Scenario.cfg
       (Scenario.verification (Some (Scenario.slot "2026-01-05")) 300001)
       (Part000.set_availableDate (Some (Scenario.slot "2026-02-10"))
          Scenario.idle))
  = Part000.Go false.
Proof. reflexivity. Qed.

(** ** C2: the verification timer *)
Section Timer.
Context {rt : Js.Runtime}.
Import Part000.

Lemma deliver_lastVerifyTime (evs : list Arrival) (g : State) :
  lastVerifyTime (deliver evs g) = lastVerifyTime g.
Proof.
  revert g. induction evs as [|a evs IH]; intros g; [reflexivity|].
  unfold deliver in *. simpl. rewrite IH.
  unfold onResponse, onTimes, onDates, trackClosest.
  repeat (match goal with
          | |- context [if ?c then _ else _] => destruct c
          | |- context [match ?x with _ => _ end] => destruct x
          end; simpl; try reflexivity).
Qed.

(** A run whose secondary login fails returns "fresh" and leaves the timer
    as it was: line 425 returns without the assignment of lines 346, 464
    and 499. *)
Lemma verify_login_failure_keeps_timer (cfg : Config) (run : VerifyRun) (g : State) :
  Verdict.loginFails cfg run ->
  verifyDataFreshness cfg run g
    = ([EvVerify (bookingInProgress g)], set_verifyBrowser true g, Go true).
Proof.
  intros (He & Hp & Hl & Hs & Hon & Hc).
  unfold verifyDataFreshness, mbind, tryCatch, emit.
  rewrite (hasVerifyAccount_true cfg He Hp), Hl, Hs, Hon, Hc.
  reflexivity.
Qed.

(** Every other run, failed or not, ends with the timer at the time of
    the run. *)
Lemma verify_resets_timer_otherwise (cfg : Config) (run : VerifyRun) (g : State) :
  ~ Verdict.loginFails cfg run ->
  exists t g' fresh,
    verifyDataFreshness cfg run g = (t, g', Go fresh)
    /\ lastVerifyTime g' = vr_now run.
Proof.
  intros Hnot.
  unfold verifyDataFreshness, mbind, tryCatch, emit, when, get, update, ret.
  destruct (hasVerifyAccount cfg) eqn:Hacc; simpl.
  2: { repeat eexists. }
  destruct (vr_launch run) as [[]|m1] eqn:Hl; simpl.
  2: { destruct (verifyBrowser g); simpl; repeat eexists. }
  destruct (vr_signIn run) as [[]|m2] eqn:Hs; simpl.
  2: { repeat eexists. }
  destruct (vr_onSignIn run) eqn:Hon; simpl.
  - destruct (vr_closeAfterLogin run) as [[]|m3] eqn:Hc; simpl.
    + exfalso. apply Hnot. unfold Verdict.loginFails.
      unfold hasVerifyAccount in Hacc.
      destruct (verifyEmail cfg), (verifyPassword cfg);
        try discriminate; repeat split; try discriminate; assumption.
    + repeat eexists.
  - destruct (vr_navigate run) as [[]|m4]; simpl.
    2: { repeat eexists. }
    destruct (vr_close run) as [[]|m5]; simpl.
    + repeat eexists.
    + rewrite ?deliver_verifyBrowser.
      match goal with
      | |- context [verifyBrowser ?x] => destruct (verifyBrowser x)
      end; simpl; repeat eexists.
Qed.

End Timer.

(** C2, at its failing input. The bot has been monitoring since time 0 and
    verifies every 5 minutes; at 300001 ms the verification is due and the
    secondary account cannot log in. The run reports "fresh" and leaves
    [lastVerifyTime] at 0 instead of 300001, so the very next pass, half a
    second later, starts another verification, which fails the same way:
    two passes, two verifications, and the timer still at 0. *)
Theorem verify_login_failure_storms :
  let run1 := Scenario.loginFailure 300001 in
  let run2 := Scenario.loginFailure 300501 in
  let g := Part000.set_lastCookieReset 0 Scenario.idle in
  (exists g1,
     Part000.verifyDataFreshness (rt := IsoDate.runtime) Scenario.cfg run1 g
       = ([Part000.EvVerify false], g1, Part000.Go true)
     /\ Part000.lastVerifyTime g1 = 0
     /\ Part000.lastVerifyTime g1 <> Part000.vr_now run1
     /\ Part000.verifyDue Scenario.cfg 300501 g1 = true)
  /\ (exists g2,
        Part000.monitor (rt := IsoDate.runtime) Scenario.cfg 0
          [Scenario.pass 300001 [] run1 (Js.Ok true);
           Scenario.pass 300501 [] run2 (Js.Ok true)] g
          = ([Part000.EvVerify false; Part000.EvVerify false], g2,
             Part000.Halt Part000.Pending)
        /\ Part000.lastVerifyTime g2 = 0).
Proof.
  split; eexists; (split; [vm_compute; reflexivity|]).
  - repeat split; try reflexivity. discriminate.
  - reflexivity.
Qed.

(** The sibling path: a run that fails by a thrown error resets the timer,
    and the next pass half a second later starts no verification. *)
Example verify_thrown_error_no_storm :
  let thrown :=
    {| Part000.vr_launch := Js.Err "net::ERR_TUNNEL_CONNECTION_FAILED";
       Part000.vr_signIn := Js.Ok tt; Part000.vr_onSignIn := false;
       Part000.vr_closeAfterLogin := Js.Ok tt;
       Part000.vr_navigate := Js.Ok tt; Part000.vr_meanwhile := [];
       Part000.vr_captured := None; Part000.vr_close := Js.Ok tt;
       Part000.vr_now := 300001 |} in
  let x := Part000.monitor (rt := IsoDate.runtime) Scenario.cfg 0
             [Scenario.pass 300001 [] thrown (Js.Ok true);
              Scenario.pass 300501 [] thrown (Js.Ok true)]
             (Part000.set_lastCookieReset 0 Scenario.idle) in
  Part000.trace_of x = [Part000.EvVerify false]
  /\ Part000.lastVerifyTime (Part000.state_of x) = 300001.
Proof. split; reflexivity. Qed.

(** ** C5: the closest-slot tracker *)
Section ClosestSlot.
Context {rt : Js.Runtime}.

Lemma date_ge_Some (d : Js.jsdate) (y : Z) :
  Js.date_ge d (Some y) = true <-> exists x, d = Some x /\ y <= x.
Proof.
  destruct d as [x|]; simpl.
  - rewrite Z.leb_le. split; [intros H; now exists x | intros (x' & [= <-] & H); exact H].
  - split; [discriminate | intros (x & [=] & _)].
Qed.

Lemma date_lt_true (a b : Js.jsdate) :
  Js.date_lt a b = true <-> exists x y, a = Some x /\ b = Some y /\ x < y.
Proof.
  destruct a as [x|], b as [y|]; simpl;
    try (split; [discriminate | intros (? & ? & [=] & [=] & _)]).
  rewrite Z.ltb_lt. split.
  - intros H. now exists x, y.
  - intros (x' & y' & [= <-] & [= <-] & H). exact H.
Qed.

Lemma date_lt_false (x y : Z) : Js.date_lt (Some x) (Some y) = false -> y <= x.
Proof. simpl. rewrite Z.ltb_ge. trivial. Qed.

(** What the handler does to the tracker, read off lines 274-293. *)
Lemma closest_onResponse (a : Part000.Arrival) (g : Part000.State) :
  Part000.closestSlotFound (Part000.onResponse a g) =
  match Part000.observed a with
  | Some (Some s) =>
      if Js.date_ge (Js.Date_parse (Part000.date s)) (Some (Part000.today a))
      then match Part000.closestSlotFound g with
           | None => Some s
           | Some c =>
               if Js.date_lt (Js.Date_parse (Part000.date s))
                    (Js.Date_parse (Part000.date c))
               then Some s else Some c
           end
      else Part000.closestSlotFound g
  | _ => Part000.closestSlotFound g
  end.
Proof.
  assert (Htimes : forall g', Part000.closestSlotFound (Part000.onTimes a g')
                              = Part000.closestSlotFound g').
  { intros g'. unfold Part000.onTimes.
    destruct (Part000.isTimesUrl (Part000.url a)); [|reflexivity].
    destruct (Part000.body a) as [| |[|first rest]|]; reflexivity. }
  unfold Part000.onResponse. rewrite Htimes.
  unfold Part000.onDates, Part000.observed.
  destruct (Part000.isDatesUrl (Part000.url a)); [|reflexivity].
  destruct (Part000.body a) as [|[|[first|] rest]| |]; try reflexivity;
    [|destruct (0 <? _); reflexivity].
  unfold Part000.trackClosest, Part000.set_lastLatency,
    Part000.set_lastResponseTime, Part000.set_availableDate,
    Part000.set_closestSlotFound.
  destruct (0 <? _); simpl;
    destruct (Js.date_ge _ _); simpl; try reflexivity;
    destruct (Part000.closestSlotFound g); simpl; try reflexivity;
    destruct (Js.date_lt _ _); reflexivity.
Qed.

(** One response either leaves the v2.3 tracker alone or improves it. *)
Lemma onResponse_improves (a : Part000.Arrival) (g : Part000.State) :
  let before := Part000.closestSlotFound g in
  let after := Part000.closestSlotFound (Part000.onResponse a g) in
  after = before \/ Tracker.improved a before after.
Proof.
  cbv zeta. rewrite closest_onResponse. unfold Tracker.improved.
  destruct (Part000.observed a) as [[s|]|]; [|now left|now left].
  destruct (Js.date_ge _ _) eqn:Hge; [|now left].
  apply date_ge_Some in Hge. destruct Hge as (t & Ht & Hle).
  destruct (Part000.closestSlotFound g) as [c|].
  - destruct (Js.date_lt _ _) eqn:Hlt; [|now left].
    apply date_lt_true in Hlt. destruct Hlt as (x & y & Hx & Hy & Hxy).
    right. exists s, t. repeat split; try assumption.
    right. exists c, y. repeat split; try assumption. congruence.
  - right. exists s, t. repeat split; try assumption. now left.
Qed.

(** The v2.3 tracker only ever holds a slot whose date is a valid date. *)
Lemma onResponse_valid (a : Part000.Arrival) (g : Part000.State) :
  (forall c, Part000.closestSlotFound g = Some c ->
             exists tc, Js.Date_parse (Part000.date c) = Some tc) ->
  forall c, Part000.closestSlotFound (Part000.onResponse a g) = Some c ->
            exists tc, Js.Date_parse (Part000.date c) = Some tc.
Proof.
  intros Hval c.
  pose proof (onResponse_improves a g) as H.
  cbv zeta in H. unfold Tracker.improved in H.
  destruct H as [E | (s & t & _ & E & Ht & _)]; rewrite E.
  - apply Hval.
  - intros [= <-]. now exists t.
Qed.

(** The invariant of a run: every slot shown so far bounds the tracker. *)
Lemma deliver_bounded (evs pre : list Part000.Arrival) (g : Part000.State) :
  (forall c, Part000.closestSlotFound g = Some c ->
             exists tc, Js.Date_parse (Part000.date c) = Some tc) ->
  (forall a t, In a pre -> Tracker.shows a t -> Tracker.holds_by g t) ->
  forall a t, In a (pre ++ evs) -> Tracker.shows a t ->
              Tracker.holds_by (Part000.deliver evs g) t.
Proof.
  revert pre g.
  induction evs as [|e evs IH]; intros pre g Hval Hpre a t Hin Hshow.
  - rewrite app_nil_r in Hin. exact (Hpre a t Hin Hshow).
  - unfold Part000.deliver. simpl.
    apply (IH (pre ++ [e])%list (Part000.onResponse e g)) with (a := a);
      [now apply onResponse_valid | | now rewrite <- app_assoc | assumption].
    clear a t Hin Hshow IH. intros a t Hin Hshow.
    unfold Tracker.holds_by. rewrite closest_onResponse.
    apply in_app_or in Hin. destruct Hin as [Hin | [<- | []]].
    + destruct (Hpre a t Hin Hshow) as (c & tc & Hc & Hpc & Hle).
      rewrite Hc.
      destruct (Part000.observed e) as [[s|]|];
        [|now exists c, tc|now exists c, tc].
      destruct (Js.date_ge _ _); [|now exists c, tc].
      destruct (Js.date_lt _ _) eqn:Hlt; [|now exists c, tc].
      apply date_lt_true in Hlt. destruct Hlt as (x & y & Hx & Hy & Hxy).
      exists s, x. repeat split; try assumption.
      assert (y = tc) by congruence. lia.
    + destruct Hshow as (s & Hobs & Hps & Htoday).
      rewrite Hobs.
      assert (Hge : Js.date_ge (Js.Date_parse (Part000.date s))
                      (Some (Part000.today e)) = true)
        by (apply date_ge_Some; now exists t).
      rewrite Hge.
      destruct (Part000.closestSlotFound g) as [c|] eqn:Hc.
      * destruct (Hval c eq_refl) as (tc & Hpc).
        destruct (Js.date_lt _ _) eqn:Hlt.
        -- exists s, t. repeat split; try assumption. lia.
        -- rewrite Hps, Hpc in Hlt.
           exists c, tc. repeat split; try assumption.
           now apply date_lt_false.
      * exists s, t. repeat split; try assumption. lia.
Qed.

(** One check either leaves the tracker of [visa-bot.js] alone or gives it
    the slot of the check, strictly earlier than the one it held. *)
Lemma trackClosest_improves (slot closest : option VisaBot.Slot) :
  VisaBot.trackClosest slot closest = closest
  \/ Tracker.improved_vb slot closest (VisaBot.trackClosest slot closest).
Proof.
  unfold VisaBot.trackClosest, Tracker.improved_vb.
  destruct slot as [s|]; [|now left].
  destruct closest as [c|].
  - destruct (Js.date_lt _ _) eqn:Hlt; [|now left].
    apply date_lt_true in Hlt. destruct Hlt as (x & y & Hx & Hy & Hxy).
    right. exists s. repeat split. right. now exists c, x, y.
  - right. exists s. repeat split. now left.
Qed.

(** The invariant of a run of checks in [visa-bot.js]: the tracker holds a
    slot as soon as one was seen, and if its date is valid it is at most
    every valid date seen. *)
Lemma trackAll_bounded (slots pre : list (option VisaBot.Slot))
    (closest : option VisaBot.Slot) :
  (forall s, In (Some s) pre -> closest <> None) ->
  (forall s t c tc, In (Some s) pre ->
     Js.Date_parse (VisaBot.date s) = Some t ->
     closest = Some c -> Js.Date_parse (VisaBot.date c) = Some tc -> tc <= t) ->
  forall s t c tc, In (Some s) (pre ++ slots) ->
    Js.Date_parse (VisaBot.date s) = Some t ->
    VisaBot.trackAll slots closest = Some c ->
    Js.Date_parse (VisaBot.date c) = Some tc -> tc <= t.
Proof.
  revert pre closest.
  induction slots as [|x slots IH]; intros pre closest Hsome Hpre s t c tc Hin Hps Hc Hpc.
  - rewrite app_nil_r in Hin. simpl in Hc. eapply Hpre; eassumption.
  - unfold VisaBot.trackAll in *. simpl in Hc.
    apply (IH (pre ++ [x])%list (VisaBot.trackClosest x closest)) with (s := s) (c := c);
      try assumption; [| | now rewrite <- app_assoc].
    + clear - Hsome. intros s Hin.
      apply in_app_or in Hin. destruct Hin as [Hin | [-> | []]].
      * specialize (Hsome s Hin).
        destruct (trackClosest_improves x closest) as [-> | (s' & _ & -> & _)];
          [assumption | discriminate].
      * unfold VisaBot.trackClosest. destruct closest; [|discriminate].
        destruct (Js.date_lt _ _); discriminate.
    + clear - Hsome Hpre. intros s t c tc Hin Hps Hc Hpc.
      apply in_app_or in Hin. destruct Hin as [Hin | [-> | []]].
      * specialize (Hsome s Hin).
        destruct (trackClosest_improves x closest)
          as [E | (s' & _ & E & [-> | (c0 & t' & tc0 & -> & Hps' & Hpc0 & Hlt)])].
        -- rewrite E in Hc. eapply Hpre; eassumption.
        -- contradiction.
        -- rewrite E in Hc. injection Hc as <-.
           assert (t' = tc) by congruence. subst t'.
           specialize (Hpre s t c0 tc0 Hin Hps eq_refl Hpc0). lia.
      * unfold VisaBot.trackClosest in Hc.
        destruct closest as [c0|].
        -- destruct (Js.date_lt _ _) eqn:Hlt.
           ++ injection Hc as <-. assert (t = tc) by congruence. lia.
           ++ injection Hc as <-. rewrite Hps, Hpc in Hlt.
              now apply date_lt_false.
        -- injection Hc as <-. assert (t = tc) by congruence. lia.
Qed.

(** C5, as the code has it. In the v2.3 bot, for every state and every
    response event the tracker [closestSlotFound] is left alone or replaced
    by the slot the event shows, and only when that slot is dated today or
    later (its date reads as a time at or after the listener's midnight)
    and strictly earlier than the tracked one; so it never regresses, and
    after any sequence of events it holds a date no later than any date
    shown so far that was today or later. In [visa-bot.js] the tracker
    [closestSlot] is left alone or replaced by the slot of the check when
    that is strictly earlier than the tracked one, so it never regresses
    either, and when it holds a valid date, that date is no later than any
    valid date seen; but it has no today-or-later guard. *)
Theorem closest_slot_trackers :
  (forall (a : Part000.Arrival) (g : Part000.State),
     Part000.closestSlotFound (Part000.onResponse a g)
       = Part000.closestSlotFound g
     \/ Tracker.improved a (Part000.closestSlotFound g)
          (Part000.closestSlotFound (Part000.onResponse a g)))
  /\ (forall (evs : list Part000.Arrival) (g : Part000.State) a t,
        Part000.closestSlotFound g = None ->
        In a evs -> Tracker.shows a t ->
        Tracker.holds_by (Part000.deliver evs g) t)
  /\ (forall slot closest : option VisaBot.Slot,
        VisaBot.trackClosest slot closest = closest
        \/ Tracker.improved_vb slot closest (VisaBot.trackClosest slot closest))
  /\ (forall (slots : list (option VisaBot.Slot)) s t c tc,
        In (Some s) slots ->
        Js.Date_parse (VisaBot.date s) = Some t ->
        VisaBot.trackAll slots None = Some c ->
        Js.Date_parse (VisaBot.date c) = Some tc ->
        tc <= t).
Proof.
  split; [| split; [| split]].
  - intros a g. apply onResponse_improves.
  - intros evs g a t Hnone Hin Hshow.
    apply (deliver_bounded evs [] g) with (a := a).
    + intros c Hc. congruence.
    + intros ? ? [].
    + exact Hin.
    + exact Hshow.
  - apply trackClosest_improves.
  - intros slots s t c tc Hin Hps Hc Hpc.
    apply (trackAll_bounded slots [] None) with (s := s) (c := c);
      try assumption.
    + intros ? [].
    + intros ? ? ? ? [].
Qed.

End ClosestSlot.

(** C5 as stated fails on [visa-bot.js]: on 2026-02-10 a check that
    returns a slot dated 2020-01-01 replaces the tracker, empty or
    holding 2026-03-01, although the slot is dated before today. *)
Lemma visabot_tracker_takes_past_slot :
  let past := {| VisaBot.date := "2020-01-01" |} in
  let held := {| VisaBot.date := "2026-03-01" |} in
  VisaBot.trackClosest (rt := IsoDate.runtime) (Some past) None = Some past
  /\ VisaBot.trackClosest (rt := IsoDate.runtime) (Some past) (Some held)
       = Some past
  /\ Js.date_ge (IsoDate.parse (VisaBot.date past)) (IsoDate.parse "2026-02-10")
       = false.
Proof. repeat split. Qed.

(** The v2.3 listener on the same day leaves its tracker alone. *)
Example part000_tracker_skips_past_slot :
  let g := Part000.set_closestSlotFound (Some (Scenario.slot "2026-03-01"))
             Scenario.idle in
  Part000.closestSlotFound
    (Part000.onResponse (rt := IsoDate.runtime)
       (Scenario.availability "2020-01-01" 1770724800000 1770681600000) g)
  = Some (Scenario.slot "2026-03-01").
Proof. reflexivity. Qed.

(** The scenario of the spec: 2026-04-01 is observed while 2026-05-20 is
    the closest so far, and becomes the closest; 2026-06-01 after it does
    not. *)
Example part000_tracker_scenario :
  Part000.closestSlotFound
    (Part000.deliver (rt := IsoDate.runtime)
       [Scenario.availability "2026-05-20" 1770724800000 1770681600000;
        Scenario.availability "2026-04-01" 1770724801000 1770681600000;
        Scenario.availability "2026-06-01" 1770724802000 1770681600000]
       Scenario.idle)
  = Some (Scenario.slot "2026-04-01").
Proof. reflexivity. Qed.

(** ** C8: the outcome of a booking attempt *)
Section BookingAttempt.
Import Part000.

Lemma formAbsent_stillOnForm (a : Attempt) :
  Booking.formAbsent a = negb (stillOnForm a).
Proof.
  unfold Booking.formAbsent, stillOnForm, Js.catch_with.
  now destruct (at_formFound a).
Qed.

(** The wait emits nothing and ends normally, by a rejected pause, or not
    within the rounds looked at. *)
Lemma waitForTime_shape (rounds k : nat) (polls : nat -> Poll) (g : State) :
  exists g', waitForTime rounds k polls g = ([], g', Go tt)
             \/ waitForTime rounds k polls g = ([], g', Halt Pending)
             \/ exists msg, waitForTime rounds k polls g
                             = ([], g', Halt (Thrown msg)).
Proof.
  revert k g. induction rounds as [|rounds IH]; intros k g;
    simpl; unfold mbind, get; simpl.
  - destruct (Js.truthy (availableTime g)); simpl; eauto.
  - destruct (Js.truthy (availableTime g)); simpl; [eauto|].
    destruct (pl_wait (polls k)) as [[]|msg]; simpl; [|eauto].
    destruct (pl_heard (polls k)) as [h|]; simpl.
    + destruct (Js.truthy (pl_dropdown (polls k))); simpl; [eauto|].
      destruct (IH (S k) (set_availableTime (Some h) g)) as (g' & H).
      exists g'. destruct H as [-> | [-> | (m & ->)]]; eauto.
    + destruct (Js.truthy (pl_dropdown (polls k))); simpl; [eauto|].
      destruct (IH (S k) g) as (g' & H).
      exists g'. destruct H as [-> | [-> | (m & ->)]]; eauto.
Qed.

Lemma waitForTime_ready (rounds k : nat) (polls : nat -> Poll) (g : State) :
  Js.truthy (availableTime g) = true ->
  waitForTime rounds k polls g = ([], g, Go tt).
Proof.
  intros H. destruct rounds; simpl; unfold mbind, get; simpl; now rewrite H.
Qed.

(** With enough rounds the wait ends when the script says it does. *)
Lemma waitForTime_ends (rounds k k0 : nat) (polls : nat -> Poll) (g : State) :
  (k <= k0 < k + rounds)%nat ->
  (exists msg, pl_wait (polls k0) = Js.Err msg)
  \/ Js.truthy (pl_heard (polls k0)) = true
  \/ Js.truthy (pl_dropdown (polls k0)) = true ->
  forall g', waitForTime rounds k polls g <> ([], g', Halt Pending).
Proof.
  revert k g. induction rounds as [|rounds IH]; intros k g Hk Hend g';
    [lia|].
  simpl; unfold mbind, get; simpl.
  destruct (Js.truthy (availableTime g)); simpl; [discriminate|].
  destruct (pl_wait (polls k)) as [[]|msg] eqn:Hw; simpl; [|discriminate].
  destruct (Js.truthy (pl_dropdown (polls k))) eqn:Hd.
  { destruct (pl_heard (polls k)); simpl; discriminate. }
  destruct (Nat.eq_dec k0 k) as [-> | Hne].
  - destruct Hend as [(m & Hm) | [Hh | Hd']]; [congruence | | congruence].
    destruct (pl_heard (polls k)) as [h|]; [|discriminate].
    cbn [hear mbind update]. rewrite waitForTime_ready by exact Hh.
    discriminate.
  - destruct (pl_heard (polls k)) as [h|]; simpl.
    + specialize (IH (S k) (set_availableTime (Some h) g) ltac:(lia) Hend).
      destruct (waitForTime rounds (S k) polls _) as [[t g1] r] eqn:E.
      intros [= -> -> ->]. now apply (IH g').
    + specialize (IH (S k) g ltac:(lia) Hend).
      destruct (waitForTime rounds (S k) polls g) as [[t g1] r] eqn:E.
      intros [= -> -> ->]. now apply (IH g').
Qed.

(** The shape of every attempt: one recorded call, and either a report
    that says whether the form is gone, or a wait that has not ended. *)
Lemma performBooking_shape (rounds : nat) (a : Attempt) (slot : Slot) (g : State) :
  exists g',
    performBooking rounds a slot g
      = ([EvPerformBooking slot (bookingInProgress g)], g', Go (Booking.formAbsent a))
    \/ performBooking rounds a slot g
       = ([EvPerformBooking slot (bookingInProgress g)], g', Halt Pending).
Proof.
  rewrite formAbsent_stillOnForm.
  unfold performBooking, mbind, tryCatch, emit, update, hear, ret; simpl.
  destruct (at_setDate a) as [[]|m0]; simpl; [|destruct (stillOnForm a); simpl; eauto].
  destruct (at_heard a) as [h|]; simpl;
    match goal with
    | |- context [waitForTime rounds 0 (at_polls a) ?g1] =>
        destruct (waitForTime_shape rounds 0 (at_polls a) g1)
          as (g2 & [-> | [-> | (m & ->)]]); simpl
    end;
    try (destruct (stillOnForm a); simpl; now eauto);
    destruct (at_setTime a) as [[]|m1]; simpl;
    try (destruct (stillOnForm a); simpl; now eauto);
    destruct (at_confirm a) as [[]|m2]; simpl;
    destruct (stillOnForm a); simpl; eauto.
Qed.

(** An attempt that has not ended is in its wait for a time. *)
Lemma performBooking_pending (rounds : nat) (a : Attempt) (slot : Slot)
    (g g' : State) (t : list Event) :
  performBooking rounds a slot g = (t, g', Halt Pending) ->
  exists g1 g2, waitForTime rounds 0 (at_polls a) g1 = ([], g2, Halt Pending).
Proof.
  unfold performBooking, mbind, tryCatch, emit, update, hear, ret; simpl.
  destruct (at_setDate a) as [[]|m0]; simpl;
    [|destruct (stillOnForm a); simpl; discriminate].
  destruct (at_heard a) as [h|]; simpl;
    match goal with
    | |- context [waitForTime rounds 0 (at_polls a) ?g1] =>
        destruct (waitForTime_shape rounds 0 (at_polls a) g1)
          as (g2 & [E | [E | (m & E)]]); rewrite E; simpl
    end;
    try (destruct (stillOnForm a); simpl; discriminate);
    try (intros _; eauto; fail);
    destruct (at_setTime a) as [[]|m1]; simpl;
    try (destruct (stillOnForm a); simpl; discriminate);
    destruct (at_confirm a) as [[]|m2]; simpl;
    destruct (stillOnForm a); simpl; discriminate.
Qed.

(** C8. A booking attempt that reports does so by the absence of the
    submission form after the submit: it returns [true] exactly when the
    lookup of [#appointments_submit] finds no form (a lookup that fails is
    taken as finding none), and [false] when the form is still there. An
    attempt in which a step throws is answered by the same lookup, and
    reports success if the form is gone. The attempt reports as soon as the
    wait for a time ends within the rounds looked at; otherwise it is still
    waiting. *)
Theorem performBooking_reports_form_absence (rounds : nat) (a : Attempt)
    (slot : Slot) (g : State) :
  let r := snd (performBooking rounds a slot g) in
  (r = Go (Booking.formAbsent a) \/ r = Halt Pending)
  /\ (forall booked, r = Go booked ->
        (booked = true <-> Booking.formAbsent a = true)
        /\ (booked = false <-> at_formFound a = Js.Ok true))
  /\ (forall k, (k < rounds)%nat -> Booking.ends_in a k ->
        r = Go (Booking.formAbsent a))
  /\ (forall msg, at_setDate a = Js.Err msg -> r = Go (Booking.formAbsent a))
  /\ (forall msg, Js.truthy (at_heard a) = true -> at_setDate a = Js.Ok tt ->
        at_setTime a = Js.Err msg \/ at_confirm a = Js.Err msg ->
        r = Go (Booking.formAbsent a)).
Proof.
  cbv zeta.
  destruct (performBooking_shape rounds a slot g) as (g' & [E | E]).
  - rewrite E. simpl. split; [now left|].
    split; [|repeat split; reflexivity].
    intros booked [= <-]. split; [tauto|].
    unfold Booking.formAbsent.
    destruct (at_formFound a) as [[]|]; simpl; split; congruence.
  - pose proof (performBooking_pending _ _ _ _ _ _ E) as (g1 & g2 & Hw).
    rewrite E. simpl. split; [now right|].
    split; [discriminate|].
    split; [|split].
    + intros k Hk Hend. exfalso.
      apply (waitForTime_ends rounds 0 k (at_polls a) g1 ltac:(lia) Hend g2 Hw).
    + intros msg Hm. exfalso. revert E.
      unfold performBooking, mbind, tryCatch, emit, update, hear, ret; simpl.
      rewrite Hm; simpl. destruct (stillOnForm a); simpl; discriminate.
    + intros msg Hh Hd Hs. exfalso. revert E.
      unfold performBooking, mbind, tryCatch, emit, update, hear, ret; simpl.
      rewrite Hd; simpl.
      destruct (at_heard a) as [h|]; [|discriminate]. simpl.
      rewrite waitForTime_ready by exact Hh. simpl.
      destruct (at_setTime a) as [[]|m1]; simpl;
        [|destruct (stillOnForm a); simpl; discriminate].
      destruct (at_confirm a) as [[]|m2]; simpl;
        destruct (stillOnForm a); simpl; discriminate.
Qed.

End BookingAttempt.

(** A form that stays fails the attempt; a form that is gone, or a page
    that no longer answers, makes it a success. *)
Example performBooking_form_stays :
  snd (Part000.performBooking 0 (Scenario.attempt (Js.Ok true))
         (Scenario.slot "2026-02-10") Scenario.idle) = Part000.Go false.
Proof. reflexivity. Qed.

Example performBooking_form_gone :
  snd (Part000.performBooking 0 (Scenario.attempt (Js.Ok false))
         (Scenario.slot "2026-02-10") Scenario.idle) = Part000.Go true.
Proof. reflexivity. Qed.

Example performBooking_page_gone :
  snd (Part000.performBooking 0 (Scenario.attempt (Js.Err "Target closed"))
         (Scenario.slot "2026-02-10") Scenario.idle) = Part000.Go true.
Proof. reflexivity. Qed.

(** ** The monitoring loop: C3, C4 and C7 *)
Section MonitoringLoop.
Context {rt : Js.Runtime}.
Import Part000.

Lemma isDateInRange_window (cfg : Config) (s : Slot) :
  isDateInRange (date s) (startDate cfg) (endDate cfg) = true
  <-> Booking.in_window cfg s.
Proof.
  unfold isDateInRange, Booking.in_window, Js.date_le, Js.date_ge.
  destruct (Js.Date_parse (date s)) as [d|], (startDate cfg) as [lo|],
    (endDate cfg) as [hi|]; simpl;
    try (split; [discriminate | intros (? & ? & ? & ? & ? & ? & ?); discriminate]);
    try (rewrite ?andb_false_r;
         split; [discriminate | intros (? & ? & ? & ? & ? & ? & ?); discriminate]).
  rewrite andb_true_iff, !Z.leb_le. split.
  - intros [H1 H2]. exists d, lo, hi. repeat split; assumption.
  - intros (d' & lo' & hi' & [= <-] & [= <-] & [= <-] & H1 & H2). now split.
Qed.

(** The wait for a time and the attempt leave the flag as it is. *)
Lemma waitForTime_flag (rounds k : nat) (polls : nat -> Poll) (g : State) :
  bookingInProgress (state_of (waitForTime rounds k polls g))
  = bookingInProgress g.
Proof.
  revert k g. induction rounds as [|rounds IH]; intros k g;
    simpl; unfold mbind, get; simpl.
  - destruct (Js.truthy (availableTime g)); reflexivity.
  - destruct (Js.truthy (availableTime g)); [reflexivity|]. simpl.
    destruct (pl_wait (polls k)) as [[]|msg]; simpl; [|reflexivity].
    destruct (pl_heard (polls k)) as [h|]; simpl;
      (destruct (Js.truthy (pl_dropdown (polls k))); simpl; [reflexivity|]);
      match goal with
      | |- context [waitForTime rounds (S k) polls ?g1] =>
          specialize (IH (S k) g1);
          destruct (waitForTime rounds (S k) polls g1) as [[t g2] r]
      end; simpl in *; exact IH.
Qed.

Lemma performBooking_flag (rounds : nat) (a : Attempt) (slot : Slot) (g : State) :
  bookingInProgress (state_of (performBooking rounds a slot g))
  = bookingInProgress g.
Proof.
  unfold performBooking, mbind, tryCatch, emit, update, hear, ret; simpl.
  destruct (at_setDate a) as [[]|m0]; simpl;
    [|destruct (stillOnForm a); reflexivity].
  destruct (at_heard a) as [h|]; simpl;
    match goal with
    | |- context [waitForTime rounds 0 (at_polls a) ?g1] =>
        pose proof (waitForTime_flag rounds 0 (at_polls a) g1) as Hf;
        destruct (waitForTime_shape rounds 0 (at_polls a) g1)
          as (g2 & [E | [E | (m & E)]]); rewrite E in *; simpl in *
    end;
    try (destruct (stillOnForm a); simpl; exact Hf);
    try exact Hf;
    destruct (at_setTime a) as [[]|m1]; simpl;
    try (destruct (stillOnForm a); simpl; exact Hf);
    destruct (at_confirm a) as [[]|m2]; simpl;
    destruct (stillOnForm a); simpl; exact Hf.
Qed.

(** One attempt of the loop: recorded once, flag untouched, and then the
    next step, the exit of a booked slot, or a wait that has not ended. *)
Lemma attemptOnce_shape (rounds : nat) (a : Attempt) (slot : Slot) (g : State) :
  exists g',
    bookingInProgress g' = bookingInProgress g
    /\ ((Booking.formAbsent a = false
         /\ attemptOnce rounds a slot g
            = ([EvPerformBooking slot (bookingInProgress g)], g', Go tt))
        \/ (Booking.formAbsent a = true
            /\ attemptOnce rounds a slot g
               = ([EvPerformBooking slot (bookingInProgress g)], g',
                  Halt (Exit 0)))
        \/ attemptOnce rounds a slot g
           = ([EvPerformBooking slot (bookingInProgress g)], g', Halt Pending)).
Proof.
  pose proof (performBooking_flag rounds a slot g) as Hf.
  destruct (performBooking_shape rounds a slot g) as (g' & [E | E]);
    rewrite E in Hf; simpl in Hf; exists g'; (split; [exact Hf|]);
    unfold attemptOnce, tryCatch, mbind; rewrite E; simpl.
  - destruct (Booking.formAbsent a); simpl; [right; left | left];
      split; reflexivity.
  - right; right. reflexivity.
Qed.

Lemma attempts_app (t1 t2 : list Event) :
  Booking.attempts (t1 ++ t2) = (Booking.attempts t1 + Booking.attempts t2)%nat.
Proof.
  unfold Booking.attempts. now rewrite filter_app, length_app.
Qed.

Lemma attemptsFrom_step (left n rounds : nat) (it : Iteration) (slot : Slot)
    (g : State) :
  attemptsFrom (S left) n rounds it slot g =
  match attemptOnce rounds (it_attempts it n) slot g with
  | (t, g1, Go _) =>
      match it_pauses it n with
      | Js.Ok _ =>
          let x := attemptsFrom left (S n) rounds it slot g1 in
          ((t ++ trace_of x)%list, state_of x, flow_of x)
      | Js.Err msg => ((t ++ [])%list, g1, Halt (Thrown msg))
      end
  | (t, g1, Halt s) => (t, g1, Halt s)
  end.
Proof.
  simpl attemptsFrom. unfold mbind.
  destruct (attemptOnce rounds (it_attempts it n) slot g) as [[t g1] [[]|st]];
    [|reflexivity].
  destruct (it_pauses it n) as [[]|msg]; simpl; [|reflexivity].
  now destruct (attemptsFrom left (S n) rounds it slot g1) as [[t2 g2] r2].
Qed.

(** The attempts of lines 921-937, started with the flag set: the flag
    stays set, nothing but attempts on the slot is recorded, and there are
    at most [left] of them, exactly [left] when the sequence runs to its
    end. *)
Lemma attemptsFrom_shape (left n rounds : nat) (it : Iteration) (slot : Slot)
    (g : State) :
  bookingInProgress g = true ->
  let x := attemptsFrom left n rounds it slot g in
  bookingInProgress (state_of x) = true
  /\ Forall (fun e => e = EvPerformBooking slot true) (trace_of x)
  /\ (Booking.attempts (trace_of x) <= left)%nat
  /\ (flow_of x = Go tt -> Booking.attempts (trace_of x) = left)
  /\ (forall a, flow_of x = Go a \/ flow_of x = Halt (Exit 0)
                \/ flow_of x = Halt Pending
                \/ exists msg, flow_of x = Halt (Thrown msg)).
Proof.
  revert n g. induction left as [|left IH]; intros n g Hflag; cbv zeta.
  - simpl. repeat split; auto. intros []. now left.
  - rewrite attemptsFrom_step.
    destruct (attemptOnce_shape rounds (it_attempts it n) slot g)
      as (g1 & Hf1 & [(_ & E) | [(_ & E) | E]]); rewrite E, Hflag.
    + destruct (it_pauses it n) as [[]|msg].
      * specialize (IH (S n) g1 ltac:(congruence)). cbv zeta in IH.
        destruct (attemptsFrom left (S n) rounds it slot g1) as [[t g2] r].
        unfold trace_of, state_of, flow_of in *. simpl in *.
        destruct IH as (H1 & H2 & H3 & H4 & H5).
        change (EvPerformBooking slot true :: t)
          with ([EvPerformBooking slot true] ++ t)%list.
        rewrite attempts_app.
        change (Booking.attempts [EvPerformBooking slot true]) with 1%nat.
        split; [assumption|].
        split; [constructor; [reflexivity | assumption]|].
        split; [lia|]. split; [|exact H5].
        intros Hr. now rewrite (H4 Hr).
      * unfold trace_of, state_of, flow_of. simpl.
        split; [congruence|]. split; [repeat constructor|].
        split; [unfold Booking.attempts; simpl; lia|].
        split; [discriminate|].
        intros ?. right; right; right. now exists msg.
    + unfold trace_of, state_of, flow_of. simpl.
      split; [congruence|]. split; [repeat constructor|].
      split; [unfold Booking.attempts; simpl; lia|].
      split; [discriminate|].
      intros ?. right; left. reflexivity.
    + unfold trace_of, state_of, flow_of. simpl.
      split; [congruence|]. split; [repeat constructor|].
      split; [unfold Booking.attempts; simpl; lia|].
      split; [discriminate|].
      intros ?. right; right; left. reflexivity.
Qed.


(** *** Blocks that leave the flag alone *)

Lemma quiet_ret {A : Type} (a : A) (g : State) : Booking.quiet (ret a) g.
Proof. split; [reflexivity | constructor]. Qed.

Lemma quiet_halt {A : Type} (st : Stop) (g : State) :
  Booking.quiet (@halt A st) g.
Proof. split; [reflexivity | constructor]. Qed.

Lemma quiet_get (g : State) : Booking.quiet get g.
Proof. split; [reflexivity | constructor]. Qed.

Lemma quiet_await {A : Type} (r : Js.Res A) (g : State) :
  Booking.quiet (await r) g.
Proof. destruct r; [apply quiet_ret | apply quiet_halt]. Qed.

Lemma quiet_update (f : State -> State) (g : State) :
  bookingInProgress (f g) = bookingInProgress g -> Booking.quiet (update f) g.
Proof. intros H. split; [exact H | constructor]. Qed.

Lemma quiet_login (g : State) : Booking.quiet (emit (fun _ => EvLogin)) g.
Proof. split; [reflexivity | constructor; [now left | constructor]]. Qed.

Lemma quiet_verify_event (g : State) :
  bookingInProgress g = false -> Booking.quiet (emit EvVerify) g.
Proof.
  intros H. split; [reflexivity|]. unfold emit, trace_of; simpl.
  rewrite H. constructor; [now right | constructor].
Qed.

Lemma quiet_events_from (g g' : State) (t : list Event) :
  bookingInProgress g' = bookingInProgress g ->
  Forall (fun e => e = EvLogin
                   \/ (e = EvVerify false /\ bookingInProgress g' = false)) t ->
  Forall (fun e => e = EvLogin
                   \/ (e = EvVerify false /\ bookingInProgress g = false)) t.
Proof.
  intros Hf. apply Forall_impl. intros e [-> | [-> H]]; [now left | right].
  split; [reflexivity | congruence].
Qed.

Lemma quiet_bind {A B : Type} (m : M A) (k : A -> M B) (g : State) :
  Booking.quiet m g ->
  (forall a g', bookingInProgress g' = bookingInProgress g ->
                Booking.quiet (k a) g') ->
  Booking.quiet (mbind m k) g.
Proof.
  unfold Booking.quiet, mbind, trace_of, state_of.
  destruct (m g) as [[t g1] [a|st]]; simpl; intros [Hf Ht] Hk.
  - specialize (Hk a g1 Hf).
    destruct (k a g1) as [[t2 g2] r2]; simpl in *.
    destruct Hk as [Hf2 Ht2].
    split; [congruence | apply Forall_app; split; [exact Ht|]].
    now apply (quiet_events_from g g1).
  - now split.
Qed.

Lemma quiet_tryCatch {A : Type} (body : M A) (handler : string -> M A)
    (g : State) :
  Booking.quiet body g ->
  (forall msg g', bookingInProgress g' = bookingInProgress g ->
                  Booking.quiet (handler msg) g') ->
  Booking.quiet (tryCatch body handler) g.
Proof.
  unfold Booking.quiet, tryCatch, trace_of, state_of.
  destruct (body g) as [[t g1] [a|[msg| | | |]]]; simpl; intros [Hf Ht] Hh;
    try (now split).
  specialize (Hh msg g1 Hf).
  destruct (handler msg g1) as [[t2 g2] r2]; simpl in *.
  destruct Hh as [Hf2 Ht2].
  split; [congruence | apply Forall_app; split; [exact Ht|]].
  now apply (quiet_events_from g g1).
Qed.

Lemma quiet_when (b : bool) (m : M unit) (g : State) :
  (b = true -> Booking.quiet m g) -> Booking.quiet (when b m) g.
Proof. destruct b; simpl; intros H; [now apply H | apply quiet_ret]. Qed.

Lemma onResponse_flag (a : Arrival) (g : State) :
  bookingInProgress (onResponse a g) = bookingInProgress g.
Proof.
  unfold onResponse, onTimes, onDates, trackClosest.
  repeat (match goal with
          | |- context [if ?c then _ else _] => destruct c
          | |- context [match ?x with _ => _ end] => destruct x
          end; simpl; try reflexivity).
Qed.

Lemma deliver_flag (evs : list Arrival) (g : State) :
  bookingInProgress (deliver evs g) = bookingInProgress g.
Proof.
  revert g. induction evs as [|a evs IH]; intros g; [reflexivity|].
  unfold deliver in *. simpl. rewrite IH. apply onResponse_flag.
Qed.

Lemma waitLoop_flag (prev timeout elapsed : Z) (rounds k : nat)
    (sleeps : nat -> list Arrival) (g : State) :
  bookingInProgress (waitLoop prev timeout elapsed rounds k sleeps g)
  = bookingInProgress g.
Proof.
  revert elapsed k g. induction rounds as [|rounds IH]; intros elapsed k g;
    [reflexivity|].
  simpl. destruct (_ && _); [|reflexivity].
  rewrite IH. apply deliver_flag.
Qed.

Lemma quiet_get_bind {B : Type} (k : State -> M B) (g : State) :
  Booking.quiet (k g) g -> Booking.quiet (mbind get k) g.
Proof.
  unfold Booking.quiet, mbind, get, trace_of, state_of. simpl.
  now destruct (k g g) as [[t g1] r].
Qed.

Ltac quiet_step :=
  match goal with
  | |- Booking.quiet (mbind get _) _ => apply quiet_get_bind
  | |- Booking.quiet (mbind _ _) _ => apply quiet_bind; [| intros ? ? ?]
  | |- Booking.quiet (tryCatch _ _) _ => apply quiet_tryCatch; [| intros ? ? ?]
  | |- Booking.quiet (ret _) _ => apply quiet_ret
  | |- Booking.quiet (halt _) _ => apply quiet_halt
  | |- Booking.quiet (await _) _ => apply quiet_await
  | |- Booking.quiet (emit (fun _ => EvLogin)) _ => apply quiet_login
  | |- Booking.quiet (emit EvVerify) _ => apply quiet_verify_event; congruence
  | |- Booking.quiet (update _) _ =>
      apply quiet_update; first [reflexivity | apply deliver_flag]
  | |- Booking.quiet (when _ _) _ => apply quiet_when; intros ?
  | |- Booking.quiet (if ?c then _ else _) _ => destruct c
  end.

Lemma quiet_verifyDataFreshness (cfg : Config) (run : VerifyRun) (g : State) :
  bookingInProgress g = false ->
  Booking.quiet (verifyDataFreshness cfg run) g.
Proof.
  intros Hflag. unfold verifyDataFreshness. repeat quiet_step.
Qed.

Lemma quiet_cookieBlock (it : Iteration) (g : State) :
  Booking.quiet (cookieBlock it) g.
Proof. unfold cookieBlock. repeat quiet_step. Qed.

Lemma quiet_aliveBlock (it : Iteration) (g : State) :
  Booking.quiet (aliveBlock it) g.
Proof. unfold aliveBlock. repeat quiet_step. Qed.

(** The guard of line 858 lets a verification start only with the flag
    cleared. *)
Lemma quiet_verifyBlock (cfg : Config) (it : Iteration) (g : State) :
  Booking.quiet (verifyBlock cfg it) g.
Proof.
  unfold verifyBlock. quiet_step. quiet_step.
  assert (Hflag : bookingInProgress g = false).
  { unfold verifyDue in H. apply andb_true_iff in H.
    destruct H as [H _]. now destruct (bookingInProgress g). }
  quiet_step.
  - quiet_step; [now apply quiet_verifyDataFreshness|]. repeat quiet_step.
  - repeat quiet_step.
Qed.

Lemma quiet_busyBlock (it : Iteration) (g : State) :
  Booking.quiet (busyBlock it) g.
Proof. unfold busyBlock. repeat quiet_step. Qed.

Lemma quiet_resetSelection (it : Iteration) (g : State) :
  Booking.quiet (resetSelection it) g.
Proof. unfold resetSelection. repeat quiet_step. Qed.

(** A pass up to the slot it observes leaves the flag alone, and starts a
    verification only with the flag cleared. *)
Lemma quiet_scan (cfg : Config) (it : Iteration) (g : State) :
  Booking.quiet (scan cfg it) g.
Proof.
  unfold scan.
  quiet_step; [quiet_step|].
  quiet_step; [quiet_step|].
  quiet_step; [apply quiet_cookieBlock|].
  quiet_step; [apply quiet_aliveBlock|].
  quiet_step; [apply quiet_verifyBlock|].
  quiet_step; [apply quiet_busyBlock|].
  quiet_step; [apply quiet_resetSelection|].
  quiet_step.
  unfold waitForAvailableSlot.
  quiet_step; [|quiet_step].
  apply quiet_update. apply waitLoop_flag.
Qed.

(** *** The booking block and the pass around it *)

Lemma qualifies_window (cfg : Config) (slot : option Slot) :
  qualifies cfg slot = true <-> exists s, slot = Some s /\ Booking.in_window cfg s.
Proof.
  destruct slot as [s|]; simpl.
  - rewrite isDateInRange_window. split.
    + intros H. now exists s.
    + intros (s' & [= <-] & H). exact H.
  - split; [discriminate | intros (s & [=] & _)].
Qed.

Lemma bookingBlock_outside (cfg : Config) (rounds : nat) (it : Iteration)
    (slot : option Slot) (g : State) :
  qualifies cfg slot = false ->
  bookingBlock cfg rounds it slot g = ([], g, Go tt).
Proof.
  unfold bookingBlock, qualifies. destruct slot as [s|]; [|reflexivity].
  now intros ->.
Qed.

Lemma bookingBlock_inside (cfg : Config) (rounds : nat) (it : Iteration)
    (s : Slot) (g : State) :
  qualifies cfg (Some s) = true ->
  bookingBlock cfg rounds it (Some s) g =
  let x := attemptsFrom 3 1 rounds it s (set_bookingInProgress true g) in
  match flow_of x with
  | Go _ => (trace_of x, set_bookingInProgress false (state_of x), Go tt)
  | Halt st => (trace_of x, state_of x, Halt st)
  end.
Proof.
  unfold bookingBlock, qualifies. intros ->.
  generalize (attemptsFrom 3 1 rounds it s). intros body.
  unfold mbind, update, trace_of, state_of, flow_of. simpl.
  destruct (body (set_bookingInProgress true g))
    as [[t g1] [[]|st]]; simpl; [|reflexivity].
  now rewrite app_nil_r.
Qed.

(** The block calls [performBooking] at once when the slot qualifies. *)
Lemma attemptsFrom_enters (left n rounds : nat) (it : Iteration) (slot : Slot)
    (g : State) :
  (0 < Booking.attempts
         (trace_of (attemptsFrom (S left) n rounds it slot g)))%nat.
Proof.
  rewrite attemptsFrom_step.
  destruct (attemptOnce_shape rounds (it_attempts it n) slot g)
    as (g1 & _ & [(_ & E) | [(_ & E) | E]]); rewrite E.
  - destruct (it_pauses it n); unfold trace_of, Booking.attempts; simpl; lia.
  - unfold trace_of, Booking.attempts; simpl; lia.
  - unfold trace_of, Booking.attempts; simpl; lia.
Qed.

Lemma attempts_only (s : Slot) (t : list Event) :
  Forall (fun e => e = EvPerformBooking s true) t ->
  Booking.verifications t = 0%nat /\ Booking.disciplined t.
Proof.
  unfold Booking.verifications, Booking.disciplined.
  induction 1 as [|e l He Hl [IH1 IH2]]; [split; [reflexivity | constructor]|].
  subst e. simpl. split; [exact IH1 | now constructor].
Qed.

Lemma bookingBlock_shape (cfg : Config) (rounds : nat) (it : Iteration)
    (slot : option Slot) (g : State) :
  let x := bookingBlock cfg rounds it slot g in
  Booking.disciplined (trace_of x)
  /\ (Booking.attempts (trace_of x) <= 3)%nat
  /\ Booking.verifications (trace_of x) = 0%nat
  /\ ((0 < Booking.attempts (trace_of x))%nat <-> qualifies cfg slot = true)
  /\ (qualifies cfg slot = true ->
      (flow_of x = Go tt -> bookingInProgress (state_of x) = false)
      /\ (flow_of x <> Go tt -> bookingInProgress (state_of x) = true)).
Proof.
  cbv zeta. destruct (qualifies cfg slot) eqn:Hq.
  - destruct slot as [s|]; [|discriminate].
    rewrite (bookingBlock_inside cfg rounds it s g Hq). cbv zeta.
    pose proof (attemptsFrom_shape 3 1 rounds it s
                  (set_bookingInProgress true g) eq_refl) as H.
    pose proof (attemptsFrom_enters 2 1 rounds it s
                  (set_bookingInProgress true g)) as Hin.
    cbv zeta in H. destruct H as (Hf & Ht & Hn & _ & _).
    destruct (attempts_only s _ Ht) as (Hv & Hd).
    destruct (attemptsFrom 3 1 rounds it s (set_bookingInProgress true g))
      as [[t g1] [[]|st]]; unfold trace_of, state_of, flow_of in *; simpl in *.
    + split; [exact Hd|]. split; [exact Hn|]. split; [exact Hv|].
      split; [tauto|]. intros _. split; [reflexivity | congruence].
    + split; [exact Hd|]. split; [exact Hn|]. split; [exact Hv|].
      split; [tauto|]. intros _. split; [discriminate | intros _; exact Hf].
  - rewrite (bookingBlock_outside cfg rounds it slot g Hq).
    unfold trace_of, state_of, flow_of, Booking.attempts,
      Booking.verifications; simpl.
    split; [constructor|]. split; [lia|]. split; [reflexivity|].
    split; [split; [lia | discriminate] | discriminate].
Qed.

Lemma pass_run (cfg : Config) (rounds : nat) (it : Iteration) (g : State) :
  pass cfg rounds it g =
  match scan cfg it g with
  | (t0, g0, Go slot) =>
      match bookingBlock cfg rounds it slot g0 with
      | (t1, g1, Go _) =>
          ((t0 ++ t1)%list, g1,
           match it_delay it with
           | Js.Ok _ => Go tt
           | Js.Err msg => Halt (Thrown msg)
           end)
      | (t1, g1, Halt st) => ((t0 ++ t1)%list, g1, Halt st)
      end
  | (t0, g0, Halt st) => (t0, g0, Halt st)
  end.
Proof.
  unfold pass, mbind.
  destruct (scan cfg it g) as [[t0 g0] [slot|st]]; [|reflexivity].
  destruct (bookingBlock cfg rounds it slot g0) as [[t1 g1] [[]|st]];
    [|reflexivity].
  destruct (it_delay it) as [[]|msg]; simpl; now rewrite app_nil_r.
Qed.

(** What the [catch (loopError)] and [continue] make of a pass. *)
Lemma iteration_run (cfg : Config) (rounds : nat) (it : Iteration) (g : State) :
  iteration cfg rounds it g =
  match pass cfg rounds it g with
  | (t, g', Halt (Thrown msg)) =>
      (t, g', if Js.includes msg "closed" || Js.includes msg "Target"
              then Halt Restart else Go tt)
  | (t, g', Halt Skip) => (t, g', Go tt)
  | other => other
  end.
Proof.
  unfold iteration, tryCatch.
  destruct (pass cfg rounds it g) as [[t g'] [[]|[msg| | | |]]];
    try reflexivity.
  destruct (_ || _); simpl; now rewrite app_nil_r.
Qed.

Lemma iteration_trace (cfg : Config) (rounds : nat) (it : Iteration) (g : State) :
  trace_of (iteration cfg rounds it g) = trace_of (pass cfg rounds it g)
  /\ state_of (iteration cfg rounds it g) = state_of (pass cfg rounds it g).
Proof.
  rewrite iteration_run.
  destruct (pass cfg rounds it g) as [[t g'] [[]|[msg| | | |]]];
    split; reflexivity.
Qed.

Lemma quiet_no_attempts (g : State) (t : list Event) :
  Forall (fun e => e = EvLogin
                   \/ (e = EvVerify false /\ bookingInProgress g = false)) t ->
  Booking.attempts t = 0%nat /\ Booking.disciplined t
  /\ (bookingInProgress g = true -> Booking.verifications t = 0%nat).
Proof.
  unfold Booking.attempts, Booking.verifications, Booking.disciplined.
  induction 1 as [|e l He Hl (IH1 & IH2 & IH3)].
  - repeat split; constructor.
  - destruct He as [-> | [-> Hg]]; simpl.
    + split; [exact IH1|]. split; [now constructor | exact IH3].
    + split; [exact IH1|]. split; [now constructor | congruence].
Qed.

Lemma disciplined_app (t1 t2 : list Event) :
  Booking.disciplined t1 -> Booking.disciplined t2 ->
  Booking.disciplined (t1 ++ t2).
Proof. unfold Booking.disciplined. intros. apply Forall_app. now split. Qed.

Lemma verifications_app (t1 t2 : list Event) :
  Booking.verifications (t1 ++ t2)
  = (Booking.verifications t1 + Booking.verifications t2)%nat.
Proof.
  unfold Booking.verifications. now rewrite filter_app, length_app.
Qed.

(** A pass: its calls keep the discipline of the flag, it makes at most
    three attempts, and it makes one exactly when the slot it observes
    qualifies. *)
Lemma pass_shape (cfg : Config) (rounds : nat) (it : Iteration) (g : State) :
  let x := pass cfg rounds it g in
  Booking.disciplined (trace_of x)
  /\ (Booking.attempts (trace_of x) <= 3)%nat
  /\ ((0 < Booking.attempts (trace_of x))%nat
      <-> exists slot, flow_of (scan cfg it g) = Go slot
                       /\ qualifies cfg slot = true)
  /\ (bookingInProgress g = true -> Booking.verifications (trace_of x) = 0%nat).
Proof.
  cbv zeta. rewrite pass_run.
  destruct (quiet_scan cfg it g) as [Hf Ht].
  destruct (quiet_no_attempts g _ Ht) as (Ha & Hd & Hv).
  destruct (scan cfg it g) as [[t0 g0] [slot|st]];
    unfold trace_of, state_of, flow_of in *; simpl in *.
  - pose proof (bookingBlock_shape cfg rounds it slot g0) as Hb.
    cbv zeta in Hb. destruct Hb as (Hbd & Hbn & Hbv & Hbq & _).
    destruct (bookingBlock cfg rounds it slot g0) as [[t1 g1] [[]|st]];
      unfold trace_of, state_of, flow_of in *; simpl in *;
      rewrite attempts_app, verifications_app, Ha;
      (split; [now apply disciplined_app|]);
      (split; [lia|]);
      (split; [|intros Hg; rewrite (Hv Hg), Hbv; reflexivity]);
      simpl; rewrite Hbq; (split;
        [intros Hq; now exists slot | intros (slot' & [= <-] & Hq); exact Hq]).
  - split; [exact Hd|]. split; [lia|]. split; [|exact Hv].
    rewrite Ha. split; [lia | intros (slot & [=] & _)].
Qed.

Lemma disciplined_bind {A B : Type} (m : M A) (k : A -> M B) (g : State) :
  Booking.disciplined (trace_of (m g)) ->
  (forall a g', Booking.disciplined (trace_of (k a g'))) ->
  Booking.disciplined (trace_of (mbind m k g)).
Proof.
  unfold mbind, trace_of. intros Hm Hk.
  destruct (m g) as [[t g1] [a|st]]; simpl in *; [|exact Hm].
  specialize (Hk a g1). destruct (k a g1) as [[t2 g2] r2]; simpl in *.
  now apply disciplined_app.
Qed.

Lemma disciplined_tryCatch {A : Type} (body : M A) (handler : string -> M A)
    (g : State) :
  Booking.disciplined (trace_of (body g)) ->
  (forall msg g', Booking.disciplined (trace_of (handler msg g'))) ->
  Booking.disciplined (trace_of (tryCatch body handler g)).
Proof.
  unfold tryCatch, trace_of. intros Hb Hh.
  destruct (body g) as [[t g1] [a|[msg| | | |]]]; simpl in *; try exact Hb.
  specialize (Hh msg g1). destruct (handler msg g1) as [[t2 g2] r2]; simpl in *.
  now apply disciplined_app.
Qed.

Lemma iteration_disciplined (cfg : Config) (rounds : nat) (it : Iteration)
    (g : State) :
  Booking.disciplined (trace_of (iteration cfg rounds it g)).
Proof.
  rewrite (proj1 (iteration_trace cfg rounds it g)).
  apply (pass_shape cfg rounds it g).
Qed.

Lemma monitor_disciplined (cfg : Config) (rounds : nat) (its : list Iteration)
    (g : State) :
  Booking.disciplined (trace_of (monitor cfg rounds its g)).
Proof.
  revert g. induction its as [|it rest IH]; intros g; [constructor|].
  simpl monitor. apply disciplined_bind; [apply iteration_disciplined|].
  intros _ g'. apply IH.
Qed.

Lemma session_disciplined (cfg : Config) (rounds : nat) (ss : Session)
    (g : State) :
  Booking.disciplined (trace_of (session cfg rounds ss g)).
Proof.
  unfold session.
  destruct (negb (ss_proxyOk ss)); [constructor|].
  destruct (startDate cfg); [|constructor].
  destruct (endDate cfg); [|constructor].
  apply disciplined_tryCatch;
    [|intros msg g'; unfold recover;
      destruct (launched ss), (ss_close ss); constructor].
  apply disciplined_bind; [destruct (ss_launch ss); constructor|].
  intros _ g0. apply disciplined_bind; [destruct (ss_page ss); constructor|].
  intros _ g1. apply disciplined_bind; [repeat constructor|].
  intros _ g2. apply disciplined_bind; [destruct (ss_login ss); constructor|].
  intros _ g3. apply disciplined_bind; [destruct (ss_navigate ss); constructor|].
  intros _ g4. apply disciplined_bind; [constructor|].
  intros _ g5. apply disciplined_bind; [constructor|].
  intros _ g6. apply disciplined_bind; [constructor|].
  intros _ g7. apply monitor_disciplined.
Qed.

Lemma runBot_disciplined (cfg : Config) (rounds : nat) (script : list Session)
    (g : State) :
  Booking.disciplined (trace_of (runBot cfg rounds script g)).
Proof.
  revert g. induction script as [|ss rest IH]; intros g; [constructor|].
  simpl runBot. pose proof (session_disciplined cfg rounds ss g) as Hs.
  destruct (session cfg rounds ss g) as [[t g1] [[]|[msg| | | |]]];
    try exact Hs.
  specialize (IH g1).
  destruct (runBot cfg rounds rest g1) as [[t2 g2] r2].
  unfold trace_of in *; simpl in *. now apply disciplined_app.
Qed.

Lemma bind_post {A B : Type} (m : M A) (k : A -> M B)
    (Q : State -> B -> Prop) (g : State) :
  (forall a g' b, flow_of (k a g') = Go b -> Q (state_of (k a g')) b) ->
  forall b, flow_of (mbind m k g) = Go b -> Q (state_of (mbind m k g)) b.
Proof.
  unfold mbind, flow_of, state_of. intros Hk b.
  destruct (m g) as [[t g1] [a|st]]; simpl; [|discriminate].
  specialize (Hk a g1 b). now destruct (k a g1) as [[t2 g2] r2].
Qed.

(** The slot a pass observes is the one the listener recorded last. *)
Lemma scan_slot (cfg : Config) (it : Iteration) (g : State) (slot : option Slot) :
  flow_of (scan cfg it g) = Go slot ->
  slot = availableDate (state_of (scan cfg it g)).
Proof.
  unfold scan.
  apply (bind_post _ _ (fun g' b => b = availableDate g')).
  do 7 (intros _ ? ?;
        apply (bind_post _ _ (fun g' b => b = availableDate g'))).
  intros a gfin bfin.
  unfold waitForAvailableSlot, mbind, update, ret, flow_of, state_of.
  simpl. now intros [= <-].
Qed.

(** C3. The loop enters a booking attempt if and only if the slot it
    currently observes has its date within the configured DateWindow, both
    ends included: the booking block calls [performBooking] exactly for
    such a slot; a pass of the loop calls it exactly when the slot its wait
    returns, the one the listener recorded last, is such a slot; and for an
    observed slot outside the window the pass calls it not once. *)
Theorem booking_entered_iff_in_window (cfg : Config) (rounds : nat)
    (it : Iteration) (g : State) :
  (forall slot, flow_of (scan cfg it g) = Go slot ->
                slot = availableDate (state_of (scan cfg it g)))
  /\ (forall slot g0,
     (0 < Booking.attempts (trace_of (bookingBlock cfg rounds it slot g0)))%nat
     <-> exists s, slot = Some s /\ Booking.in_window cfg s)
  /\ ((0 < Booking.attempts (trace_of (iteration cfg rounds it g)))%nat
      <-> exists s, flow_of (scan cfg it g) = Go (Some s)
                    /\ Booking.in_window cfg s)
  /\ (forall s, flow_of (scan cfg it g) = Go (Some s) ->
                ~ Booking.in_window cfg s ->
                Booking.attempts (trace_of (iteration cfg rounds it g)) = 0%nat).
Proof.
  assert (Hpass : (0 < Booking.attempts (trace_of (iteration cfg rounds it g)))%nat
                  <-> exists s, flow_of (scan cfg it g) = Go (Some s)
                                /\ Booking.in_window cfg s).
  { rewrite (proj1 (iteration_trace cfg rounds it g)).
    pose proof (pass_shape cfg rounds it g) as H. cbv zeta in H.
    destruct H as (_ & _ & Hq & _). rewrite Hq. split.
    - intros (slot & Hs & Hw). apply qualifies_window in Hw.
      destruct Hw as (s & -> & Hw). now exists s.
    - intros (s & Hs & Hw). exists (Some s). split; [exact Hs|].
      apply qualifies_window. now exists s. }
  split; [apply scan_slot|]. split; [|split].
  - intros slot g0.
    pose proof (bookingBlock_shape cfg rounds it slot g0) as H.
    cbv zeta in H. destruct H as (_ & _ & _ & Hq & _).
    rewrite Hq. apply qualifies_window.
  - exact Hpass.
  - intros s Hs Hout.
    destruct (Booking.attempts (trace_of (iteration cfg rounds it g))) eqn:E;
      [reflexivity|].
    exfalso. assert (Hpos : (0 < S n)%nat) by lia.
    apply Hpass in Hpos. destruct Hpos as (s' & Hs' & Hin).
    rewrite Hs in Hs'. injection Hs' as <-. contradiction.
Qed.



(** C7. The freshness verification never runs while a booking attempt is
    active. In every run of the bot and of its monitoring loop each call of
    [verifyDataFreshness] is made with [bookingInProgress] cleared and each
    call of [performBooking] with it set; a pass that starts with the flag
    set calls no verification at all; and the flag, set before the first
    attempt on a qualifying slot, stays set while the attempt sequence is
    under way and is cleared only once it has run to its end. *)
Theorem verification_never_during_booking (cfg : Config) (rounds : nat) :
  (forall script g,
     Booking.disciplined (trace_of (runBot cfg rounds script g)))
  /\ (forall its g,
        Booking.disciplined (trace_of (monitor cfg rounds its g)))
  /\ (forall it g,
        bookingInProgress g = true ->
        Booking.verifications (trace_of (iteration cfg rounds it g)) = 0%nat)
  /\ (forall it s g,
        Booking.in_window cfg s ->
        let x := bookingBlock cfg rounds it (Some s) g in
        Booking.verifications (trace_of x) = 0%nat
        /\ (flow_of x = Go tt -> bookingInProgress (state_of x) = false)
        /\ (flow_of x <> Go tt -> bookingInProgress (state_of x) = true)).
Proof.
  split; [|split; [|split]].
  - intros script g. apply runBot_disciplined.
  - intros its g. apply monitor_disciplined.
  - intros it g Hflag.
    rewrite (proj1 (iteration_trace cfg rounds it g)).
    now apply (pass_shape cfg rounds it g).
  - intros it s g Hw. cbv zeta.
    assert (Hq : qualifies cfg (Some s) = true)
      by (apply qualifies_window; now exists s).
    pose proof (bookingBlock_shape cfg rounds it (Some s) g) as H.
    cbv zeta in H. destruct H as (_ & _ & Hv & _ & Hflag).
    split; [exact Hv | exact (Hflag Hq)].
Qed.

End MonitoringLoop.

(** ** C6: failed logins *)
Section LoginEscalation.
Import Ok.

(** A banned credential is not tried: the call exits at once. *)
Lemma runBot_banned (who : string) (script : list Session) (st : State) :
  isAccountBanned who (bans st) = true ->
  runBot who script st = ([], st, Exited 10).
Proof. intros H. destruct script; simpl; now rewrite H. Qed.

Lemma isAccountBanned_banAccount (who why : string) (at_ : Z) (l : BanList) :
  isAccountBanned who (banAccount who why at_ l) = true.
Proof.
  unfold isAccountBanned, banAccount. rewrite existsb_app. simpl.
  rewrite String.eqb_refl. now rewrite orb_true_r.
Qed.

Lemma isAccountBanned_ban (who why : string) (at_ : Z) (st : State) :
  isAccountBanned who (bans (ban who why at_ st)) = true.
Proof. apply isAccountBanned_banAccount. Qed.

(** One failed login: a retry while fewer than 3 have failed in a row, the
    ban and exit code 10 at the third. *)
Lemma runBot_failure (who : string) (ss : Session) (rest : list Session)
    (st : State) :
  isAccountBanned who (bans st) = false ->
  consecutiveLoginFailures st < 3 ->
  Escalation.fails ss ->
  runBot who (ss :: rest) st =
  let st1 := set_failures (consecutiveLoginFailures st + 1) st in
  if consecutiveLoginFailures st + 1 <? 3 then
    match runBot who rest st1 with
    | (t, st', r) => (EvLogin who :: t, st', r)
    end
  else
    ([EvLogin who],
     ban who "Max login attempts reached (3 failures)" (ss_clock ss) st1,
     Exited 10).
Proof.
  intros Hban Hc (Hl & (msg & Hlog) & Hcl).
  cbn [runBot]. rewrite Hban.
  destruct (Z.leb_spec 3 (consecutiveLoginFailures st)); [lia|].
  rewrite Hl, Hlog, Hcl. reflexivity.
Qed.

(** The failures that bring the count to 3 end in the ban. *)
Lemma runBot_failures (who : string) (failing post : list Session) (st : State) :
  isAccountBanned who (bans st) = false ->
  0 <= consecutiveLoginFailures st < 3 ->
  consecutiveLoginFailures st + Z.of_nat (List.length failing) = 3 ->
  Forall Escalation.fails failing ->
  exists st',
    runBot who (failing ++ post) st
      = (repeat (EvLogin who) (List.length failing), st', Exited 10)
    /\ isAccountBanned who (bans st') = true.
Proof.
  revert st. induction failing as [|ss fs IH]; intros st Hban Hc Hlen Hall.
  - simpl in Hlen. lia.
  - inversion Hall as [|? ? Hss Hfs]; subst.
    simpl app. rewrite (runBot_failure who ss (fs ++ post) st Hban) by (lia || assumption).
    cbv zeta. simpl List.length in *.
    destruct (Z.ltb_spec (consecutiveLoginFailures st + 1) 3) as [Hlt | Hge].
    + destruct (IH (set_failures (consecutiveLoginFailures st + 1) st))
        as (st' & E & Hb); simpl; try assumption; try lia.
      rewrite E. exists st'. split; [reflexivity | exact Hb].
    + assert (fs = []) by (destruct fs; [reflexivity | simpl in Hlen; lia]).
      subst fs. eexists. split; [reflexivity|].
      apply isAccountBanned_banAccount.
Qed.



End LoginEscalation.

Section LoginRetries.
Context {rt : Js.Runtime}.
Import Part000.

(** In the v2.3 bot a failed login ends in the [catch] of [runBot]: when
    the browser closes, the next call of [runBot] follows, whatever came
    before; when the close rejects, [runBot] rejects with its error. *)
Lemma runBot_v23_failure (cfg : Config) (rounds : nat) (ss : Session)
    (rest : list Session) (g : State) :
  (exists lo hi, startDate cfg = Some lo /\ endDate cfg = Some hi) ->
  Escalation.fails_v23 ss ->
  runBot cfg rounds (ss :: rest) g =
  match ss_close ss with
  | Js.Ok _ =>
      let x := runBot cfg rounds rest g in
      (EvLogin :: trace_of x, state_of x, flow_of x)
  | Js.Err m => ([EvLogin], g, Halt (Thrown m))
  end.
Proof.
  intros (lo & hi & Hlo & Hhi) (Hp & Hl & Hpg & (msg & Hlog)).
  cbn [runBot]. unfold session, recover, launched.
  rewrite Hp, Hlo, Hhi. cbn [negb].
  unfold tryCatch, mbind. rewrite Hl, Hpg, Hlog. simpl.
  destruct (ss_close ss) as [[]|m]; simpl; [|reflexivity].
  now destruct (runBot cfg rounds rest g) as [[t g'] r].
Qed.

Lemma runBot_v23_failures (cfg : Config) (rounds : nat)
    (failing rest : list Session) (g : State) :
  (exists lo hi, startDate cfg = Some lo /\ endDate cfg = Some hi) ->
  Forall Escalation.fails_v23 failing ->
  Forall Escalation.closes_v23 failing ->
  let x := runBot cfg rounds (failing ++ rest) g in
  let y := runBot cfg rounds rest g in
  trace_of x = (repeat EvLogin (List.length failing) ++ trace_of y)%list
  /\ state_of x = state_of y /\ flow_of x = flow_of y.
Proof.
  intros Hdates Hall Hcl. cbv zeta.
  induction Hall as [|ss fs Hss Hfs IH]; [repeat split|].
  inversion Hcl as [|? ? Hc Hcs]; subst.
  simpl app. rewrite (runBot_v23_failure cfg rounds ss (fs ++ rest) g Hdates Hss).
  rewrite Hc. cbv zeta. destruct (IH Hcs) as (IH1 & IH2 & IH3).
  unfold trace_of, state_of, flow_of in *. simpl.
  now rewrite IH1, IH2, IH3.
Qed.


End LoginRetries.



(** The same four refusals in [ok.js]: three logins, the ban, exit 10. *)
Example ok_bans_after_three_failures :
  let refused := {| Ok.ss_launch := Js.Ok tt;
                    Ok.ss_login := Ok.LoginThrew "STILL_ON_SIGN_IN" None;
                    Ok.ss_close := Js.Ok tt;
                    Ok.ss_after := Ok.Crashed; Ok.ss_clock := 7 |} in
  Ok.runBot "a@b.c" [refused; refused; refused; refused]
    {| Ok.consecutiveLoginFailures := 0; Ok.bans := [] |}
  = ([Ok.EvLogin "a@b.c"; Ok.EvLogin "a@b.c"; Ok.EvLogin "a@b.c"],
     {| Ok.consecutiveLoginFailures := 3;
        Ok.bans := [{| Ok.email := "a@b.c";
                       Ok.reason := "Max login attempts reached (3 failures)";
                       Ok.bannedAt := 7 |}] |},
     Ok.Exited 10).
Proof. reflexivity. Qed.

(** When the browser cannot be closed after the third refusal, line 223
    throws into the [catch] of line 426: the call ends with three failures
    counted and nothing on the ban list. *)
Example ok_third_close_rejects :
  let refused close := {| Ok.ss_launch := Js.Ok tt;
                          Ok.ss_login := Ok.LoginThrew "STILL_ON_SIGN_IN" None;
                          Ok.ss_close := close;
                          Ok.ss_after := Ok.Crashed; Ok.ss_clock := 7 |} in
  Ok.runBot "a@b.c"
    [refused (Js.Ok tt); refused (Js.Ok tt); refused (Js.Err "Target closed")]
    {| Ok.consecutiveLoginFailures := 0; Ok.bans := [] |}
  = ([Ok.EvLogin "a@b.c"; Ok.EvLogin "a@b.c"; Ok.EvLogin "a@b.c"],
     {| Ok.consecutiveLoginFailures := 3; Ok.bans := [] |},
     Ok.Returned).
Proof. reflexivity. Qed.

(** In the v2.3 bot a refused login after which the browser cannot be
    closed ends the run: [runBot] rejects, and no login follows. *)
Example v23_close_rejects :
  let stuck :=
    {| Part000.ss_proxyOk := true; Part000.ss_launch := Js.Ok tt;
       Part000.ss_page := Js.Ok tt;
       Part000.ss_login := Js.Err "LOGIN_FAILED";
       Part000.ss_navigate := Js.Ok tt; Part000.ss_now := 0;
       Part000.ss_passes := [];
       Part000.ss_close := Js.Err "Target closed" |} in
  Part000.runBot (rt := IsoDate.runtime) Scenario.cfg 0
    [Scenario.failedLogin; stuck; Scenario.failedLogin] Scenario.idle
  = ([Part000.EvLogin; Part000.EvLogin], Scenario.idle,
     Part000.Halt (Part000.Thrown "Target closed")).
Proof. reflexivity. Qed.

(** ** The scenarios of the spec for the window and the booking block *)

(** Window 2026-01-01 to 2026-03-31: 2026-02-10 is in range, and so are
    both ends; the day before the start and 2026-04-01 are not. *)
Example window_scenario :
  let inRange d :=
    Part000.isDateInRange (rt := IsoDate.runtime) d
      (Part000.startDate Scenario.cfg) (Part000.endDate Scenario.cfg) in
  inRange "2026-02-10" = true
  /\ inRange "2026-01-01" = true /\ inRange "2026-03-31" = true
  /\ inRange "2025-12-31" = false /\ inRange "2026-04-01" = false.
Proof. repeat split. Qed.



(** A pass that observes 2026-02-10 while every attempt finds the form
    still there: three attempts with the flag set, the flag cleared, on to
    the next pass. *)
Example pass_three_failed_attempts :
  let s := Scenario.slot "2026-02-10" in
  let x := Part000.iteration (rt := IsoDate.runtime) Scenario.cfg 0
             (Scenario.pass 1770724800000
                [Scenario.availability "2026-02-10" 1770724800050 1770681600000]
                (Scenario.verification None 0) (Js.Ok true))
             (Part000.set_lastCookieReset 1770724700000
                (Part000.set_lastVerifyTime 1770724700000 Scenario.idle)) in
  Part000.trace_of x
    = [Part000.EvPerformBooking s true; Part000.EvPerformBooking s true;
       Part000.EvPerformBooking s true]
  /\ Part000.bookingInProgress (Part000.state_of x) = false
  /\ Part000.flow_of x = Part000.Go tt.
Proof. repeat split. Qed.

(** The same pass when the first attempt finds the form gone: one attempt,
    and the process exits with code 0. *)
Example pass_booked :
  let s := Scenario.slot "2026-02-10" in
  let x := Part000.iteration (rt := IsoDate.runtime) Scenario.cfg 0
             (Scenario.pass 1770724800000
                [Scenario.availability "2026-02-10" 1770724800050 1770681600000]
                (Scenario.verification None 0) (Js.Ok false))
             (Part000.set_lastCookieReset 1770724700000
                (Part000.set_lastVerifyTime 1770724700000 Scenario.idle)) in
  Part000.trace_of x = [Part000.EvPerformBooking s true]
  /\ Part000.flow_of x = Part000.Halt (Part000.Exit 0).
Proof. repeat split. Qed.

(** A pass that observes 2026-04-01: no attempt; the tracker takes the
    date. *)
Example pass_out_of_range :
  let x := Part000.iteration (rt := IsoDate.runtime) Scenario.cfg 0
             (Scenario.pass 1770724800000
                [Scenario.availability "2026-04-01" 1770724800050 1770681600000]
                (Scenario.verification None 0) (Js.Ok false))
             (Part000.set_lastCookieReset 1770724700000
                (Part000.set_lastVerifyTime 1770724700000 Scenario.idle)) in
  Part000.trace_of x = []
  /\ Part000.closestSlotFound (Part000.state_of x)
     = Some (Scenario.slot "2026-04-01")
  /\ Part000.flow_of x = Part000.Go tt.
Proof. repeat split. Qed.

(** The same when the rejected pause says nothing of a closed browser: the
    flag stays set just the same, and the loop goes on to its next pass. *)
Example pass_pause_rejects_otherwise :
  let it := Scenario.withPause
              (Scenario.pass 1770724800000
                 [Scenario.availability "2026-02-10" 1770724800050
                    1770681600000]
                 (Scenario.verification None 0) (Js.Ok true))
              2 (Js.Err "Timeout") in
  let x := Part000.iteration (rt := IsoDate.runtime) Scenario.cfg 0 it
             (Part000.set_lastCookieReset 1770724700000
                (Part000.set_lastVerifyTime 1770724700000 Scenario.idle)) in
  Booking.attempts (Part000.trace_of x) = 2%nat
  /\ Part000.bookingInProgress (Part000.state_of x) = true
  /\ Part000.flow_of x = Part000.Go tt.
Proof. repeat split. Qed.

(* ====================================================================== *)
(** * Part II, continued: the rest of the sources *)
(* ====================================================================== *)

(** ** The appointment URL *)
Section AppointmentUrl.
Import Shared.

Lemma noSlash_app (x y : string) : noSlash (x ++ y) = noSlash x && noSlash y.
Proof.
  induction x as [|c x IH]; simpl; [reflexivity|].
  rewrite IH. now rewrite andb_assoc.
Qed.

Lemma lastSegment_behind_slash (x y : string) :
  lastSegment (x ++ String "/" y) = false.
Proof.
  unfold lastSegment. rewrite noSlash_app. simpl.
  now rewrite !andb_false_r.
Qed.

Lemma appointmentUrl_match (pre seg : string) :
  lastSegment seg = true ->
  appointmentUrl (pre ++ "/" ++ seg) = pre ++ "/appointment".
Proof.
  intros Hseg. induction pre as [|c pre IH]; simpl in *.
  - now rewrite Hseg.
  - rewrite lastSegment_behind_slash, andb_false_r. now rewrite IH.
Qed.

Lemma appointmentUrl_cases (url : string) :
  (exists pre seg, url = pre ++ "/" ++ seg /\ lastSegment seg = true)
  \/ appointmentUrl url = url.
Proof.
  induction url as [|c url IH]; [now right|].
  simpl. destruct (isSlash c) eqn:Hc; simpl.
  - destruct (lastSegment url) eqn:Hseg.
    + left. exists "", url. split; [|exact Hseg].
      unfold isSlash in Hc. apply Ascii.eqb_eq in Hc. now subst c.
    + destruct IH as [(pre & seg & -> & Hs) | ->]; [|now right].
      left. exists (String c pre), seg. now split.
  - destruct IH as [(pre & seg & -> & Hs) | ->]; [|now right].
    left. exists (String c pre), seg. now split.
Qed.

(** X1. The appointment URL keeps everything up to the last slash and puts
    [appointment] in place of the last path segment; a URL that ends in a
    slash, or has no slash at all, is left as it is. *)
Theorem appointmentUrl_replaces_last_segment :
  (forall pre seg, lastSegment seg = true ->
                   appointmentUrl (pre ++ "/" ++ seg) = pre ++ "/appointment")
  /\ (forall url, noSlash url = true -> appointmentUrl url = url)
  /\ (forall pre, appointmentUrl (pre ++ "/") = pre ++ "/").
Proof.
  split; [exact appointmentUrl_match | split].
  - induction url as [|c url IH]; simpl; [reflexivity|].
    intros H. apply andb_true_iff in H. destruct H as [Hc Hu].
    apply negb_true_iff in Hc. rewrite Hc. simpl. now rewrite IH.
  - induction pre as [|c pre IH]; simpl; [reflexivity|].
    assert (H : lastSegment (pre ++ "/") = false).
    { unfold lastSegment. rewrite noSlash_app. simpl.
      now rewrite !andb_false_r. }
    rewrite H, andb_false_r. now rewrite IH.
Qed.

(** X2. Building the appointment URL from an appointment URL changes
    nothing: the rewrite is idempotent. *)
Theorem appointmentUrl_idempotent (url : string) :
  appointmentUrl (appointmentUrl url) = appointmentUrl url.
Proof.
  destruct (appointmentUrl_cases url) as [(pre & seg & -> & Hs) | E].
  - rewrite (appointmentUrl_match pre seg Hs).
    now apply (appointmentUrl_match pre "appointment").
  - now rewrite !E.
Qed.

End AppointmentUrl.

Example appointmentUrl_schedule :
  Shared.appointmentUrl
    "https://ais.usvisa-info.com/en-ca/niv/schedule/12345678/continue_actions"
  = "https://ais.usvisa-info.com/en-ca/niv/schedule/12345678/appointment".
Proof. reflexivity. Qed.

(** ** Picking from a list *)

(** X3. For every value [Math.random()] can return, the pick from a list
    that is not empty is one of its elements, never [undefined]. *)
Theorem pick_in_list {A : Type} (xs : list A) (random : Q) :
  (0 <= random)%Q -> (random < 1)%Q -> xs <> [] ->
  exists x, Shared.pick xs random = Some x /\ In x xs.
Proof.
  intros Hlo Hhi Hne. unfold Shared.pick.
  set (n := Z.of_nat (List.length xs)).
  assert (Hn : 0 < n) by (destruct xs; [contradiction | subst n; simpl; lia]).
  assert (H0 : 0 <= Qfloor (random * inject_Z n)).
  { assert (H : Qfloor (inject_Z 0) <= Qfloor (random * inject_Z n)).
    { apply Qfloor_resp_le. apply Qmult_le_0_compat; [exact Hlo|].
      change 0%Q with (inject_Z 0). rewrite <- Zle_Qle. lia. }
    now rewrite Qfloor_Z in H. }
  assert (H1 : Qfloor (random * inject_Z n) < n).
  { assert (Hq : (inject_Z (Qfloor (random * inject_Z n)) < inject_Z n)%Q).
    { eapply Qle_lt_trans; [apply Qfloor_le|].
      rewrite <- (Qmult_1_l (inject_Z n)) at 2.
      apply Qmult_lt_compat_r; [|exact Hhi].
      change 0%Q with (inject_Z 0). rewrite <- Zlt_Qlt. lia. }
    now rewrite <- Zlt_Qlt in Hq. }
  assert (Hnth : exists x, nth_error xs (Z.to_nat (Qfloor (random * inject_Z n)))
                           = Some x).
  { destruct (nth_error xs _) as [x|] eqn:E; [now exists x|].
    apply nth_error_None in E. subst n. lia. }
  destruct Hnth as (x & Hx).
  exists x. split; [|eapply nth_error_In; exact Hx].
  destruct (Qfloor (random * inject_Z n)); [exact Hx | exact Hx | lia].
Qed.

Lemma pick_in_list_witness :
  exists x, Shared.pick ["a"; "b"; "c"] (2 # 3) = Some x
            /\ In x ["a"; "b"; "c"].
Proof.
  apply pick_in_list; [discriminate | reflexivity | discriminate].
Defined.

(** ** The cooldown files of [ok.js] *)
Section CooldownFiles.
Import OkCooldown.

Lemma isAlnum_underscore : isAlnum "_"%char = false.
Proof. reflexivity. Qed.

Lemma sanitize_idempotent (e : string) : sanitize (sanitize e) = sanitize e.
Proof.
  induction e as [|c e IH]; simpl; [reflexivity|].
  rewrite IH. destruct (isAlnum c) eqn:Hc; [now rewrite Hc | reflexivity].
Qed.

(** X4. The name of a cooldown file is as long as the email it is made
    from and holds only letters, digits and underscores. Making it is
    idempotent, so an email and its sanitised form name the same file; and
    since [@] is replaced, no email is its own file name: the name does not
    tell the credentials apart that differ only in replaced characters. *)
Theorem cooldown_file_name :
  (forall e, String.length (sanitize e) = String.length e)
  /\ (forall e, Forall (fun c => isAlnum c = true \/ c = "_"%char)
                  (list_ascii_of_string (sanitize e)))
  /\ (forall e, sanitize (sanitize e) = sanitize e)
  /\ (forall e, cooldownFile (sanitize e) = cooldownFile e)
  /\ (forall e, In "@"%char (list_ascii_of_string e) -> sanitize e <> e).
Proof.
  split; [|split; [|split; [|split]]].
  - induction e as [|c e IH]; simpl; [reflexivity | now rewrite IH].
  - induction e as [|c e IH]; simpl; constructor; [|exact IH].
    destruct (isAlnum c) eqn:Hc; [now left | now right].
  - exact sanitize_idempotent.
  - intros e. unfold cooldownFile. now rewrite sanitize_idempotent.
  - induction e as [|c e IH]; simpl; [intros []|].
    intros [-> | Hin].
    + simpl. discriminate.
    + intros [= Hc He]. now apply IH.
Qed.

Lemma find_other_name (name other : string) (d : Dir) :
  other <> name ->
  find (fun e => (fst e =? other)%string)
    (filter (fun e => negb (fst e =? name)%string) d)
  = find (fun e => (fst e =? other)%string) d.
Proof.
  intros Hne. induction d as [|[n c] d IH]; simpl; [reflexivity|].
  destruct (String.eqb_spec n name) as [-> | Hn]; simpl.
  - destruct (String.eqb_spec name other); [congruence | exact IH].
  - destruct (String.eqb_spec n other); [reflexivity | exact IH].
Qed.

(** X5. After [setCooldown] the file of the credential reads back the
    record just written, with a deadline 5 minutes after the call, whatever
    the file held before; the files under other names read as before; and
    a credential whose email has the same sanitised form reads that record
    too, a cooldown set for someone else. *)
Theorem setCooldown_reads_back (who why : string) (now created : Z) (d : Dir) :
  let written := {| email := who; reason := why; until := now + 300000;
                    createdAt := created |} in
  readFile (cooldownFile who) (setCooldown who why now created d)
  = Some written
  /\ (forall other,
        cooldownFile other <> cooldownFile who ->
        readFile (cooldownFile other) (setCooldown who why now created d)
        = readFile (cooldownFile other) d)
  /\ (forall other,
        sanitize other = sanitize who ->
        readFile (cooldownFile other) (setCooldown who why now created d)
        = Some written).
Proof.
  cbv zeta.
  assert (Hself : readFile (cooldownFile who) (setCooldown who why now created d)
                  = Some {| email := who; reason := why; until := now + 300000;
                            createdAt := created |}).
  { unfold readFile, setCooldown, writeFile. simpl.
    now rewrite String.eqb_refl. }
  split; [exact Hself | split].
  - intros other Hne. unfold readFile, setCooldown, writeFile. simpl.
    destruct (String.eqb_spec (cooldownFile who) (cooldownFile other));
      [congruence|].
    now rewrite find_other_name.
  - intros other Hsame.
    replace (cooldownFile other) with (cooldownFile who); [exact Hself|].
    unfold cooldownFile. now rewrite Hsame.
Qed.

End CooldownFiles.

Example cooldown_files_collide :
  OkCooldown.cooldownFile "a.b@x.com" = "a_b_x_com.json"
  /\ OkCooldown.cooldownFile "a_b@x.com" = "a_b_x_com.json".
Proof. split; reflexivity. Qed.

(** ** The shape of the delays *)
Section DelayShape.
Import Js.

Lemma getDelay_closed (targetCPM : Z) :
  targetCPM <> 0 ->
  Part000.getDelay targetCPM = of_Z (Z.max 0 (60000 / targetCPM - 100)).
Proof.
  intros Ht. unfold Part000.getDelay.
  rewrite js_div_of_Z by assumption.
  unfold js_sub, js_neg, of_Z at 2, js_add, js_floor.
  rewrite js_max_of_Z, Qfloor_minus_Z, <- Zdiv_Qdiv. reflexivity.
Qed.

Lemma of_Z_inj (a b : Z) : of_Z a = of_Z b -> a = b.
Proof. unfold of_Z, inject_Z. now intros [= ->]. Qed.

(** X6. Up to 600 checks per minute the delay of [getDelay] does what its
    comment promises: with the 100 ms of overhead added, [targetCPM] cycles
    fit into a minute, and they would not with one millisecond more. *)
Theorem getDelay_meets_rate (targetCPM : Z) :
  0 < targetCPM <= 600 ->
  exists d,
    Part000.getDelay targetCPM = of_Z d
    /\ 0 <= d
    /\ (d + 100) * targetCPM <= 60000 < (d + 101) * targetCPM.
Proof.
  intros [Hlo Hhi].
  exists (60000 / targetCPM - 100).
  assert (Hq : 100 <= 60000 / targetCPM)
    by (apply Z.div_le_lower_bound; lia).
  rewrite getDelay_closed by lia.
  rewrite Z.max_r by lia.
  pose proof (Z.mul_div_le 60000 targetCPM Hlo) as H1.
  pose proof (Z.mul_succ_div_gt 60000 targetCPM Hlo) as H2.
  repeat split; nia.
Qed.

Lemma getDelay_meets_rate_witness :
  exists d,
    Part000.getDelay 7 = of_Z d
    /\ 0 <= d
    /\ (d + 100) * 7 <= 60000 < (d + 101) * 7.
Proof. apply (getDelay_meets_rate 7). lia. Defined.

(** X7. [getDelay] never grows with the rate, and it is used up at 600
    checks per minute: from there on, and for a negative rate (which
    [parseInt(...) || 240] lets through), the loop pauses for 0 ms. *)
Theorem getDelay_saturates :
  (forall t t' d d',
      0 < t <= t' ->
      Part000.getDelay t = of_Z d -> Part000.getDelay t' = of_Z d' ->
      0 <= d' <= d)
  /\ (forall t, 600 <= t -> Part000.getDelay t = of_Z 0)
  /\ (forall t, t < 0 -> Part000.getDelay t = of_Z 0)
  /\ (forall t, t < 0 -> Part000.parsed_or (Some t) 240 = t).
Proof.
  split; [|split; [|split]].
  - intros t t' d d' [Ht Hle] Hd Hd'.
    rewrite getDelay_closed in Hd, Hd' by lia.
    apply of_Z_inj in Hd, Hd'. subst d d'.
    assert (60000 / t' <= 60000 / t)
      by (apply Z.div_le_compat_l; lia).
    lia.
  - intros t Ht. rewrite getDelay_closed by lia.
    assert (60000 / t <= 100).
    { apply Z.div_le_upper_bound; lia. }
    now rewrite Z.max_l by lia.
  - intros t Ht. rewrite getDelay_closed by lia.
    assert (60000 / t < 0).
    { pose proof (Z.div_mod 60000 t ltac:(lia)) as Hdm.
      pose proof (Z.mod_neg_bound 60000 t Ht) as Hm. nia. }
    now rewrite Z.max_l by lia.
  - intros t Ht. unfold Part000.parsed_or.
    destruct (Z.eqb_spec t 0); [lia | reflexivity].
Qed.

(** X8. For a positive rate and a value of [Math.random()] in [0, 1),
    [getRandomDelay] stays within 15 % of the base delay of 60000 /
    targetCPM, unless the floor of one second lifts it; from 69 checks per
    minute on the floor always wins and the delay is 1000 ms whatever the
    random value. *)
Theorem getRandomDelay_jitter (targetCPM : Z) (random : Q) :
  0 < targetCPM -> (0 <= random)%Q -> (random < 1)%Q ->
  exists d,
    VisaBot.getRandomDelay targetCPM random = of_Z d
    /\ Z.max 1000 (51000 / targetCPM) <= d <= Z.max 1000 (69000 / targetCPM)
    /\ (69 <= targetCPM -> d = 1000).
Proof.
  intros Ht Hr0 Hr1. unfold VisaBot.getRandomDelay.
  rewrite js_div_of_Z by lia.
  unfold js_mul, js_sub, js_neg, js_add, js_floor.
  rewrite js_max_of_Z.
  set (q := (inject_Z 60000 / inject_Z targetCPM
             + inject_Z 60000 / inject_Z targetCPM * (3 # 10)
               * (random + - (1 # 2)))%Q).
  assert (Htq : (0 < inject_Z targetCPM)%Q)
    by (rewrite <- (Zlt_Qlt 0); exact Ht).
  assert (Hinv : (0 < / inject_Z targetCPM)%Q)
    by (apply Qinv_lt_0_compat; exact Htq).
  assert (Hlow : (inject_Z 51000 / inject_Z targetCPM <= q)%Q).
  { unfold q, Qdiv. set (i := (/ inject_Z targetCPM)%Q) in *.
    change (inject_Z 51000) with (51000 # 1)%Q.
    change (inject_Z 60000) with (60000 # 1)%Q. nra. }
  assert (Hhigh : (q <= inject_Z 69000 / inject_Z targetCPM)%Q).
  { unfold q, Qdiv. set (i := (/ inject_Z targetCPM)%Q) in *.
    change (inject_Z 69000) with (69000 # 1)%Q.
    change (inject_Z 60000) with (60000 # 1)%Q. nra. }
  apply Qfloor_resp_le in Hlow, Hhigh.
  rewrite <- Zdiv_Qdiv in Hlow, Hhigh.
  exists (Z.max 1000 (Qfloor q)). split; [reflexivity | split; [lia|]].
  intros H69.
  assert (69000 / targetCPM <= 1000)
    by (apply Z.div_le_upper_bound; lia).
  lia.
Qed.

Lemma getRandomDelay_jitter_witness :
  exists d,
    VisaBot.getRandomDelay 20 (1 # 4) = of_Z d
    /\ Z.max 1000 (51000 / 20) <= d <= Z.max 1000 (69000 / 20)
    /\ (69 <= 20 -> d = 1000).
Proof.
  apply (getRandomDelay_jitter 20 (1 # 4)); [lia | | ]; unfold Qle, Qlt; simpl; lia.
Defined.

End DelayShape.

(** ** What the v2.3 bot leaves to its listener *)
Section FrameOfTheListener.
Context {rt : Js.Runtime}.
Import Part000.

Variable R : State -> State -> Prop.

(** [R] does not look beyond the four variables only the listener writes,
    it composes, and the listener respects it. *)
Hypothesis R_other :
  forall g g',
    availableDate g' = availableDate g ->
    closestSlotFound g' = closestSlotFound g ->
    lastResponseTime g' = lastResponseTime g ->
    lastLatency g' = lastLatency g ->
    R g g'.
Hypothesis R_trans : forall a b c, R a b -> R b c -> R a c.
Hypothesis R_listen : forall a g, R g (onResponse a g).

Lemma keeps_refl (g : State) : R g g.
Proof. now apply R_other. Qed.

Lemma keeps_ret {A : Type} (a : A) : Frame.keeps R (ret a).
Proof. intros g. apply keeps_refl. Qed.

Lemma keeps_halt {A : Type} (st : Stop) : Frame.keeps R (@halt A st).
Proof. intros g. apply keeps_refl. Qed.

Lemma keeps_get : Frame.keeps R get.
Proof. intros g. apply keeps_refl. Qed.

Lemma keeps_emit (e : bool -> Event) : Frame.keeps R (emit e).
Proof. intros g. apply keeps_refl. Qed.

Lemma keeps_await {A : Type} (r : Js.Res A) : Frame.keeps R (await r).
Proof. destruct r; [apply keeps_ret | apply keeps_halt]. Qed.

Lemma keeps_update (f : State -> State) :
  (forall g, R g (f g)) -> Frame.keeps R (update f).
Proof. intros H g. apply H. Qed.

Lemma keeps_bind {A B : Type} (m : M A) (k : A -> M B) :
  Frame.keeps R m -> (forall a, Frame.keeps R (k a)) ->
  Frame.keeps R (mbind m k).
Proof.
  intros Hm Hk g. specialize (Hm g). unfold mbind, state_of in *.
  destruct (m g) as [[t g1] [a|st]]; simpl in *; [|exact Hm].
  specialize (Hk a g1). unfold state_of in Hk.
  destruct (k a g1) as [[t2 g2] r2]; simpl in *.
  now apply R_trans with g1.
Qed.

Lemma keeps_tryCatch {A : Type} (body : M A) (handler : string -> M A) :
  Frame.keeps R body -> (forall msg, Frame.keeps R (handler msg)) ->
  Frame.keeps R (tryCatch body handler).
Proof.
  intros Hb Hh g. specialize (Hb g). unfold tryCatch, state_of in *.
  destruct (body g) as [[t g1] [a|[msg| | | |]]]; simpl in *; try exact Hb.
  specialize (Hh msg g1). unfold state_of in Hh.
  destruct (handler msg g1) as [[t2 g2] r2]; simpl in *.
  now apply R_trans with g1.
Qed.

Lemma keeps_when (b : bool) (m : M unit) :
  Frame.keeps R m -> Frame.keeps R (when b m).
Proof. destruct b; simpl; [trivial | intros _; apply keeps_ret]. Qed.

Lemma keeps_deliver (evs : list Arrival) (g : State) : R g (deliver evs g).
Proof.
  revert g. induction evs as [|a evs IH]; intros g; [apply keeps_refl|].
  unfold deliver in *. simpl. apply R_trans with (onResponse a g);
    [apply R_listen | apply IH].
Qed.

Lemma keeps_waitLoop (prev timeout elapsed : Z) (rounds k : nat)
    (sleeps : nat -> list Arrival) (g : State) :
  R g (waitLoop prev timeout elapsed rounds k sleeps g).
Proof.
  revert elapsed k g. induction rounds as [|rounds IH]; intros elapsed k g;
    [apply keeps_refl|].
  simpl. destruct (_ && _); [|apply keeps_refl].
  apply R_trans with (deliver (sleeps k) g); [apply keeps_deliver | apply IH].
Qed.

Ltac keeps_step :=
  match goal with
  | |- Frame.keeps _ (mbind _ _) => apply keeps_bind; [| intros ?]
  | |- Frame.keeps _ (tryCatch _ _) => apply keeps_tryCatch; [| intros ?]
  | |- Frame.keeps _ (ret _) => apply keeps_ret
  | |- Frame.keeps _ (halt _) => apply keeps_halt
  | |- Frame.keeps _ get => apply keeps_get
  | |- Frame.keeps _ (await _) => apply keeps_await
  | |- Frame.keeps _ (emit _) => apply keeps_emit
  | |- Frame.keeps _ (update (deliver _)) =>
      apply keeps_update; intros ?; apply keeps_deliver
  | |- Frame.keeps _ (update _) =>
      apply keeps_update; intros ?; apply R_other; reflexivity
  | |- Frame.keeps _ (when _ _) => apply keeps_when
  | |- Frame.keeps _ (if ?c then _ else _) => destruct c
  end.

Lemma keeps_verifyDataFreshness (cfg : Config) (run : VerifyRun) :
  Frame.keeps R (verifyDataFreshness cfg run).
Proof. unfold verifyDataFreshness. repeat keeps_step. Qed.

Lemma keeps_hear (t : option string) : Frame.keeps R (hear t).
Proof. destruct t; simpl; keeps_step. Qed.

Lemma keeps_waitForTime (rounds k : nat) (polls : nat -> Poll) :
  Frame.keeps R (waitForTime rounds k polls).
Proof.
  revert k. induction rounds as [|rounds IH]; intros k; simpl.
  - repeat keeps_step.
  - keeps_step; [keeps_step|]. keeps_step; [keeps_step|].
    keeps_step; [keeps_step|]. keeps_step; [apply keeps_hear|].
    keeps_step; [keeps_step | apply IH].
Qed.

Lemma keeps_performBooking (rounds : nat) (a : Attempt) (slot : Slot) :
  Frame.keeps R (performBooking rounds a slot).
Proof.
  unfold performBooking.
  keeps_step; [keeps_step|]. keeps_step; [|repeat keeps_step].
  keeps_step; [keeps_step|]. keeps_step; [keeps_step|].
  keeps_step; [apply keeps_hear|].
  keeps_step; [apply keeps_waitForTime|]. repeat keeps_step.
Qed.

Lemma keeps_attemptsFrom (left n rounds : nat) (it : Iteration) (slot : Slot) :
  Frame.keeps R (attemptsFrom left n rounds it slot).
Proof.
  revert n. induction left as [|left IH]; intros n; simpl; [keeps_step|].
  keeps_step.
  - unfold attemptOnce. keeps_step; [|keeps_step].
    keeps_step; [apply keeps_performBooking | repeat keeps_step].
  - keeps_step; [keeps_step | apply IH].
Qed.

Lemma keeps_bookingBlock (cfg : Config) (rounds : nat) (it : Iteration)
    (slot : option Slot) :
  Frame.keeps R (bookingBlock cfg rounds it slot).
Proof.
  unfold bookingBlock. destruct slot as [s|]; [|keeps_step].
  destruct (isDateInRange _ _ _); [|keeps_step].
  keeps_step; [keeps_step|].
  keeps_step; [apply keeps_attemptsFrom | keeps_step].
Qed.

Lemma keeps_scan (cfg : Config) (it : Iteration) : Frame.keeps R (scan cfg it).
Proof.
  unfold scan.
  keeps_step; [keeps_step|]. keeps_step; [keeps_step|].
  keeps_step; [unfold cookieBlock; repeat keeps_step|].
  keeps_step; [unfold aliveBlock; repeat keeps_step|].
  keeps_step.
  { unfold verifyBlock. keeps_step; [keeps_step|]. keeps_step.
    keeps_step; [|keeps_step].
    keeps_step; [apply keeps_verifyDataFreshness | repeat keeps_step]. }
  keeps_step; [unfold busyBlock; repeat keeps_step|].
  keeps_step; [unfold resetSelection; repeat keeps_step|].
  intros g.
  cbv beta iota zeta
    delta [mbind get waitForAvailableSlot update ret state_of fst snd].
  apply keeps_waitLoop.
Qed.

Lemma keeps_iteration (cfg : Config) (rounds : nat) (it : Iteration) :
  Frame.keeps R (iteration cfg rounds it).
Proof.
  intros g. rewrite (proj2 (iteration_trace cfg rounds it g)). revert g.
  change (Frame.keeps R (pass cfg rounds it)). unfold pass.
  keeps_step; [apply keeps_scan|].
  keeps_step; [apply keeps_bookingBlock | keeps_step].
Qed.

Lemma keeps_monitor (cfg : Config) (rounds : nat) (its : list Iteration) :
  Frame.keeps R (monitor cfg rounds its).
Proof.
  induction its as [|it rest IH]; simpl; [keeps_step|].
  keeps_step; [apply keeps_iteration | exact IH].
Qed.

Lemma keeps_session (cfg : Config) (rounds : nat) (ss : Session) :
  Frame.keeps R (session cfg rounds ss).
Proof.
  unfold session. destruct (negb (ss_proxyOk ss)); [keeps_step|].
  destruct (startDate cfg); [|keeps_step].
  destruct (endDate cfg); [|keeps_step].
  keeps_step; [|unfold recover; repeat keeps_step].
  do 8 (keeps_step; [keeps_step|]). apply keeps_monitor.
Qed.

Lemma keeps_runBot (cfg : Config) (rounds : nat) (script : list Session) :
  Frame.keeps R (runBot cfg rounds script).
Proof.
  induction script as [|ss rest IH]; simpl; [keeps_step|].
  intros g. pose proof (keeps_session cfg rounds ss g) as Hs.
  destruct (session cfg rounds ss g) as [[t g1] [[]|[msg| | | |]]];
    try exact Hs.
  specialize (IH g1). unfold state_of in *.
  destruct (runBot cfg rounds rest g1) as [[t2 g2] r2]; simpl in *.
  now apply R_trans with g1.
Qed.

End FrameOfTheListener.

(** ** The listener and the wait for a response *)
Section ListenerAndWait.
Context {rt : Js.Runtime}.
Import Part000.

Ltac listener_cases a :=
  unfold onResponse, onTimes, onDates, observed, Frame.heardTime;
  destruct (isDatesUrl (url a)), (isTimesUrl (url a));
  destruct (body a) as [|[|? ?]|[|? ?]|]; try reflexivity;
  unfold trackClosest, set_lastLatency, set_lastResponseTime,
    set_availableDate, set_closestSlotFound, set_availableTime; simpl;
  repeat (match goal with
          | |- context [if ?c then _ else _] => destruct c
          | |- context [match ?x with _ => _ end] => destruct x
          end; simpl; try reflexivity).

Lemma availableDate_onResponse (a : Arrival) (g : State) :
  availableDate (onResponse a g)
  = match observed a with Some s => s | None => availableDate g end.
Proof. listener_cases a. Qed.

Lemma lastResponseTime_onResponse (a : Arrival) (g : State) :
  lastResponseTime (onResponse a g)
  = match observed a with Some _ => now a | None => lastResponseTime g end.
Proof. listener_cases a. Qed.

Lemma lastRequestTime_onResponse (a : Arrival) (g : State) :
  lastRequestTime (onResponse a g) = lastRequestTime g.
Proof. listener_cases a. Qed.

Lemma lastLatency_onResponse (a : Arrival) (g : State) :
  lastLatency (onResponse a g)
  = match observed a with
    | Some _ => if 0 <? lastRequestTime g
                then now a - lastRequestTime g else lastLatency g
    | None => lastLatency g
    end.
Proof.
  unfold onResponse, onTimes, onDates, observed.
  destruct (isDatesUrl (url a)), (isTimesUrl (url a));
    destruct (body a) as [|[|[first|] rest]|[|t ts]|]; try reflexivity;
    unfold trackClosest, set_lastLatency, set_lastResponseTime,
      set_availableDate, set_closestSlotFound, set_availableTime; simpl;
    destruct (0 <? lastRequestTime g); simpl; try reflexivity;
    destruct (Js.date_ge _ _); simpl; try reflexivity;
    destruct (closestSlotFound g); simpl; try reflexivity;
    destruct (Js.date_lt _ _); reflexivity.
Qed.

Lemma availableTime_onResponse (a : Arrival) (g : State) :
  availableTime (onResponse a g)
  = match Frame.heardTime a with Some t => t | None => availableTime g end.
Proof. listener_cases a. Qed.

Lemma onResponse_nothing (a : Arrival) (g : State) :
  observed a = None -> Frame.heardTime a = None -> onResponse a g = g.
Proof.
  unfold onResponse, onTimes, onDates, observed, Frame.heardTime.
  destruct (isDatesUrl (url a)), (isTimesUrl (url a));
    destruct (body a) as [|[|first rest]|[|t ts]|];
    intros; try reflexivity; discriminate.
Qed.

Lemma includes_not_both (u : string) : isDatesUrl u && isTimesUrl u = false.
Proof.
  unfold isDatesUrl, isTimesUrl.
  destruct (Js.includes u ".json"), (Js.includes u "appointments"),
    (Js.includes u "date="); reflexivity.
Qed.

Lemma deliver_app (l1 l2 : list Arrival) (g : State) :
  deliver (l1 ++ l2) g = deliver l2 (deliver l1 g).
Proof. unfold deliver. apply fold_left_app. Qed.

Lemma deliver_lastRequestTime (evs : list Arrival) (g : State) :
  lastRequestTime (deliver evs g) = lastRequestTime g.
Proof.
  revert g. induction evs as [|a evs IH]; intros g; [reflexivity|].
  unfold deliver in *. simpl. rewrite IH. apply lastRequestTime_onResponse.
Qed.

(** Responses that carry no list leave the slot, its time stamp, the
    latency and the tracker as they are. *)
Lemma deliver_unobserved (evs : list Arrival) (g : State) :
  Forall (fun a => observed a = None) evs ->
  availableDate (deliver evs g) = availableDate g
  /\ lastResponseTime (deliver evs g) = lastResponseTime g
  /\ lastLatency (deliver evs g) = lastLatency g
  /\ closestSlotFound (deliver evs g) = closestSlotFound g.
Proof.
  intros H. revert g. induction H as [|a evs Ha Hevs IH]; intros g;
    [repeat split|].
  unfold deliver in *. simpl.
  destruct (IH (onResponse a g)) as (H1 & H2 & H3 & H4).
  rewrite H1, H2, H3, H4.
  rewrite availableDate_onResponse, lastResponseTime_onResponse,
    lastLatency_onResponse, closest_onResponse, Ha.
  repeat split.
Qed.

Lemma deliver_cons (a : Arrival) (rest : list Arrival) (g : State) :
  deliver (a :: rest) g = deliver rest (onResponse a g).
Proof. reflexivity. Qed.

(** The time stamp after a list and responses that carry none. *)
Lemma deliver_latest (evs rest : list Arrival) (a : Arrival)
    (s : option Slot) (g : State) :
  observed a = Some s ->
  Forall (fun b => observed b = None) rest ->
  lastResponseTime (deliver (evs ++ a :: rest) g) = now a.
Proof.
  intros Ha Hrest. rewrite deliver_app, deliver_cons.
  destruct (deliver_unobserved rest (onResponse a (deliver evs g)) Hrest)
    as (_ & H2 & _).
  now rewrite H2, lastResponseTime_onResponse, Ha.
Qed.

(** X9. The slot the v2.3 listener holds is the head of the latest
    non-empty availability list, be it a record or null: responses without
    a list that come after it (an empty list, the times of a date, a body
    that is not JSON, any other URL) do not clear it, its time stamp is the
    arrival of that list, and the latency is measured from the last request
    when one was made. *)
Theorem listener_latest_list_wins (evs rest : list Arrival) (a : Arrival)
    (s : option Slot) (g : State) :
  observed a = Some s ->
  Forall (fun b => observed b = None) rest ->
  let g' := deliver (evs ++ a :: rest) g in
  availableDate g' = s
  /\ lastResponseTime g' = now a
  /\ (0 < lastRequestTime g -> lastLatency g' = now a - lastRequestTime g).
Proof.
  intros Ha Hrest. cbv zeta.
  rewrite deliver_app, deliver_cons.
  destruct (deliver_unobserved rest (onResponse a (deliver evs g)) Hrest)
    as (H1 & H2 & H3 & _).
  rewrite H1, H2, H3.
  rewrite availableDate_onResponse, lastResponseTime_onResponse,
    lastLatency_onResponse, Ha, deliver_lastRequestTime.
  repeat split. intros Hreq.
  apply Z.ltb_lt in Hreq. now rewrite Hreq.
Qed.

(** X10. The listener writes nothing but its own five variables: the
    flag, the verification browser and timer, the counters and the request
    time are as before after any responses; a response that shows neither
    a list nor a time changes nothing at all, one whose body is not JSON
    among them; and no response shows both. *)
Theorem listener_frame :
  (forall evs g,
     let g' := deliver evs g in
     bookingInProgress g' = bookingInProgress g
     /\ verifyBrowser g' = verifyBrowser g
     /\ lastVerifyTime g' = lastVerifyTime g
     /\ checkCount g' = checkCount g
     /\ lastCookieReset g' = lastCookieReset g
     /\ lastRequestTime g' = lastRequestTime g)
  /\ (forall a g,
        observed a = None -> Frame.heardTime a = None -> onResponse a g = g)
  /\ (forall a g, body a = NotJson -> onResponse a g = g)
  /\ (forall a, observed a = None \/ Frame.heardTime a = None).
Proof.
  split; [|split; [|split]].
  - intros evs g. cbv zeta. revert g.
    induction evs as [|a evs IH]; intros g; [repeat split|].
    unfold deliver in *. simpl.
    destruct (IH (onResponse a g)) as (H1 & H2 & H3 & H4 & H5 & H6).
    rewrite H1, H2, H3, H4, H5, H6.
    repeat split; listener_cases a.
  - exact onResponse_nothing.
  - intros a g Hb. apply onResponse_nothing;
      unfold observed, Frame.heardTime; rewrite Hb;
      [destruct (isDatesUrl _) | destruct (isTimesUrl _)]; reflexivity.
  - intros a. pose proof (includes_not_both (url a)) as H.
    unfold observed, Frame.heardTime.
    destruct (isDatesUrl (url a)); [|now left].
    destruct (isTimesUrl (url a)); [discriminate | now right].
Qed.

(** The loop of the wait while nothing fresh arrives. *)
Lemma waitLoop_unobserved (prev timeout elapsed : Z) (rounds k : nat)
    (sleeps : nat -> list Arrival) (g : State) :
  (forall j, (k <= j < k + rounds)%nat ->
             Forall (fun a => observed a = None) (sleeps j)) ->
  let g' := waitLoop prev timeout elapsed rounds k sleeps g in
  availableDate g' = availableDate g
  /\ lastResponseTime g' = lastResponseTime g
  /\ closestSlotFound g' = closestSlotFound g.
Proof.
  cbv zeta. revert elapsed k g.
  induction rounds as [|rounds IH]; intros elapsed k g Hq; [repeat split|].
  simpl. destruct (_ && _); [|repeat split].
  destruct (IH (elapsed + 25) (S k) (deliver (sleeps k) g)) as (H1 & H2 & H3).
  { intros j Hj. apply Hq. lia. }
  destruct (deliver_unobserved (sleeps k) g) as (D1 & D2 & _ & D4).
  { apply Hq. lia. }
  rewrite H1, H2, H3, D1, D2, D4. repeat split.
Qed.

(** X11. When no availability list arrives within the timeout,
    [waitForAvailableSlot] does not answer "nothing new": it hands back
    what [availableDate] held before the wait, the slot the listener
    recorded at some earlier time if there is one, with its old time
    stamp. *)
Theorem waitForAvailableSlot_timeout_returns_old_slot (timeoutMs : Z)
    (sleeps : nat -> list Arrival) (g : State) :
  (forall j, (j < Z.to_nat ((timeoutMs + 24) / 25))%nat ->
             Forall (fun a => observed a = None) (sleeps j)) ->
  fst (waitForAvailableSlot timeoutMs sleeps g) = availableDate g
  /\ lastResponseTime (snd (waitForAvailableSlot timeoutMs sleeps g))
     = lastResponseTime g.
Proof.
  intros Hq. unfold waitForAvailableSlot. cbv zeta. cbn [fst snd].
  destruct (waitLoop_unobserved (lastResponseTime g) timeoutMs 0
              (Z.to_nat ((timeoutMs + 24) / 25)) 0 sleeps g) as (H1 & H2 & _).
  { intros j Hj. apply Hq. lia. }
  now split.
Qed.

(** The loop of the wait up to the sleep in which a fresh list arrives. *)
Lemma waitLoop_fresh (prev timeout : Z) (rounds k0 k : nat)
    (sleeps : nat -> list Arrival) (g : State)
    (pre post : list Arrival) (a : Arrival) (s : option Slot) :
  lastResponseTime g = prev ->
  (k0 <= k < k0 + rounds)%nat ->
  25 * Z.of_nat k < timeout ->
  (forall j, (k0 <= j < k)%nat ->
             Forall (fun b => observed b = None) (sleeps j)) ->
  sleeps k = (pre ++ a :: post)%list ->
  observed a = Some s ->
  Forall (fun b => observed b = None) post ->
  now a <> prev ->
  let g' := waitLoop prev timeout (25 * Z.of_nat k0) rounds k0 sleeps g in
  availableDate g' = s /\ lastResponseTime g' = now a.
Proof.
  cbv zeta. revert k0 g.
  induction rounds as [|rounds IH];
    intros k0 g Hprev Hk Ht Hq Hsleep Ha Hpost Hfresh; [lia|].
  cbn [waitLoop]. rewrite Hprev, Z.eqb_refl.
  assert (Hlt : (25 * Z.of_nat k0 <? timeout) = true) by (apply Z.ltb_lt; lia).
  rewrite Hlt. cbn [andb].
  replace (25 * Z.of_nat k0 + 25) with (25 * Z.of_nat (S k0)) by lia.
  destruct (Nat.eq_dec k k0) as [-> | Hne].
  - rewrite Hsleep.
    pose proof (deliver_latest pre post a s g Ha Hpost) as H2.
    assert (H1 : availableDate (deliver (pre ++ a :: post) g) = s).
    { rewrite deliver_app, deliver_cons.
      destruct (deliver_unobserved post (onResponse a (deliver pre g)) Hpost)
        as (D1 & _).
      now rewrite D1, availableDate_onResponse, Ha. }
    destruct rounds as [|rounds']; [now split|].
    cbn [waitLoop]. rewrite H2.
    apply Z.eqb_neq in Hfresh. rewrite Hfresh. cbn [andb]. now split.
  - destruct (deliver_unobserved (sleeps k0) g) as (_ & D2 & _ & _).
    { apply Hq. lia. }
    apply IH; try assumption; try lia.
    intros j Hj. apply Hq. lia.
Qed.

(** The sleeps after the one that brings the fresh list are not read. *)
Lemma waitLoop_agree (prev timeout : Z) (rounds k0 k : nat)
    (sleeps sleeps' : nat -> list Arrival) (g : State)
    (pre post : list Arrival) (a : Arrival) (s : option Slot) (elapsed : Z) :
  lastResponseTime g = prev ->
  (k0 <= k)%nat ->
  (forall j, (j <= k)%nat -> sleeps' j = sleeps j) ->
  (forall j, (k0 <= j < k)%nat ->
             Forall (fun b => observed b = None) (sleeps j)) ->
  sleeps k = (pre ++ a :: post)%list ->
  observed a = Some s ->
  Forall (fun b => observed b = None) post ->
  now a <> prev ->
  waitLoop prev timeout elapsed rounds k0 sleeps' g
  = waitLoop prev timeout elapsed rounds k0 sleeps g.
Proof.
  intros Hprev Hk Hsame Hq Hsleep Ha Hpost Hfresh.
  revert k0 g elapsed Hprev Hk Hq.
  induction rounds as [|rounds IH]; intros k0 g elapsed Hprev Hk Hq;
    [reflexivity|].
  cbn [waitLoop]. destruct (_ && _); [|reflexivity].
  rewrite (Hsame k0 Hk).
  destruct (Nat.eq_dec k k0) as [-> | Hne].
  - rewrite Hsleep.
    pose proof (deliver_latest pre post a s g Ha Hpost) as H2.
    destruct rounds as [|rounds']; [reflexivity|].
    cbn [waitLoop]. rewrite H2.
    apply Z.eqb_neq in Hfresh. now rewrite Hfresh.
  - destruct (deliver_unobserved (sleeps k0) g) as (_ & D2 & _ & _).
    { apply Hq. lia. }
    apply IH; try lia.
    intros j Hj. apply Hq. lia.
Qed.

(** X12. A list that arrives during one of the sleeps of the wait (the
    first [timeoutMs / 25], rounded up), after sleeps that brought none and
    at an instant other than the time stamp the wait started from, ends the
    wait: [waitForAvailableSlot] returns the head of that list, and the
    sleeps after it are not waited for. *)
Theorem waitForAvailableSlot_returns_fresh_slot (timeoutMs : Z) (k : nat)
    (sleeps : nat -> list Arrival) (g : State)
    (pre post : list Arrival) (a : Arrival) (s : option Slot) :
  (k < Z.to_nat ((timeoutMs + 24) / 25))%nat ->
  (forall j, (j < k)%nat -> Forall (fun b => observed b = None) (sleeps j)) ->
  sleeps k = (pre ++ a :: post)%list ->
  observed a = Some s ->
  Forall (fun b => observed b = None) post ->
  now a <> lastResponseTime g ->
  fst (waitForAvailableSlot timeoutMs sleeps g) = s
  /\ lastResponseTime (snd (waitForAvailableSlot timeoutMs sleeps g)) = now a
  /\ forall sleeps',
       (forall j, (j <= k)%nat -> sleeps' j = sleeps j) ->
       waitForAvailableSlot timeoutMs sleeps' g
       = waitForAvailableSlot timeoutMs sleeps g.
Proof.
  intros Hk Hq Hsleep Ha Hpost Hfresh.
  assert (Ht : 25 * Z.of_nat k < timeoutMs).
  { assert (Hpos : 0 < (timeoutMs + 24) / 25) by lia.
    pose proof (Z.mul_div_le (timeoutMs + 24) 25 ltac:(lia)). lia. }
  unfold waitForAvailableSlot. cbv zeta. cbn [fst snd].
  destruct (waitLoop_fresh (lastResponseTime g) timeoutMs
              (Z.to_nat ((timeoutMs + 24) / 25)) 0 k sleeps g pre post a s)
    as (H1 & H2); try assumption; try reflexivity; try lia.
  { intros j Hj. apply Hq. lia. }
  split; [exact H1 | split; [exact H2|]].
  intros sleeps' Hsame.
  rewrite (waitLoop_agree (lastResponseTime g) timeoutMs
             (Z.to_nat ((timeoutMs + 24) / 25)) 0 k sleeps sleeps' g
             pre post a s 0); try assumption; try reflexivity; try lia.
  intros j Hj. apply Hq. lia.
Qed.

End ListenerAndWait.

Lemma listener_latest_list_wins_witness :
  let g := Part000.set_lastRequestTime 40 Scenario.idle in
  let g' := Part000.deliver (rt := IsoDate.runtime)
              ([Scenes.times "09:15" 45 0]
               ++ Scenario.availability "2026-02-10" 50 0
               :: [Scenes.noSlots 60 0; Scenes.times "10:00" 70 0]) g in
  Part000.availableDate g' = Some (Scenario.slot "2026-02-10")
  /\ Part000.lastResponseTime g' = 50
  /\ (0 < Part000.lastRequestTime g -> Part000.lastLatency g' = 50 - Part000.lastRequestTime g).
Proof.
  apply (listener_latest_list_wins (rt := IsoDate.runtime)
           [Scenes.times "09:15" 45 0]
           [Scenes.noSlots 60 0; Scenes.times "10:00" 70 0]
           (Scenario.availability "2026-02-10" 50 0)
           (Some (Scenario.slot "2026-02-10"))
           (Part000.set_lastRequestTime 40 Scenario.idle));
    [reflexivity | repeat constructor].
Defined.

Lemma waitForAvailableSlot_timeout_returns_old_slot_witness :
  let g := Part000.set_availableDate (Some (Scenario.slot "2026-02-10"))
             Scenario.idle in
  let sleeps := fun k : nat => [Scenes.noSlots (Z.of_nat k) 0] in
  fst (Part000.waitForAvailableSlot (rt := IsoDate.runtime) 100 sleeps g)
  = Part000.availableDate g
  /\ Part000.lastResponseTime
       (snd (Part000.waitForAvailableSlot (rt := IsoDate.runtime) 100 sleeps g))
     = Part000.lastResponseTime g.
Proof.
  apply (waitForAvailableSlot_timeout_returns_old_slot (rt := IsoDate.runtime)
           100 (fun k : nat => [Scenes.noSlots (Z.of_nat k) 0])).
  intros j _. repeat constructor.
Defined.

Lemma waitForAvailableSlot_returns_fresh_slot_witness :
  let g := Scenario.idle in
  let sleeps := fun k : nat =>
    match k with
    | 2%nat => [Scenario.availability "2026-02-10" 50 0; Scenes.noSlots 60 0]
    | _ => [Scenes.noSlots 10 0]
    end in
  fst (Part000.waitForAvailableSlot (rt := IsoDate.runtime) 100 sleeps g)
  = Some (Scenario.slot "2026-02-10")
  /\ Part000.lastResponseTime
       (snd (Part000.waitForAvailableSlot (rt := IsoDate.runtime) 100 sleeps g))
     = 50
  /\ forall sleeps',
       (forall j, (j <= 2)%nat -> sleeps' j = sleeps j) ->
       Part000.waitForAvailableSlot (rt := IsoDate.runtime) 100 sleeps' g
       = Part000.waitForAvailableSlot (rt := IsoDate.runtime) 100 sleeps g.
Proof.
  apply (waitForAvailableSlot_returns_fresh_slot (rt := IsoDate.runtime)
           100 2
           (fun k : nat =>
              match k with
              | 2%nat => [Scenario.availability "2026-02-10" 50 0;
                          Scenes.noSlots 60 0]
              | _ => [Scenes.noSlots 10 0]
              end)
           Scenario.idle [] [Scenes.noSlots 60 0]
           (Scenario.availability "2026-02-10" 50 0)
           (Some (Scenario.slot "2026-02-10"))).
  - vm_compute. lia.
  - intros [|[|j]] Hj; [repeat constructor | repeat constructor | lia].
  - reflexivity.
  - reflexivity.
  - repeat constructor.
  - vm_compute. discriminate.
Defined.

(** ** The slot and the tracker over a whole run *)
Section SlotMemory.
Context {rt : Js.Runtime}.
Import Part000.

Lemma no_later_trans (a b c : State) :
  Frame.no_later a b -> Frame.no_later b c -> Frame.no_later a c.
Proof.
  unfold Frame.no_later. intros Hab Hbc x Hx.
  destruct (Hab x Hx) as (y & Hy & Hxy).
  destruct (Hbc y Hy) as (z & Hz & Hyz).
  exists z. split; [exact Hz|].
  destruct Hxy as [-> | (t & t' & Ht & Ht' & Hlt)]; [exact Hyz|].
  destruct Hyz as [-> | (u & u' & Hu & Hu' & Hlt')].
  - right. now exists t, t'.
  - right. exists t, u'. repeat split; try assumption.
    assert (u = t') by congruence. lia.
Qed.

(** X13. In the v2.3 bot nothing ever clears the closest slot or lets it
    regress: over any run of [runBot], through verifications, booking
    attempts, restarts and whatever the responses hold, the tracker holds
    what it held or a slot of a strictly earlier date, and a tracker whose
    date reads as a date still holds such a date at the end. *)
Theorem runBot_tracker_never_regresses (cfg : Config) (rounds : nat)
    (script : list Session) (g : State) :
  Frame.no_later g (state_of (runBot cfg rounds script g))
  /\ (Frame.dated g -> Frame.dated (state_of (runBot cfg rounds script g))).
Proof.
  split.
  2:{ apply (keeps_runBot (fun g0 g1 => Frame.dated g0 -> Frame.dated g1)).
      - intros g0 g' _ Hc _ _ Hd c Hx. apply Hd. congruence.
      - intros a b c Hab Hbc Ha. exact (Hbc (Hab Ha)).
      - intros a g0 Hd. exact (onResponse_valid a g0 Hd). }
  - apply (keeps_runBot Frame.no_later).
    + intros g0 g' _ Hc _ _ c Hx. exists c. split; [congruence | now left].
    + exact no_later_trans.
    + intros a g0 c Hc.
      destruct (onResponse_improves a g0) as [E | (s & t & _ & E & Ht & _ & Hb)].
      * exists c. split; [congruence | now left].
      * exists s. split; [exact E|].
        destruct Hb as [Hnone | (c0 & tc & Hc0 & Htc & Hlt)]; [congruence|].
        assert (c0 = c) by congruence. subst c0.
        right. now exists tc, t.
Qed.

End SlotMemory.

(** The slot itself has no such protection: an availability list headed
    by null clears it, and moves the time stamp, while the tracker keeps
    its slot. *)
Example null_head_clears_slot :
  let s := Scenario.slot "2026-02-10" in
  let g := Part000.set_closestSlotFound (Some s)
             (Part000.set_availableDate (Some s) Scenario.idle) in
  let g' := Part000.onResponse (rt := IsoDate.runtime) (Scenes.nullHead 50 0) g in
  Part000.availableDate g' = None
  /\ Part000.lastResponseTime g' = 50
  /\ Part000.closestSlotFound g' = Some s.
Proof. repeat split. Qed.

(** ** What a verification can do to the loop *)
Section VerificationOutcome.
Context {rt : Js.Runtime}.
Import Part000.

Lemma hasVerifyAccount_nonempty (cfg : Config) :
  hasVerifyAccount cfg = true -> verifyEmail cfg <> "" /\ verifyPassword cfg <> "".
Proof.
  unfold hasVerifyAccount.
  destruct (verifyEmail cfg), (verifyPassword cfg); simpl;
    try discriminate; intros _; split; discriminate.
Qed.

Lemma verify_outcome (cfg : Config) (run : VerifyRun) (g : State) :
  exists fresh g',
    verifyDataFreshness cfg run g
      = ([EvVerify (bookingInProgress g)], g', Go fresh)
    /\ (fresh = false -> Verdict.compares cfg run).
Proof.
  unfold verifyDataFreshness, mbind, tryCatch, emit, when, get, update, ret,
    Verdict.compares.
  destruct (hasVerifyAccount cfg) eqn:Hacc; simpl.
  2: { repeat eexists; discriminate. }
  apply hasVerifyAccount_nonempty in Hacc. destruct Hacc as [He Hp].
  destruct (vr_launch run) as [[]|m1]; simpl.
  2: { destruct (verifyBrowser g); simpl; repeat eexists; discriminate. }
  destruct (vr_signIn run) as [[]|m2]; simpl.
  2: { repeat eexists; discriminate. }
  destruct (vr_onSignIn run); simpl.
  - destruct (vr_closeAfterLogin run) as [[]|m3]; simpl;
      repeat eexists; discriminate.
  - destruct (vr_navigate run) as [[]|m4]; simpl.
    2: { repeat eexists; discriminate. }
    destruct (vr_close run) as [[]|m5]; simpl.
    + eexists; eexists; split; [reflexivity|]. intros _. repeat split; assumption.
    + match goal with
      | |- context [verifyBrowser ?x] => destruct (verifyBrowser x)
      end; simpl; repeat eexists; discriminate.
Qed.

(** X14. [verifyDataFreshness] never throws and never ends the loop by
    itself: every run returns an answer, and the answer is "stale" only
    after a completed comparison. Without a secondary account, when the
    browser cannot be started, when the secondary login or the navigation
    fails, or when the browser cannot be closed, the answer is "fresh". *)
Theorem verifyDataFreshness_fails_open (cfg : Config) (run : VerifyRun)
    (g : State) :
  exists fresh g',
    verifyDataFreshness cfg run g
      = ([EvVerify (bookingInProgress g)], g', Go fresh)
    /\ (fresh = false -> Verdict.compares cfg run)
    /\ (~ Verdict.compares cfg run -> fresh = true).
Proof.
  destruct (verify_outcome cfg run g) as (fresh & g' & E & H).
  exists fresh, g'. split; [exact E | split; [exact H|]].
  intros Hnot. destruct fresh; [reflexivity | now elim Hnot; apply H].
Qed.

(** X15. The verification block of the loop (lines 858-873) restarts the
    session exactly when a verification was due and answered "stale". It
    does nothing when none is due, and otherwise it is one call of
    [verifyDataFreshness] and leaves the state that call left: the
    [catch] of line 869 with its timer assignment is never entered. *)
Theorem verifyBlock_restarts_iff_stale (cfg : Config) (it : Iteration)
    (g : State) :
  let x := verifyBlock cfg it g in
  let v := verifyDataFreshness cfg (it_verify it) g in
  (verifyDue cfg (it_tVerify it) g = false -> x = ([], g, Go tt))
  /\ (verifyDue cfg (it_tVerify it) g = true ->
      trace_of x = [EvVerify false] /\ state_of x = state_of v)
  /\ (flow_of x = Go tt \/ flow_of x = Halt Restart)
  /\ (flow_of x = Halt Restart <->
      verifyDue cfg (it_tVerify it) g = true /\ flow_of v = Go false).
Proof.
  cbv zeta. unfold verifyBlock, mbind, get, when. simpl.
  destruct (verifyDue cfg (it_tVerify it) g) eqn:Hdue.
  - assert (Hflag : bookingInProgress g = false).
    { unfold verifyDue in Hdue. apply andb_true_iff in Hdue.
      destruct Hdue as [H _]. now destruct (bookingInProgress g). }
    destruct (verify_outcome cfg (it_verify it) g) as (fresh & g' & E & _).
    unfold tryCatch, mbind. rewrite E, Hflag.
    unfold trace_of, state_of, flow_of.
    destruct fresh; simpl.
    + split; [discriminate|]. split; [split; reflexivity|].
      split; [now left|]. split; [discriminate | intros [_ [=]]].
    + split; [discriminate|]. split; [split; reflexivity|].
      split; [now right|]. split; [now split | reflexivity].
  - unfold ret, flow_of. simpl. split; [reflexivity|].
    split; [discriminate|]. split; [now left|].
    split; [discriminate | intros [[=] _]].
Qed.

End VerificationOutcome.

(** ** The wait for a time, and the flag left set *)
Section BookingWait.
Context {rt : Js.Runtime}.
Import Part000.

Lemma waitForTime_never (rounds k : nat) (polls : nat -> Poll) (g : State) :
  Js.truthy (availableTime g) = false ->
  (forall j, pl_wait (polls j) = Js.Ok tt
             /\ Js.truthy (pl_heard (polls j)) = false
             /\ Js.truthy (pl_dropdown (polls j)) = false) ->
  exists g', waitForTime rounds k polls g = ([], g', Halt Pending).
Proof.
  intros Hg Hp. revert k g Hg.
  induction rounds as [|rounds IH]; intros k g Hg;
    simpl; unfold mbind, get; simpl; rewrite Hg; simpl; [eauto|].
  destruct (Hp k) as (Hw & Hh & Hd). rewrite Hw, Hd. simpl.
  destruct (pl_heard (polls k)) as [h|]; simpl.
  - destruct (IH (S k) (set_availableTime (Some h) g) Hh) as (g' & E).
    rewrite E. eauto.
  - destruct (IH (S k) g Hg) as (g' & E). rewrite E. eauto.
Qed.

(** X16. The wait of [performBooking] for a time has no timeout: when the
    date is set and no time is heard from the listener nor found in the
    dropdown, the attempt is still waiting after any number of rounds,
    whatever time was stored before the attempt began. *)
Theorem performBooking_waits_forever (rounds : nat) (a : Attempt)
    (slot : Slot) (g : State) :
  at_setDate a = Js.Ok tt ->
  Js.truthy (at_heard a) = false ->
  (forall j, pl_wait (at_polls a j) = Js.Ok tt
             /\ Js.truthy (pl_heard (at_polls a j)) = false
             /\ Js.truthy (pl_dropdown (at_polls a j)) = false) ->
  flow_of (performBooking rounds a slot g) = Halt Pending.
Proof.
  intros Hd Hh Hp.
  unfold performBooking, mbind, tryCatch, emit, update, ret, flow_of.
  simpl. rewrite Hd. simpl.
  destruct (at_heard a) as [h|]; simpl.
  - destruct (waitForTime_never rounds 0 (at_polls a)
                (set_availableTime (Some h) (set_availableTime None g)) Hh Hp)
      as (g' & E).
    now rewrite E.
  - destruct (waitForTime_never rounds 0 (at_polls a)
                (set_availableTime None g) eq_refl Hp) as (g' & E).
    now rewrite E.
Qed.

End BookingWait.

Lemma performBooking_waits_forever_witness :
  Part000.flow_of
    (Part000.performBooking 1000 Scenes.noTime (Scenario.slot "2026-02-10")
       (Part000.set_availableTime (Some "08:00") Scenario.idle))
  = Part000.Halt Part000.Pending.
Proof.
  apply (performBooking_waits_forever 1000 Scenes.noTime);
    [reflexivity | reflexivity | intros j; repeat split].
Defined.

(** ** The flag left set *)
Section StuckFlag.
Context {rt : Js.Runtime}.
Import Part000.

Lemma mute_ret {A : Type} (a : A) (g : State) : Frame.mute (ret a) g.
Proof. split; reflexivity. Qed.

Lemma mute_halt {A : Type} (st : Stop) (g : State) : Frame.mute (@halt A st) g.
Proof. split; reflexivity. Qed.

Lemma mute_await {A : Type} (r : Js.Res A) (g : State) : Frame.mute (await r) g.
Proof. destruct r; [apply mute_ret | apply mute_halt]. Qed.

Lemma mute_update (f : State -> State) (g : State) :
  bookingInProgress (f g) = bookingInProgress g -> Frame.mute (update f) g.
Proof. intros H. split; [reflexivity | exact H]. Qed.

Lemma mute_bind {A B : Type} (m : M A) (k : A -> M B) (g : State) :
  Frame.mute m g ->
  (forall a g', bookingInProgress g' = bookingInProgress g ->
                Frame.mute (k a) g') ->
  Frame.mute (mbind m k) g.
Proof.
  unfold Frame.mute, mbind, trace_of, state_of.
  destruct (m g) as [[t g1] [a|st]]; simpl; intros [Ht Hf] Hk; [|now split].
  specialize (Hk a g1 Hf). destruct (k a g1) as [[t2 g2] r2]; simpl in *.
  destruct Hk as [Ht2 Hf2]. subst t t2. split; [reflexivity | congruence].
Qed.

Lemma mute_tryCatch {A : Type} (body : M A) (handler : string -> M A)
    (g : State) :
  Frame.mute body g ->
  (forall msg g', bookingInProgress g' = bookingInProgress g ->
                  Frame.mute (handler msg) g') ->
  Frame.mute (tryCatch body handler) g.
Proof.
  unfold Frame.mute, tryCatch, trace_of, state_of.
  destruct (body g) as [[t g1] [a|[msg| | | |]]]; simpl; intros [Ht Hf] Hh;
    try (now split).
  specialize (Hh msg g1 Hf). destruct (handler msg g1) as [[t2 g2] r2].
  simpl in *. destruct Hh as [Ht2 Hf2]. subst t t2.
  split; [reflexivity | congruence].
Qed.

Lemma mute_get_bind {B : Type} (k : State -> M B) (g : State) :
  Frame.mute (k g) g -> Frame.mute (mbind get k) g.
Proof.
  unfold Frame.mute, mbind, get, trace_of, state_of. simpl.
  now destruct (k g g) as [[t g1] r].
Qed.

(** With the flag set, a pass up to the slot it observes makes no call
    worth recording: no cookie reset with its login, no verification. *)
Lemma scan_mute (cfg : Config) (it : Iteration) (g : State) :
  bookingInProgress g = true -> Frame.mute (scan cfg it) g.
Proof.
  intros Hflag. unfold scan.
  apply mute_bind; [apply mute_update, deliver_flag|]. intros _ g1 H1.
  apply mute_bind; [now apply mute_update|]. intros _ g2 H2.
  assert (F2 : bookingInProgress g2 = true) by congruence.
  apply mute_bind.
  { unfold cookieBlock. apply mute_get_bind. rewrite F2. apply mute_ret. }
  intros _ g3 H3. assert (F3 : bookingInProgress g3 = true) by congruence.
  apply mute_bind.
  { unfold aliveBlock. apply mute_get_bind.
    destruct (_ =? _); simpl; [|apply mute_ret].
    apply mute_tryCatch; [apply mute_await | intros; apply mute_halt]. }
  intros _ g4 H4. assert (F4 : bookingInProgress g4 = true) by congruence.
  apply mute_bind.
  { unfold verifyBlock, verifyDue. apply mute_get_bind. rewrite F4.
    apply mute_ret. }
  intros _ g5 H5. assert (F5 : bookingInProgress g5 = true) by congruence.
  apply mute_bind.
  { unfold busyBlock. apply mute_get_bind. rewrite F5. apply mute_ret. }
  intros _ g6 H6.
  apply mute_bind.
  { unfold resetSelection. apply mute_tryCatch; [|intros; apply mute_ret].
    apply mute_bind; [apply mute_await|]. intros. now apply mute_update. }
  intros _ g7 H7.
  apply mute_get_bind. unfold waitForAvailableSlot.
  apply mute_bind; [apply mute_update, waitLoop_flag|].
  intros. apply mute_ret.
Qed.

Lemma iteration_stuck (cfg : Config) (rounds : nat) (it : Iteration) (g : State) :
  bookingInProgress g = true ->
  Booking.attempts (trace_of (iteration cfg rounds it g)) = 0%nat ->
  trace_of (iteration cfg rounds it g) = []
  /\ bookingInProgress (state_of (iteration cfg rounds it g)) = true.
Proof.
  intros Hflag.
  destruct (iteration_trace cfg rounds it g) as [-> ->].
  rewrite pass_run.
  destruct (scan_mute cfg it g Hflag) as [Ht Hf].
  destruct (scan cfg it g) as [[t0 g0] [slot|st]];
    unfold trace_of, state_of in *; simpl in *; subst t0;
    [|intros _; split; [reflexivity | congruence]].
  pose proof (bookingBlock_shape cfg rounds it slot g0) as Hb.
  cbv zeta in Hb. destruct Hb as (_ & _ & _ & Hq & _).
  destruct (qualifies cfg slot) eqn:Hqual.
  - intros Hn. exfalso.
    assert (Hpos : (0 < Booking.attempts
                          (trace_of (bookingBlock cfg rounds it slot g0)))%nat)
      by now apply Hq.
    destruct (bookingBlock cfg rounds it slot g0) as [[t1 g1] [[]|st]];
      unfold trace_of in *; simpl in *; lia.
  - rewrite (bookingBlock_outside cfg rounds it slot g0 Hqual). simpl.
    intros _. split; [reflexivity | congruence].
Qed.

(** X17. A flag left set silences the loop: from a state in which
    [bookingInProgress] is set (a pause of line 936 that rejects leaves it
    so), for as many passes as make no booking attempt the loop runs no
    verification and no cookie reset with its login, and the flag stays
    set. Only a pass whose slot qualifies, and whose attempts run to their
    end, clears it. *)
Theorem stuck_flag_silences_the_loop (cfg : Config) (rounds : nat)
    (its : list Iteration) (g : State) :
  bookingInProgress g = true ->
  Booking.attempts (trace_of (monitor cfg rounds its g)) = 0%nat ->
  trace_of (monitor cfg rounds its g) = []
  /\ bookingInProgress (state_of (monitor cfg rounds its g)) = true.
Proof.
  revert g. induction its as [|it rest IH]; intros g Hflag Hn;
    [now split|].
  simpl monitor in *. unfold mbind in *.
  pose proof (iteration_stuck cfg rounds it g Hflag) as Hit.
  destruct (iteration cfg rounds it g) as [[t g1] [[]|st]];
    unfold trace_of, state_of in *; simpl in *.
  - specialize (IH g1).
    destruct (monitor cfg rounds rest g1) as [[t2 g2] r2]; simpl in *.
    rewrite attempts_app in Hn.
    destruct Hit as [-> Hf]; [lia|].
    destruct IH as [-> Hf2]; [exact Hf | simpl in Hn; lia |].
    now split.
  - now apply Hit.
Qed.

End StuckFlag.

Lemma stuck_flag_silences_the_loop_witness :
  let g := Part000.set_bookingInProgress true
             (Part000.set_lastCookieReset 0 Scenario.idle) in
  let its := [Scenario.pass 1000000 [] (Scenario.verification None 1000001)
                (Js.Ok true);
              Scenario.pass 1000500 [] (Scenario.verification None 1000501)
                (Js.Ok true)] in
  Part000.trace_of (Part000.monitor (rt := IsoDate.runtime) Scenario.cfg 0 its g)
  = []
  /\ Part000.bookingInProgress
       (Part000.state_of
          (Part000.monitor (rt := IsoDate.runtime) Scenario.cfg 0 its g))
     = true.
Proof.
  apply (stuck_flag_silences_the_loop (rt := IsoDate.runtime) Scenario.cfg 0);
    reflexivity.
Defined.

(** ** The login of the v2.3 bot *)
Section LoginV23.
Context {rt : Js.Runtime}.
Import Js Part000Login.

Lemma login_cases (run : LoginRun) :
  (login run = Ok true
   /\ lg_open run = Ok tt /\ lg_submit run = Ok tt /\ lg_onSignIn run = false
   /\ busyText (catch_with (lg_pageText run) "") = false
   /\ lockedText (catch_with (lg_pageText run) "") = false)
  \/ exists msg, login run = Err msg.
Proof.
  unfold login, bind.
  destruct (lg_open run) as [[]|m0]; [|right; eauto].
  destruct (busyText _); [right; eauto|].
  destruct (lockedText _); [right; eauto|].
  destruct (lg_submit run) as [[]|m1]; [|right; eauto].
  destruct (lg_onSignIn run); [right; eauto|].
  left. repeat split.
Qed.

(** X18. The [login] of the v2.3 bot returns [true] or throws, never
    [false]. It returns only when the form was reached and submitted, the
    page then left the sign-in URL, and the page text showed neither a busy
    marker (in any case of letters) nor "account is locked"; a page that
    shows both is reported as busy. And a locked account is treated as any
    other failure: when the browser then closes, [runBot] restarts and logs
    in again, once for every session in a row whose page says the account
    is locked; when closing the browser rejects, [runBot] rejects with that
    error after the one login. *)
Theorem login_v23_outcomes :
  (forall run b, login run = Ok b ->
     b = true
     /\ lg_open run = Ok tt /\ lg_submit run = Ok tt /\ lg_onSignIn run = false
     /\ busyText (catch_with (lg_pageText run) "") = false
     /\ lockedText (catch_with (lg_pageText run) "") = false)
  /\ (forall run text,
        lg_open run = Ok tt -> lg_pageText run = Ok text ->
        busyText text = true -> login run = Err "SYSTEM_BUSY")
  /\ (forall run text,
        lg_open run = Ok tt -> lg_pageText run = Ok text ->
        busyText text = false -> lockedText text = true ->
        login run = Err "ACCOUNT_LOCKED")
  /\ (forall cfg rounds runs rest g,
        (exists lo hi, Part000.startDate cfg = Some lo
                       /\ Part000.endDate cfg = Some hi) ->
        Forall (fun run => exists text,
                  lg_open run = Ok tt /\ lg_pageText run = Ok text
                  /\ lockedText text = true) runs ->
        let locked :=
          map (fun run => sessionWith run (Ok tt) 0 [] (Ok tt)) runs in
        Escalation.logins
          (Part000.trace_of (Part000.runBot cfg rounds (locked ++ rest) g))
        = (List.length runs
           + Escalation.logins
               (Part000.trace_of (Part000.runBot cfg rounds rest g)))%nat
        /\ Part000.flow_of (Part000.runBot cfg rounds (locked ++ rest) g)
           = Part000.flow_of (Part000.runBot cfg rounds rest g))
  /\ (forall cfg rounds run text m rest g,
        (exists lo hi, Part000.startDate cfg = Some lo
                       /\ Part000.endDate cfg = Some hi) ->
        lg_open run = Ok tt -> lg_pageText run = Ok text ->
        lockedText text = true ->
        Part000.runBot cfg rounds
          (sessionWith run (Ok tt) 0 [] (Err m) :: rest) g
        = ([Part000.EvLogin], g, Part000.Halt (Part000.Thrown m))).
Proof.
  assert (Hlocked : forall run text close,
            lg_open run = Ok tt -> lg_pageText run = Ok text ->
            lockedText text = true ->
            Escalation.fails_v23 (sessionWith run (Ok tt) 0 [] close)).
  { intros run text close Ho Ht Hl.
    unfold Escalation.fails_v23, sessionWith. simpl.
    repeat split. unfold login, bind. rewrite Ho, Ht. simpl.
    destruct (busyText text); [eauto|]. rewrite Hl. eauto. }
  split; [|split; [|split; [|split]]].
  - intros run b Hb.
    destruct (login_cases run) as [(E & H) | (msg & E)]; [|congruence].
    split; [congruence | exact H].
  - intros run text Ho Ht Hb. unfold login, bind.
    now rewrite Ho, Ht; simpl; rewrite Hb.
  - intros run text Ho Ht Hb Hl. unfold login, bind.
    now rewrite Ho, Ht; simpl; rewrite Hb, Hl.
  - intros cfg rounds runs rest g Hdates Hall. cbv zeta.
    assert (Hfail : Forall Escalation.fails_v23
                      (map (fun run => sessionWith run (Ok tt) 0 [] (Ok tt))
                         runs)).
    { apply Forall_map. revert Hall. apply Forall_impl.
      intros run (text & Ho & Ht & Hl). now apply (Hlocked run text). }
    assert (Hcl : Forall Escalation.closes_v23
                    (map (fun run => sessionWith run (Ok tt) 0 [] (Ok tt))
                       runs)).
    { apply Forall_map. clear. induction runs; constructor;
        [reflexivity | assumption]. }
    pose proof (runBot_v23_failures cfg rounds _ rest g Hdates Hfail Hcl) as H.
    cbv zeta in H. destruct H as (Ht & _ & Hf).
    split; [|exact Hf].
    rewrite Ht. unfold Escalation.logins.
    rewrite filter_app, length_app, length_map. f_equal.
    clear. induction (List.length runs) as [|n IH]; [reflexivity|].
    simpl. now rewrite IH.
  - intros cfg rounds run text m rest g Hdates Ho Ht Hl.
    now rewrite (runBot_v23_failure cfg rounds _ rest g Hdates
                   (Hlocked run text (Err m) Ho Ht Hl)).
Qed.

End LoginV23.

Example login_v23_busy_any_case :
  Part000Login.login
    {| Part000Login.lg_open := Js.Ok tt;
       Part000Login.lg_pageText := Js.Ok "The System Is Busy. Your account is locked";
       Part000Login.lg_submit := Js.Ok tt;
       Part000Login.lg_onSignIn := false |}
  = Js.Err "SYSTEM_BUSY".
Proof. reflexivity. Qed.

Example login_v23_locked_case_sensitive :
  Part000Login.login
    {| Part000Login.lg_open := Js.Ok tt;
       Part000Login.lg_pageText := Js.Ok "Your Account Is Locked";
       Part000Login.lg_submit := Js.Ok tt;
       Part000Login.lg_onSignIn := true |}
  = Js.Err "LOGIN_FAILED".
Proof. reflexivity. Qed.

(** ** More on the escalation of [ok.js] *)
Section OkEscalation.
Import Ok.

Lemma banAccount_keeps (who other why : string) (at_ : Z) (l : BanList) :
  isAccountBanned other l = true ->
  isAccountBanned other (banAccount who why at_ l) = true.
Proof.
  unfold isAccountBanned, banAccount. rewrite existsb_app.
  now intros ->.
Qed.

(** X19. In [ok.js], from a count of consecutive failures below 3 (a new
    process starts at 0) and for every course of the sessions: the guard of
    lines 50-55 never fires, no call ends with exit code 1; [login] is
    called at most once per call of [runBot]; the ban list is only
    appended to, by at most two records (one written by [login], one at
    the third failure), all for this credential, and once a record is
    written the process ends with code 10 unless a close of the browser
    rejects, which ends the call; and whenever the process ends with code
    10 the credential is on the list. *)
Theorem ok_runBot_escalation_invariants (who : string) (script : list Session)
    (st : State) :
  consecutiveLoginFailures st < 3 ->
  let x := runBot who script st in
  snd x <> Exited 1
  /\ (List.length (fst (fst x)) <= List.length script)%nat
  /\ (exists added,
        bans (snd (fst x)) = (bans st ++ added)%list
        /\ Forall (fun r => email r = who) added
        /\ (List.length added <= 2)%nat
        /\ (added <> [] -> snd x = Exited 10 \/ snd x = Returned))
  /\ (snd x = Exited 10 -> isAccountBanned who (bans (snd (fst x))) = true).
Proof.
  cbv zeta. revert st.
  assert (Hnone : forall (st : State) (r : Outcome),
            exists added,
              bans st = (bans st ++ added)%list
              /\ Forall (fun r => email r = who) added
              /\ (List.length added <= 2)%nat
              /\ (added <> [] -> r = Exited 10 \/ r = Returned)).
  { intros st r. exists []. rewrite app_nil_r.
    repeat split; [constructor | simpl; lia | intros H; now contradiction H]. }
  induction script as [|ss rest IH]; intros st Hc; cbn [runBot];
    destruct (isAccountBanned who (bans st)) eqn:Hban; cbn [fst snd];
    try (split; [discriminate|]; split; [simpl; lia|];
         split; [simpl; apply Hnone|]; solve [discriminate | trivial]).
  destruct (Z.leb_spec 3 (consecutiveLoginFailures st)); [lia|].
  destruct (ss_launch ss) as [[]|m0]; cbn [fst snd];
    [|split; [discriminate|]; split; [simpl; lia|];
      split; [simpl; apply Hnone | discriminate]].
  destruct (ss_login ss) as [|msg [why|]| |lockMsg]; cbn [fst snd].
  - (* logged in *)
    destruct (ss_after ss); cbn [fst snd];
      try (split; [discriminate|]; split; [simpl; lia|];
           split; [simpl; apply Hnone | discriminate]);
      (specialize (IH (set_failures 0 st) ltac:(simpl; lia));
       destruct (runBot who rest (set_failures 0 st)) as [[t st'] r];
       cbn [fst snd] in *; destruct IH as (I1 & I2 & I3 & I4);
       split; [exact I1|]; split; [simpl; lia|];
       split; [exact I3 | exact I4]).
  - (* login recorded a ban and threw *)
    destruct (ss_close ss) as [[]|m1]; cbn [fst snd].
    + destruct (Z.ltb_spec
                  (consecutiveLoginFailures
                     (set_failures
                        (consecutiveLoginFailures
                           (ban who why (ss_clock ss) st) + 1)
                        (ban who why (ss_clock ss) st))) 3) as [Hlt | Hge].
      * rewrite runBot_banned by apply isAccountBanned_ban.
        cbn [fst snd]. split; [discriminate|]. split; [simpl; lia|].
        split; [|intros _; apply isAccountBanned_ban].
        eexists. split; [reflexivity|].
        repeat split; [repeat constructor | simpl; lia | now left].
      * cbn [fst snd]. split; [discriminate|]. split; [simpl; lia|].
        split; [|intros _; apply isAccountBanned_ban].
        exists [{| email := who; reason := why; bannedAt := ss_clock ss |};
                {| email := who;
                   reason := "Max login attempts reached (3 failures)";
                   bannedAt := ss_clock ss |}].
        split; [simpl; unfold banAccount; now rewrite <- app_assoc|].
        repeat split; [repeat constructor | simpl; lia | now left].
    + split; [discriminate|]. split; [simpl; lia|].
      split; [|discriminate].
      eexists. split; [reflexivity|].
      repeat split; [repeat constructor | simpl; lia | now right].
  - (* login threw *)
    destruct (ss_close ss) as [[]|m1]; cbn [fst snd];
      [|split; [discriminate|]; split; [simpl; lia|];
        split; [simpl; apply Hnone | discriminate]].
    destruct (Z.ltb_spec
                (consecutiveLoginFailures
                   (set_failures (consecutiveLoginFailures st + 1) st)) 3)
      as [Hlt | Hge].
    + specialize (IH (set_failures (consecutiveLoginFailures st + 1) st)
                    ltac:(exact Hlt)).
      destruct (runBot who rest _) as [[t st'] r].
      cbn [fst snd] in *. destruct IH as (I1 & I2 & I3 & I4).
      split; [exact I1|]. split; [simpl; lia|]. split; [exact I3 | exact I4].
    + cbn [fst snd]. split; [discriminate|]. split; [simpl; lia|].
      split; [|intros _; apply isAccountBanned_ban].
      eexists. split; [reflexivity|].
      repeat split; [repeat constructor | simpl; lia | now left].
  - split; [discriminate|]. split; [simpl; lia|].
    split; [simpl; apply Hnone | discriminate].
  - split; [discriminate|]. split; [simpl; lia|].
    split; [|intros _; apply isAccountBanned_ban].
    eexists. split; [reflexivity|].
    repeat split; [repeat constructor | simpl; lia | now left].
Qed.

Lemma runBot_success (who : string) (ss : Session) (rest : list Session)
    (st : State) :
  isAccountBanned who (bans st) = false ->
  consecutiveLoginFailures st < 3 ->
  ss_launch ss = Js.Ok tt -> ss_login ss = LoggedIn ->
  ss_after ss = NavigationFailed \/ ss_after ss = SessionLost ->
  runBot who (ss :: rest) st =
  match runBot who rest (set_failures 0 st) with
  | (t, st', r) => (EvLogin who :: t, st', r)
  end.
Proof.
  intros Hban Hc Hl Hlog Hafter. simpl runBot. rewrite Hban.
  destruct (Z.leb_spec 3 (consecutiveLoginFailures st)); [lia|].
  rewrite Hl, Hlog. now destruct Hafter as [-> | ->].
Qed.

Lemma runBot_forgets (who : string) (failing : list Session) (ok : Session)
    (rest : list Session) (st : State) :
  isAccountBanned who (bans st) = false ->
  0 <= consecutiveLoginFailures st ->
  consecutiveLoginFailures st + Z.of_nat (List.length failing) < 3 ->
  Forall Escalation.fails failing ->
  ss_launch ok = Js.Ok tt -> ss_login ok = LoggedIn ->
  ss_after ok = NavigationFailed \/ ss_after ok = SessionLost ->
  runBot who (failing ++ ok :: rest) st =
  match runBot who rest (set_failures 0 st) with
  | (t, st', r) =>
      ((repeat (EvLogin who) (S (List.length failing)) ++ t)%list, st', r)
  end.
Proof.
  intros Hban Hc0 Hc Hall Hl Hlog Hafter. revert st Hban Hc0 Hc.
  induction Hall as [|ss fs Hss Hfs IH]; intros st Hban Hc0 Hc.
  - simpl app. rewrite runBot_success by (assumption || simpl in Hc; lia).
    now destruct (runBot who rest (set_failures 0 st)) as [[t st'] r].
  - simpl app. simpl List.length in *.
    rewrite (runBot_failure who ss (fs ++ ok :: rest) st Hban) by (lia || assumption).
    cbv zeta.
    destruct (Z.ltb_spec (consecutiveLoginFailures st + 1) 3); [|lia].
    rewrite IH by (simpl; (assumption || lia)).
    change (set_failures 0 (set_failures (consecutiveLoginFailures st + 1) st))
      with (set_failures 0 st).
    now destruct (runBot who rest (set_failures 0 st)) as [[t st'] r].
Qed.

(** X20. In [ok.js] only consecutive failures count: after fewer than
    three failed logins and one that succeeds (its session ending in a
    restart), the bot goes on exactly as it would have from the start, with
    the count at 0 and nothing added to the ban list. *)
Theorem ok_login_success_resets_count (who : string) (failing : list Session)
    (ok : Session) (rest : list Session) (st : State) :
  isAccountBanned who (bans st) = false ->
  consecutiveLoginFailures st = 0 ->
  (List.length failing < 3)%nat ->
  Forall Escalation.fails failing ->
  ss_launch ok = Js.Ok tt -> ss_login ok = LoggedIn ->
  ss_after ok = NavigationFailed \/ ss_after ok = SessionLost ->
  let x := runBot who (failing ++ ok :: rest) st in
  let y := runBot who rest st in
  fst (fst x)
  = (repeat (EvLogin who) (S (List.length failing)) ++ fst (fst y))%list
  /\ snd (fst x) = snd (fst y) /\ snd x = snd y.
Proof.
  intros Hban Hc Hlen Hall Hl Hlog Hafter. cbv zeta.
  rewrite (runBot_forgets who failing ok rest st) by (assumption || lia).
  assert (E : set_failures 0 st = st).
  { destruct st as [c b]. simpl in Hc. subst c. reflexivity. }
  rewrite E. now destruct (runBot who rest st) as [[t st'] r].
Qed.

End OkEscalation.

(** A login that finds the account locked, records the ban and then
    cannot close the browser: [runBot] counts a failed login and retries,
    and the retry ends at the ban list. *)
Example ok_locked_login_close_rejects :
  let run :=
    {| OkLogin.lr_gotos := fun _ => Js.Ok tt;
       OkLogin.lr_retryPauses := fun _ => Js.Ok tt;
       OkLogin.lr_form := Js.Ok tt;
       OkLogin.lr_pageText := Js.Ok "Your account is locked until 5 pm.";
       OkLogin.lr_lockMsg := "Locked until 5 pm";
       OkLogin.lr_close := Js.Err "Target closed";
       OkLogin.lr_submit := Js.Ok tt; OkLogin.lr_modal := Js.Ok tt;
       OkLogin.lr_navigation := Js.Ok tt;
       OkLogin.lr_postLoginText := Js.Ok ""; OkLogin.lr_onSignIn := false |} in
  Ok.runBot "a@b.c" [OkLogin.sessionWith run 7; OkScenes.refused]
    OkScenes.fresh
  = ([Ok.EvLogin "a@b.c"],
     {| Ok.consecutiveLoginFailures := 1;
        Ok.bans := [{| Ok.email := "a@b.c"; Ok.reason := "Locked until 5 pm";
                       Ok.bannedAt := 7 |}] |},
     Ok.Exited 10).
Proof. reflexivity. Qed.

Lemma ok_runBot_escalation_invariants_witness :
  let x := Ok.runBot "a@b.c"
             [OkScenes.refused; OkScenes.lost; OkScenes.refused;
              OkScenes.refused; OkScenes.refused; OkScenes.lost]
             OkScenes.fresh in
  snd x <> Ok.Exited 1
  /\ (List.length (fst (fst x))
      <= List.length [OkScenes.refused; OkScenes.lost; OkScenes.refused;
                      OkScenes.refused; OkScenes.refused; OkScenes.lost])%nat
  /\ (exists added,
        Ok.bans (snd (fst x)) = (Ok.bans OkScenes.fresh ++ added)%list
        /\ Forall (fun r => Ok.email r = "a@b.c") added
        /\ (List.length added <= 2)%nat
        /\ (added <> [] -> snd x = Ok.Exited 10 \/ snd x = Ok.Returned))
  /\ (snd x = Ok.Exited 10 ->
      Ok.isAccountBanned "a@b.c" (Ok.bans (snd (fst x))) = true).
Proof.
  apply (ok_runBot_escalation_invariants "a@b.c"). simpl. lia.
Defined.

Lemma ok_login_success_resets_count_witness :
  let x := Ok.runBot "a@b.c"
             ([OkScenes.refused; OkScenes.refused]
              ++ OkScenes.lost :: [OkScenes.refused; OkScenes.refused])
             OkScenes.fresh in
  let y := Ok.runBot "a@b.c" [OkScenes.refused; OkScenes.refused]
             OkScenes.fresh in
  fst (fst x)
  = (repeat (Ok.EvLogin "a@b.c")
       (S (List.length [OkScenes.refused; OkScenes.refused]))
     ++ fst (fst y))%list
  /\ snd (fst x) = snd (fst y) /\ snd x = snd y.
Proof.
  apply (ok_login_success_resets_count "a@b.c"
           [OkScenes.refused; OkScenes.refused] OkScenes.lost
           [OkScenes.refused; OkScenes.refused] OkScenes.fresh);
    try reflexivity.
  - simpl. lia.
  - repeat constructor; simpl; eauto.
  - now right.
Defined.

(** ** The login of [ok.js] *)
Section OkLoginOutcomes.
Import Js OkLogin.

Lemma connect_gotos (left k : nat) (run : LoginRun) :
  (snd (connect left k run) <= left)%nat
  /\ ((0 < left)%nat -> (1 <= snd (connect left k run))%nat).
Proof.
  revert k. induction left as [|left IH]; intros k; cbn [connect snd];
    [split; lia|].
  destruct (lr_gotos run k); cbn [snd]; [split; lia|].
  destruct (Nat.leb maxRetries (S k)); cbn [snd]; [split; lia|].
  destruct (lr_retryPauses run k); cbn [snd]; [|split; lia].
  specialize (IH (S k)). destruct (connect left (S k) run) as [r n].
  cbn [snd] in *. split; lia.
Qed.

Lemma connect_three (run : LoginRun) :
  (1 <= snd (connect maxRetries 0 run) <= 3)%nat.
Proof.
  destruct (connect_gotos maxRetries 0 run) as [Hle Hge].
  split; [apply Hge; unfold maxRetries; lia | exact Hle].
Qed.

Ltac login_end :=
  cbn [le_result le_gotos le_cooldown le_ban le_submitted threw];
  split;
  [ lia
  | split;
    [ try discriminate
    | split;
      [ try discriminate
      | split;
        [ intros; try (split; reflexivity); try congruence
        | split;
          [ intros; congruence
          | try (now left); try (now right) ] ] ] ] ].

(** X21. The [login] of [ok.js] calls [page.goto] at least once and at
    most 3 times. It ends as logged in only after the credentials were
    sent, off the sign-in URL, with no cooldown and no ban, the page
    showing no busy and no lock marker before and no lock marker after. A
    busy page sets the cooldown and nothing else: the credentials are not
    typed and, the busy test coming first, a page that also shows a lock
    marker causes no ban. A ban is recorded exactly with the lock message
    the call ends on, and never together with a cooldown. *)
Theorem ok_login_outcomes (run : LoginRun) :
  let e := login run in
  (1 <= le_gotos e <= 3)%nat
  /\ (le_result e = Ok.LoggedIn ->
      le_submitted e = true /\ lr_onSignIn run = false
      /\ le_cooldown e = None /\ le_ban e = None
      /\ exists text post,
           lr_pageText run = Ok text /\ busyText text = false
           /\ lockedText text = false
           /\ lr_postLoginText run = Ok post /\ lockedText post = false)
  /\ (le_result e = Ok.LoginBusy ->
      le_cooldown e = Some "System busy" /\ le_ban e = None
      /\ le_submitted e = false)
  /\ (forall text, lr_pageText run = Ok text -> busyText text = true ->
      le_ban e = None /\ le_submitted e = false)
  /\ (forall m, le_result e = Ok.LoginLocked m -> le_ban e = Some m)
  /\ (le_cooldown e = None \/ le_ban e = None).
Proof.
  cbv zeta. unfold login.
  pose proof (connect_three run) as [Hge Hle].
  destruct (connect maxRetries 0 run) as [[[]|m0] n]; cbn [snd] in Hle, Hge;
    [|login_end].
  destruct (lr_form run) as [[]|m1]; [|login_end].
  destruct (lr_pageText run) as [text|m2]; [|login_end].
  destruct (busyText text) eqn:Hbusy.
  { destruct (lr_close run) as [[]|m3]; login_end.
    intros _. repeat split. }
  destruct (lockedText text) eqn:Hlock.
  { destruct (lr_close run) as [[]|m3]; login_end. }
  destruct (lr_submit run) as [[]|m4]; [|login_end].
  destruct (lr_modal run) as [[]|m5]; [|login_end].
  destruct (lr_navigation run) as [[]|m6]; [|login_end].
  destruct (lr_postLoginText run) as [post|m7]; [|login_end].
  destruct (lockedText post) eqn:Hpost.
  { destruct (lr_close run) as [[]|m8]; login_end. }
  destruct (lr_onSignIn run); login_end.
  intros _. repeat split. exists text, post. repeat split; assumption.
Qed.

Lemma login_outage (run : LoginRun) :
  outage run ->
  exists msg,
    login run = threw msg 3 None None false.
Proof.
  intros Hout. unfold login, maxRetries. simpl.
  destruct (Hout 0%nat) as ((m0 & G0) & P0).
  destruct (Hout 1%nat) as ((m1 & G1) & P1).
  destruct (Hout 2%nat) as ((m2 & G2) & P2).
  rewrite G0, P0, G1, P1, G2. simpl. now exists m2.
Qed.

(** X22. A site that does not answer gets the credential banned in
    [ok.js]: three calls of [runBot] in a row whose logins cannot load the
    sign-in page make 3 gotos each, never type the credentials, count as
    three failed logins and end with the credential on the ban list and
    exit code 10. *)
Theorem ok_outage_bans_credential (who : string) (r1 r2 r3 : LoginRun)
    (clock : Z) (post : list Ok.Session) (st : Ok.State) :
  Ok.isAccountBanned who (Ok.bans st) = false ->
  Ok.consecutiveLoginFailures st = 0 ->
  outage r1 -> outage r2 -> outage r3 ->
  let runs := [r1; r2; r3] in
  Forall (fun run => le_gotos (login run) = 3%nat
                     /\ le_submitted (login run) = false
                     /\ le_ban (login run) = None) runs
  /\ exists st',
       Ok.runBot who (map (fun run => sessionWith run clock) runs ++ post) st
       = ([Ok.EvLogin who; Ok.EvLogin who; Ok.EvLogin who], st', Ok.Exited 10)
       /\ Ok.isAccountBanned who (Ok.bans st') = true.
Proof.
  intros Hban Hc H1 H2 H3. cbv zeta.
  destruct (login_outage r1 H1) as (m1 & E1).
  destruct (login_outage r2 H2) as (m2 & E2).
  destruct (login_outage r3 H3) as (m3 & E3).
  split.
  - repeat constructor; rewrite ?E1, ?E2, ?E3; reflexivity.
  - destruct (runBot_failures who
                (map (fun run => sessionWith run clock) [r1; r2; r3]) post st)
      as (st' & E & Hb); try assumption.
    + lia.
    + rewrite Hc. reflexivity.
    + repeat constructor; unfold sessionWith; simpl;
        rewrite ?E1, ?E2, ?E3; simpl; eauto.
    + exists st'. split; [exact E | exact Hb].
Qed.

End OkLoginOutcomes.

Lemma ok_outage_bans_credential_witness :
  let runs := [OkLoginScenes.down; OkLoginScenes.down; OkLoginScenes.down] in
  Forall (fun run => OkLogin.le_gotos (OkLogin.login run) = 3%nat
                     /\ OkLogin.le_submitted (OkLogin.login run) = false
                     /\ OkLogin.le_ban (OkLogin.login run) = None) runs
  /\ exists st',
       Ok.runBot "a@b.c"
         (map (fun run => OkLogin.sessionWith run 0) runs ++ []) OkScenes.fresh
       = ([Ok.EvLogin "a@b.c"; Ok.EvLogin "a@b.c"; Ok.EvLogin "a@b.c"], st',
          Ok.Exited 10)
       /\ Ok.isAccountBanned "a@b.c" (Ok.bans st') = true.
Proof.
  apply (ok_outage_bans_credential "a@b.c" OkLoginScenes.down
           OkLoginScenes.down OkLoginScenes.down 0 [] OkScenes.fresh);
    try reflexivity; intros k; (split; [eexists; reflexivity | reflexivity]).
Defined.

(** ** The booking of [ok.js] *)
Section OkBookingOutcome.
Import Js OkBooking.

Lemma ok_waitForTime_polls (left k : nat) (run : BookingRun)
    (t : option string) :
  (snd (waitForTime left k run t) <= left)%nat.
Proof.
  revert k t. induction left as [|left IH]; intros k [s|]; simpl; try lia.
  destruct (fst (bk_polls run k)); simpl; [|lia].
  specialize (IH (S k) (hear (snd (bk_polls run k)) None)).
  destruct (waitForTime left (S k) run _) as [r n]. simpl in *. lia.
Qed.

Lemma ok_waitForTime_none (left k : nat) (run : BookingRun) :
  (forall j, bk_polls run j = (Ok tt, None)) ->
  waitForTime left k run None = (Ok None, left).
Proof.
  intros H. revert k. induction left as [|left IH]; intros k; simpl;
    [reflexivity|].
  rewrite H. simpl. now rewrite IH.
Qed.

Lemma ok_waitForTime_stored (left k : nat) (run : BookingRun) (s : string) :
  waitForTime left k run (Some s) = (Ok (Some s), O).
Proof. destruct left; reflexivity. Qed.

(** X23. [performBooking] of [ok.js] waits for a time at most 50 times
    100 ms. It answers [true] only when the date picker worked, a
    non-empty time was known at the end of the wait and the form was
    submitted with it; it does not look at what the submission led to. A
    time stored before the call (nothing ever clears it) is submitted
    without any wait, unless the listener stores another one while the
    date is picked; and with no time at all the call gives up after
    exactly 50 polls. *)
Theorem ok_performBooking_outcome (run : BookingRun)
    (availableTime : option string) :
  let x := performBooking run availableTime in
  (snd x <= 50)%nat
  /\ (fst (fst x) = true ->
      prepared run /\ bk_submit run = Ok tt /\ truthy (snd (fst x)) = true)
  /\ (forall s, availableTime = Some s -> s <> "" ->
      prepared run -> bk_heard run = None -> bk_submit run = Ok tt ->
      x = (true, Some s, O))
  /\ (availableTime = None -> prepared run -> bk_heard run = None ->
      (forall j, bk_polls run j = (Ok tt, None)) ->
      x = (false, None, 50%nat)).
Proof.
  cbv zeta. split; [|split; [|split]].
  - unfold performBooking.
    pose proof (ok_waitForTime_polls 50 0 run
                  (hear (bk_heard run) availableTime)) as Hp.
    destruct (waitForTime 50 0 run _) as [[time|m] n].
    + destruct (bk_open run), (bk_month run), (bk_day run), (bk_settle run);
        cbn [snd]; try lia;
        destruct (truthy time); cbn [snd]; try lia;
        destruct (bk_submit run); cbn [snd]; simpl in Hp; lia.
    + destruct (bk_open run), (bk_month run), (bk_day run), (bk_settle run);
        cbn [snd]; simpl in Hp; lia.
  - unfold performBooking, prepared.
    destruct (waitForTime 50 0 run _) as [[time|m] n].
    + destruct (bk_open run) as [[]|], (bk_month run) as [[]|],
        (bk_day run) as [clicked|], (bk_settle run) as [[]|];
        cbn [fst snd]; try discriminate.
      destruct (truthy time) eqn:Ht; cbn [fst snd]; [|discriminate].
      destruct (bk_submit run) as [[]|]; cbn [fst snd]; [|discriminate].
      intros _. repeat split; eauto.
    + destruct (bk_open run), (bk_month run), (bk_day run), (bk_settle run);
        cbn [fst]; discriminate.
  - intros s -> Hs (Ho & Hm & (clicked & Hd) & Hst) Hh Hsub.
    unfold performBooking. rewrite Ho, Hm, Hd, Hst, Hh. cbn [hear].
    rewrite ok_waitForTime_stored. cbn [truthy].
    destruct (String.eqb_spec s ""); [contradiction|].
    cbn [negb]. now rewrite Hsub.
  - intros -> (Ho & Hm & (clicked & Hd) & Hst) Hh Hall.
    unfold performBooking. rewrite Ho, Hm, Hd, Hst, Hh. cbn [hear].
    now rewrite ok_waitForTime_none.
Qed.

End OkBookingOutcome.

(** ** The slot check and the booking of [visa-bot.js] *)
Section VisaBotCheck.
Import Js VisaBot VisaBotLoop.











(** The body "abc" at the URL of an availability list: the check returns
    its first character. *)
Example checkForSlot_takes_a_string :
  fst (checkForSlot
         {| ck_trigger :=
              [{| url := "/schedule/1/appointment/days/95.json?appointments[expedite]=false";
                  body := Json (SText "abc") SNone |}];
            ck_sleeps := [] |} newChecker)
  = VString "a".
Proof. reflexivity. Qed.



End VisaBotCheck.

(** ** The loops of [visa-bot.js] *)
Section VisaBotLoops.
Context {rt : Js.Runtime} {cal : VisaBotLoop.Calendar}.
Variables (startDate endDate : Js.jsdate).
Import Js VisaBot VisaBotLoop.

Ltac turn_end :=
  repeat split; unfold checks in *; simpl; intros;
  try discriminate; try lia; try reflexivity; try congruence.

Lemma closeTurn_shape (ps : Pass) (n : Z) (t : list Event) (b : Bot)
    (c : Checker) :
  consecutiveErrors b = 0 ->
  let x := closeTurn ps n t b c in
  snd x <> Some ErrorBreak
  /\ fst (fst (fst x)) = t
  /\ (contextRefreshInterval <= n -> snd x <> None)
  /\ 0 <= consecutiveErrors (snd (fst (fst x))) <= 1
  /\ snd x <> Some Booked
  /\ isRunning (snd (fst (fst x))) = isRunning b
  /\ checkCount (snd (fst (fst x))) = checkCount b.
Proof.
  intros Hce. cbv zeta. unfold closeTurn.
  destruct (Z.leb_spec contextRefreshInterval n); cbn [fst snd];
    [turn_end|].
  destruct (ps_delay ps); cbn [fst snd]; [turn_end|].
  cbv zeta. cbn [consecutiveErrors set_consecutiveErrors]. rewrite Hce.
  cbn [Z.add Z.leb Z.compare Pos.compare Pos.compare_cont fst snd].
  turn_end.
Qed.

(** One turn of the monitoring loop. *)
Lemma monitoringTurn_shape (ps : Pass) (n : Z) (c : Checker) (b : Bot) :
  let x := monitoringTurn startDate endDate ps n c b in
  let t := fst (fst (fst x)) in
  let b' := snd (fst (fst x)) in
  snd x <> Some ErrorBreak
  /\ (checks t <= 1)%nat
  /\ (contextRefreshInterval <= n -> snd x <> None)
  /\ 0 <= consecutiveErrors b' <= 1
  /\ (snd x = Some Booked -> isRunning b' = false)
  /\ (snd x <> Some Booked -> isRunning b' = isRunning b)
  /\ checkCount b' = checkCount b + 1.
Proof.
  cbv zeta. unfold monitoringTurn.
  destruct (ps_busy ps); cbn [fst snd]; [turn_end|].
  destruct (checkForSlot (ps_check ps) c) as [slot c1].
  assert (Hgo : forall (t : list Event) (c0 : Checker),
            (checks t <= 1)%nat ->
            let x := closeTurn ps n t
                       (set_closestSlot
                          (track slot (closestSlot (counted b)))
                          (counted b)) c0 in
            snd x <> Some ErrorBreak
            /\ (checks (fst (fst (fst x))) <= 1)%nat
            /\ (contextRefreshInterval <= n -> snd x <> None)
            /\ 0 <= consecutiveErrors (snd (fst (fst x))) <= 1
            /\ (snd x = Some Booked -> isRunning (snd (fst (fst x))) = false)
            /\ (snd x <> Some Booked ->
                isRunning (snd (fst (fst x))) = isRunning b)
            /\ checkCount (snd (fst (fst x))) = checkCount b + 1).
  { intros t c0 Ht. cbv zeta.
    destruct (closeTurn_shape ps n t
                (set_closestSlot (track slot (closestSlot (counted b)))
                   (counted b)) c0 eq_refl)
      as (C1 & C2 & C3 & C4 & C5 & C6 & C7).
    rewrite C2, C6, C7.
    split; [exact C1|]. split; [exact Ht|]. split; [exact C3|].
    split; [exact C4|]. split; [intros E; now elim C5|].
    split; reflexivity. }
  destruct (truthy slot); [|apply Hgo; unfold checks; simpl; lia].
  destruct (inRange (dateOf slot) startDate endDate);
    [|apply Hgo; unfold checks; simpl; lia].
  destruct (performBooking slot (ps_booking ps) c1) as [[[|] c2] polls];
    [|apply Hgo; unfold checks; simpl; lia].
  cbn [fst snd]. turn_end.
Qed.

(** On records and null the tracker of the loop is the tracker of
    lines 787-793 as read on slots. *)
Lemma track_ofSlot (slot closestSlot : option Slot) :
  track (ofSlot slot) (ofSlot closestSlot)
  = ofSlot (trackClosest slot closestSlot).
Proof.
  unfold track, trackClosest.
  destruct slot as [s|], closestSlot as [c|]; simpl; try reflexivity.
  now destruct (date_lt _ _).
Qed.

(** A tracked value with no date to read is never replaced. *)
Lemma track_blocked (slot closestSlot : Value) :
  truthy closestSlot = true -> dateOf closestSlot = None ->
  track slot closestSlot = closestSlot.
Proof.
  unfold track. intros -> ->. destruct (truthy slot); [|reflexivity].
  simpl. now destruct (dateOf slot).
Qed.

Lemma checks_app (t1 t2 : list Event) :
  checks (t1 ++ t2) = (checks t1 + checks t2)%nat.
Proof. unfold checks. now rewrite filter_app, length_app. Qed.

Lemma runMonitoringLoop_shape (passes : list Pass) (n : Z) (c : Checker)
    (b : Bot) :
  let x := runMonitoringLoop startDate endDate passes n c b in
  snd x <> ErrorBreak
  /\ Z.of_nat (checks (fst (fst x))) <= Z.max 1 (contextRefreshInterval - n)
  /\ (snd x = Booked -> isRunning (snd (fst x)) = false)
  /\ (0 <= consecutiveErrors b <= 1 ->
      0 <= consecutiveErrors (snd (fst x)) <= 1).
Proof.
  cbv zeta. revert n c b.
  induction passes as [|ps rest IH]; intros n c b; cbn [runMonitoringLoop];
    destruct (isRunning b) eqn:Hrun; cbn [negb fst snd];
    try (repeat split; simpl; solve [discriminate | lia | trivial]).
  pose proof (monitoringTurn_shape ps (n + 1) c b) as Hturn.
  cbv zeta in Hturn.
  destruct (monitoringTurn startDate endDate ps (n + 1) c b)
    as [[[t b1] c1] [e|]]; cbn [fst snd] in *;
    destruct Hturn as (T1 & T2 & T3 & T4 & T5 & T6 & T7).
  - repeat split; try lia.
    + intros ->. now elim T1.
    + intros ->. now apply T5.
  - specialize (IH (n + 1) c1 b1).
    destruct (runMonitoringLoop startDate endDate rest (n + 1) c1 b1)
      as [[t' b2] e']. cbn [fst snd] in *.
    destruct IH as (I1 & I2 & I3 & I4).
    assert (Hn : n + 1 < contextRefreshInterval).
    { destruct (Z.lt_ge_cases (n + 1) contextRefreshInterval) as [H | H];
        [exact H | now elim (T3 H)]. }
    repeat split; try tauto; try (apply I4; lia).
    rewrite checks_app. lia.
Qed.

(** X26. The monitoring loop of [visa-bot.js] makes at most 50 checks in
    a session (one, if it starts at 49 or beyond): at the fiftieth it
    breaks for a fresh context. Its error counter is set to 0 at the start
    of every turn, so it never exceeds 1, and the break at 5 consecutive
    errors is never taken. A loop that ends by a booking leaves
    [isRunning] cleared. *)
Theorem monitoring_loop_bounds (passes : list Pass) (n : Z) (c : Checker)
    (b : Bot) :
  let x := runMonitoringLoop startDate endDate passes n c b in
  snd x <> ErrorBreak
  /\ Z.of_nat (checks (fst (fst x))) <= Z.max 1 (contextRefreshInterval - n)
  /\ (n = 0 -> (checks (fst (fst x)) <= 50)%nat)
  /\ (snd x = Booked -> isRunning (snd (fst x)) = false)
  /\ (isRunning b = true -> passes <> [] ->
      0 <= consecutiveErrors (snd (fst x)) <= 1).
Proof.
  cbv zeta.
  destruct (runMonitoringLoop_shape passes n c b) as (H1 & H2 & H3 & _).
  split; [exact H1|]. split; [exact H2|].
  split; [intros ->; unfold contextRefreshInterval in H2; lia|].
  split; [exact H3|].
  intros Hrun Hne. destruct passes as [|ps rest]; [now elim Hne|].
  cbn [runMonitoringLoop]. rewrite Hrun. cbn [negb].
  pose proof (monitoringTurn_shape ps (n + 1) c b) as Hturn.
  cbv zeta in Hturn.
  destruct (monitoringTurn startDate endDate ps (n + 1) c b)
    as [[[t b1] c1] [e|]]; cbn [fst snd] in *;
    destruct Hturn as (_ & _ & _ & T4 & _); [exact T4|].
  destruct (runMonitoringLoop_shape rest (n + 1) c1 b1) as (_ & _ & _ & I4).
  destruct (runMonitoringLoop startDate endDate rest (n + 1) c1 b1)
    as [[t' b2] e']. cbn [fst snd] in *. now apply I4.
Qed.

(** The logins that still fail before the main loop gives up. *)
Lemma mainTurn_failed (ss : Session) (b : Bot) :
  failedLogin ss ->
  mainTurn startDate endDate ss b =
  let b1 := set_loginFailures (loginFailures b + 1) b in
  if loginFailures b + 1 <? 3 then ([EvLogin], b1, None)
  else
    let b2 := set_consecutiveErrors (consecutiveErrors b + 1) b1 in
    if consecutiveErrors b + 1 <? 10 then ([EvLogin], b2, None)
    else ([EvLogin], b2, Some (Crashed "Too many consecutive errors")).
Proof.
  intros [Hc Hl]. unfold mainTurn, caught. rewrite Hc, Hl. cbv zeta.
  cbn [negb]. unfold maxLoginRetries, maxConsecutiveErrors.
  cbn [loginFailures consecutiveErrors set_loginFailures
       set_consecutiveErrors].
  destruct (Z.leb_spec 3 (loginFailures b + 1));
    destruct (Z.ltb_spec (loginFailures b + 1) 3); try lia; [|reflexivity].
  destruct (Z.leb_spec 10 (consecutiveErrors b + 1));
    destruct (Z.ltb_spec (consecutiveErrors b + 1) 10); try lia; reflexivity.
Qed.

Lemma runMainLoop_failures (script : list Session) (b : Bot) (togo : nat) :
  isRunning b = true ->
  0 <= loginFailures b -> 0 <= consecutiveErrors b < 10 ->
  Z.of_nat togo = (if loginFailures b <? 2
                   then 12 - loginFailures b - consecutiveErrors b
                   else 10 - consecutiveErrors b) ->
  Forall failedLogin script ->
  let x := runMainLoop startDate endDate script b in
  ((List.length script < togo)%nat ->
   fst (fst x) = repeat EvLogin (List.length script) /\ snd x = Running)
  /\ ((togo <= List.length script)%nat ->
      fst (fst x) = repeat EvLogin togo
      /\ snd x = Crashed "Too many consecutive errors").
Proof.
  intros Hrun Hl He Hleft Hall. cbv zeta.
  revert b togo Hrun Hl He Hleft.
  induction Hall as [|ss rest Hss Hrest IH]; intros b togo Hrun Hl He Hleft;
    cbn [runMainLoop]; rewrite Hrun; cbn [negb List.length];
    assert (HR : (loginFailures b < 2
                  /\ Z.of_nat togo = 12 - loginFailures b - consecutiveErrors b)
                 \/ (2 <= loginFailures b
                     /\ Z.of_nat togo = 10 - consecutiveErrors b))
      by (revert Hleft; destruct (Z.ltb_spec (loginFailures b) 2);
          intros Hleft; [left | right]; lia);
    clear Hleft.
  - split; [now split|]. intros Hle. exfalso. lia.
  - rewrite (mainTurn_failed ss b Hss). cbv zeta.
    destruct (Z.ltb_spec (loginFailures b + 1) 3) as [H3 | H3].
    + destruct togo as [|togo']; [lia|].
      specialize (IH (set_loginFailures (loginFailures b + 1) b) togo').
      cbn [isRunning loginFailures consecutiveErrors set_loginFailures] in IH.
      destruct IH as [IH1 IH2]; try assumption; try lia.
      { destruct (Z.ltb_spec (loginFailures b + 1) 2); lia. }
      destruct (runMainLoop startDate endDate rest _) as [[t' b''] r].
      cbn [fst snd] in *. split; intros Hlen.
      * destruct IH1 as [-> ->]; [lia|]. now split.
      * destruct IH2 as [-> ->]; [lia|]. now split.
    + destruct (Z.ltb_spec (consecutiveErrors b + 1) 10) as [H10 | H10].
      * destruct togo as [|togo']; [lia|].
        specialize (IH (set_consecutiveErrors (consecutiveErrors b + 1)
                          (set_loginFailures (loginFailures b + 1) b)) togo').
        cbn [isRunning loginFailures consecutiveErrors set_loginFailures
             set_consecutiveErrors] in IH.
        destruct IH as [IH1 IH2]; try assumption; try lia.
        { destruct (Z.ltb_spec (loginFailures b + 1) 2); lia. }
        destruct (runMainLoop startDate endDate rest _) as [[t' b''] r].
        cbn [fst snd] in *. split; intros Hlen.
        -- destruct IH1 as [-> ->]; [lia|]. now split.
        -- destruct IH2 as [-> ->]; [lia|]. now split.
      * assert (togo = 1%nat) by lia. subst togo. cbn [fst snd].
        split; [lia | now split].
Qed.

(** X27. [maxLoginRetries] does not stop [visa-bot.js] at the third
    failed login. The error thrown at the third failure is caught by the
    loop's own [catch], which counts it among the consecutive errors and
    goes on; each further failure throws again, and the loop gives up only
    when that counter reaches 10. With every login failing, a bot that has
    just started makes exactly 12 login attempts and then crashes with
    "Too many consecutive errors". *)
Theorem main_loop_twelve_logins (script : list Session) :
  Forall failedLogin script ->
  let x := runMainLoop startDate endDate script started in
  ((List.length script < 12)%nat ->
   fst (fst x) = repeat EvLogin (List.length script) /\ snd x = Running)
  /\ ((12 <= List.length script)%nat ->
      fst (fst x) = repeat EvLogin 12
      /\ snd x = Crashed "Too many consecutive errors").
Proof.
  intros Hall.
  apply (runMainLoop_failures script started 12).
  - reflexivity.
  - simpl. lia.
  - simpl. lia.
  - reflexivity.
  - exact Hall.
Qed.

(** X28. The date window of [visa-bot.js] goes by days: a date is in
    range exactly when its day lies between the day of the start and the
    day of the end, so every slot the test of the v2.3 bot accepts is
    accepted here too, and so is a slot of the first day when the start is
    an instant later on that day; an invalid date on any side gives
    [false]. *)
Theorem window_goes_by_days :
  (forall s lo hi,
     Part000.isDateInRange s lo hi = true -> isDateInRange s lo hi = true)
  /\ (forall s t lo hi,
        Date_parse s = Some t ->
        (isDateInRange s (Some lo) (Some hi) = true
         <-> startOfDay lo <= startOfDay t <= startOfDay hi))
  /\ (forall s lo hi,
        Date_parse s = None \/ lo = None \/ hi = None ->
        isDateInRange s lo hi = false).
Proof.
  split; [|split].
  - intros s lo hi. unfold Part000.isDateInRange, isDateInRange, inRange.
    cbv zeta. unfold date_le, date_ge, setHours0.
    destruct (Date_parse s) as [t|], lo as [l|], hi as [h|]; simpl;
      try discriminate; try (rewrite andb_false_r; discriminate).
    rewrite !andb_true_iff, !Z.leb_le. intros [H1 H2].
    split; now apply startOfDay_mono.
  - intros s t lo hi Hp. unfold isDateInRange, inRange. cbv zeta.
    rewrite Hp. unfold date_le, date_ge, setHours0.
    rewrite andb_true_iff, !Z.leb_le. tauto.
  - intros s lo hi H. unfold isDateInRange, inRange. cbv zeta.
    unfold date_le, date_ge, setHours0.
    destruct H as [-> | [-> | ->]]; [reflexivity | |].
    + destruct (Date_parse s); reflexivity.
    + destruct (Date_parse s), lo; simpl; try reflexivity.
      apply andb_false_r.
Qed.

End VisaBotLoops.

Lemma main_loop_twelve_logins_witness :
  let refused := {| VisaBotLoop.vs_context := Js.Ok tt;
                    VisaBotLoop.vs_login := false;
                    VisaBotLoop.vs_navigate := true;
                    VisaBotLoop.vs_passes := [] |} in
  let script := repeat refused 15 in
  let x := VisaBotLoop.runMainLoop (rt := IsoDate.runtime)
             (cal := VisaBotLoop.utc) (IsoDate.parse "2026-01-01")
             (IsoDate.parse "2026-03-31") script VisaBotLoop.started in
  ((List.length script < 12)%nat ->
   fst (fst x) = repeat VisaBotLoop.EvLogin (List.length script)
   /\ snd x = VisaBotLoop.Running)
  /\ ((12 <= List.length script)%nat ->
      fst (fst x) = repeat VisaBotLoop.EvLogin 12
      /\ snd x = VisaBotLoop.Crashed "Too many consecutive errors").
Proof.
  apply (main_loop_twelve_logins (rt := IsoDate.runtime)
           (cal := VisaBotLoop.utc)).
  repeat constructor.
Defined.

(** A slot of 2026-02-10 with the window starting at 10:00 of that day:
    out of range for the v2.3 bot, in range for [visa-bot.js]. *)
Example window_start_day :
  Part000.isDateInRange (rt := IsoDate.runtime) "2026-02-10"
    (Some 1770717600000) (IsoDate.parse "2026-03-31") = false
  /\ VisaBotLoop.isDateInRange (rt := IsoDate.runtime) (cal := VisaBotLoop.utc)
       "2026-02-10" (Some 1770717600000) (IsoDate.parse "2026-03-31") = true.
Proof. split; reflexivity. Qed.

(** ** How the v2.3 bot can end *)
Section Endings.
Context {rt : Js.Runtime}.
Import Part000.

Lemma bookedExit_pre (t t' : list Event) (s : Stop) :
  Frame.bookedExit t' s -> Frame.bookedExit (t ++ t') s.
Proof.
  destruct s; simpl; trivial. intros [-> H]. split; [reflexivity|].
  rewrite attempts_app. lia.
Qed.

Lemma exits_ret {A : Type} (a : A) : Frame.ends Frame.bookedExit (ret a).
Proof. intros g s. discriminate. Qed.

Lemma exits_update (f : State -> State) :
  Frame.ends Frame.bookedExit (update f).
Proof. intros g s. discriminate. Qed.

Lemma exits_emit (e : bool -> Event) : Frame.ends Frame.bookedExit (emit e).
Proof. intros g s. discriminate. Qed.

Lemma exits_get : Frame.ends Frame.bookedExit get.
Proof. intros g s. discriminate. Qed.

Lemma exits_halt {A : Type} (st : Stop) :
  (forall code, st <> Exit code) -> Frame.ends Frame.bookedExit (@halt A st).
Proof.
  intros H g s [= <-]. destruct st; simpl; trivial. now elim (H code).
Qed.

Lemma exits_await {A : Type} (r : Js.Res A) :
  Frame.ends Frame.bookedExit (await r).
Proof.
  destruct r; [apply exits_ret | apply exits_halt; discriminate].
Qed.

Lemma exits_bind {A B : Type} (m : M A) (k : A -> M B) :
  Frame.ends Frame.bookedExit m ->
  (forall a, Frame.ends Frame.bookedExit (k a)) ->
  Frame.ends Frame.bookedExit (mbind m k).
Proof.
  intros Hm Hk g s. unfold mbind, flow_of, trace_of.
  specialize (Hm g). unfold flow_of, trace_of in Hm.
  destruct (m g) as [[t g1] [a|st]]; simpl in *.
  - specialize (Hk a g1 s). unfold flow_of, trace_of in Hk.
    destruct (k a g1) as [[t2 g2] r2]. simpl in *.
    intros E. apply bookedExit_pre. now apply Hk.
  - intros [= <-]. now apply Hm.
Qed.

Lemma exits_tryCatch {A : Type} (body : M A) (handler : string -> M A) :
  Frame.ends Frame.bookedExit body ->
  (forall msg, Frame.ends Frame.bookedExit (handler msg)) ->
  Frame.ends Frame.bookedExit (tryCatch body handler).
Proof.
  intros Hb Hh g s. unfold tryCatch, flow_of, trace_of.
  specialize (Hb g). unfold flow_of, trace_of in Hb.
  destruct (body g) as [[t g1] [a|[msg| | | |]]]; simpl in *;
    try discriminate; try (intros [= <-]; now apply Hb).
  specialize (Hh msg g1 s). unfold flow_of, trace_of in Hh.
  destruct (handler msg g1) as [[t2 g2] r2]. simpl in *.
  intros E. apply bookedExit_pre. now apply Hh.
Qed.

Lemma exits_when (b : bool) (m : M unit) :
  Frame.ends Frame.bookedExit m -> Frame.ends Frame.bookedExit (when b m).
Proof. destruct b; simpl; [trivial | intros _; apply exits_ret]. Qed.

Ltac exits_step :=
  match goal with
  | |- Frame.ends _ (mbind _ _) => apply exits_bind; [| intros ?]
  | |- Frame.ends _ (ret _) => apply exits_ret
  | |- Frame.ends _ (update _) => apply exits_update
  | |- Frame.ends _ (emit _) => apply exits_emit
  | |- Frame.ends _ get => apply exits_get
  | |- Frame.ends _ (halt _) => apply exits_halt; discriminate
  | |- Frame.ends _ (await _) => apply exits_await
  | |- Frame.ends _ (when _ _) => apply exits_when
  | |- Frame.ends _ (tryCatch _ _) => apply exits_tryCatch; [| intros ?]
  | |- Frame.ends _ (if ?c then _ else _) => destruct c
  end.

Lemma exits_verifyDataFreshness (cfg : Config) (run : VerifyRun) :
  Frame.ends Frame.bookedExit (verifyDataFreshness cfg run).
Proof. unfold verifyDataFreshness. repeat exits_step. Qed.

(** The one exit of the loop: after an attempt that reported a booking. *)
Lemma exits_attemptOnce (rounds : nat) (a : Attempt) (slot : Slot) :
  Frame.ends Frame.bookedExit (attemptOnce rounds a slot).
Proof.
  intros g s.
  destruct (attemptOnce_shape rounds a slot g)
    as (g' & _ & [(_ & E) | [(_ & E) | E]]); rewrite E;
    unfold flow_of, trace_of; simpl; intros [= <-]; simpl; trivial.
  split; [reflexivity | unfold Booking.attempts; simpl; lia].
Qed.

Lemma exits_attemptsFrom (left n rounds : nat) (it : Iteration) (slot : Slot) :
  Frame.ends Frame.bookedExit (attemptsFrom left n rounds it slot).
Proof.
  revert n. induction left as [|left IH]; intros n; simpl; [exits_step|].
  exits_step; [apply exits_attemptOnce|].
  exits_step; [exits_step | apply IH].
Qed.

Lemma exits_pass (cfg : Config) (rounds : nat) (it : Iteration) :
  Frame.ends Frame.bookedExit (pass cfg rounds it).
Proof.
  unfold pass, scan.
  exits_step.
  - exits_step; [exits_step|]. exits_step; [exits_step|].
    exits_step; [unfold cookieBlock; repeat exits_step|].
    exits_step; [unfold aliveBlock; repeat exits_step|].
    exits_step.
    { unfold verifyBlock. exits_step; [exits_step|]. exits_step.
      exits_step; [|exits_step].
      exits_step; [apply exits_verifyDataFreshness | repeat exits_step]. }
    exits_step; [unfold busyBlock; repeat exits_step|].
    exits_step; [unfold resetSelection; repeat exits_step|].
    exits_step; [exits_step|].
    destruct (waitForAvailableSlot 100 (it_sleeps it) a6) as [slot g'].
    repeat exits_step.
  - exits_step; [|exits_step].
    unfold bookingBlock. destruct a as [s|]; [|exits_step].
    destruct (isDateInRange _ _ _); [|exits_step].
    exits_step; [exits_step|].
    exits_step; [apply exits_attemptsFrom | exits_step].
Qed.

(** A pass with the [catch] of the loop ends the loop only by a restart,
    by the exit after a booking, or not yet. *)
Lemma iteration_ends (cfg : Config) (rounds : nat) (it : Iteration) (g : State) :
  let x := iteration cfg rounds it g in
  flow_of x = Go tt \/ flow_of x = Halt Restart
  \/ (flow_of x = Halt (Exit 0) /\ (0 < Booking.attempts (trace_of x))%nat)
  \/ flow_of x = Halt Pending.
Proof.
  cbv zeta. rewrite iteration_run.
  pose proof (exits_pass cfg rounds it g) as H. unfold flow_of, trace_of in *.
  destruct (pass cfg rounds it g) as [[t g'] [[]|[msg| |code| |]]]; simpl in *;
    try tauto.
  - destruct (_ || _); tauto.
  - specialize (H _ eq_refl). simpl in H. destruct H as [-> H]. tauto.
Qed.

Lemma monitor_ends (cfg : Config) (rounds : nat) (its : list Iteration)
    (g : State) :
  let x := monitor cfg rounds its g in
  flow_of x = Halt Restart
  \/ (flow_of x = Halt (Exit 0) /\ (0 < Booking.attempts (trace_of x))%nat)
  \/ flow_of x = Halt Pending.
Proof.
  cbv zeta. revert g. induction its as [|it rest IH]; intros g; simpl monitor;
    [now right; right|].
  unfold mbind. pose proof (iteration_ends cfg rounds it g) as H.
  cbv zeta in H. unfold flow_of, trace_of in *.
  destruct (iteration cfg rounds it g) as [[t g1] r]; simpl in *.
  destruct H as [-> | [-> | [[-> Ha] | ->]]]; simpl; try tauto.
  specialize (IH g1). destruct (monitor cfg rounds rest g1) as [[t2 g2] r2].
  simpl in *. destruct IH as [-> | [[-> Ha] | ->]]; try tauto.
  right. left. split; [reflexivity|]. rewrite attempts_app. lia.
Qed.

Lemma session_ends (cfg : Config) (rounds : nat) (ss : Session) (g : State) :
  let x := session cfg rounds ss g in
  (flow_of x = Halt (Exit 1) /\ ss_proxyOk ss = false)
  \/ (flow_of x = Halt (Thrown "Invalid time value")
      /\ (startDate cfg = None \/ endDate cfg = None))
  \/ (exists m, flow_of x = Halt (Thrown m)
                /\ ss_launch ss = Js.Ok tt /\ ss_close ss = Js.Err m)
  \/ flow_of x = Halt Restart
  \/ (flow_of x = Halt (Exit 0) /\ (0 < Booking.attempts (trace_of x))%nat)
  \/ flow_of x = Halt Pending.
Proof.
  cbv zeta. unfold session.
  destruct (ss_proxyOk ss); simpl; [|now left].
  destruct (startDate cfg) as [lo|];
    [|right; left; split; [reflexivity | now left]].
  destruct (endDate cfg) as [hi|];
    [|right; left; split; [reflexivity | now right]].
  right. right.
  assert (Hrec : forall t0 g0,
            ss_launch ss = Js.Ok tt ->
            (exists m, snd (let '(t', g'', r) := recover ss g0 in
                            ((t0 ++ t')%list, g'', r)) = Halt (Thrown m)
                       /\ Js.Ok tt = Js.Ok tt /\ ss_close ss = Js.Err m)
            \/ snd (let '(t', g'', r) := recover ss g0 in
                    ((t0 ++ t')%list, g'', r)) = Halt Restart).
  { intros t0 g0 Hl. unfold recover, launched, mbind, when. rewrite Hl.
    destruct (ss_close ss) as [[]|m]; simpl; [now right|].
    left. exists m. now repeat split. }
  unfold tryCatch, mbind, emit, update, flow_of, trace_of.
  destruct (ss_launch ss) as [[]|] eqn:Hl; simpl;
    [|unfold recover, launched; rewrite Hl; simpl; now right; left].
  destruct (ss_page ss) as [[]|]; simpl;
    [|destruct (Hrec [] g eq_refl) as [H | H]; [left; exact H | right; left; exact H]].
  destruct (ss_login ss) as [[]|]; simpl;
    [|destruct (Hrec [EvLogin] g eq_refl) as [H | H];
      [left; exact H | right; left; exact H]].
  destruct (ss_navigate ss) as [[]|]; simpl;
    [|destruct (Hrec [EvLogin] g eq_refl) as [H | H];
      [left; exact H | right; left; exact H]].
  match goal with
  | |- context [monitor cfg rounds (ss_passes ss) ?g0] =>
      pose proof (monitor_ends cfg rounds (ss_passes ss) g0) as H;
      cbv zeta in H; unfold flow_of, trace_of in H;
      destruct (monitor cfg rounds (ss_passes ss) g0) as [[t g1] r]
  end.
  simpl in *. destruct H as [-> | [[-> Ha] | ->]]; simpl; tauto.
Qed.

(** X29. The v2.3 bot ends only by a booking, by a failed proxy check, on
    an invalid date window or by a browser that cannot be closed: a run of
    [runBot] with its restarts never returns; it exits with code 0, and
    then a call of [performBooking] was made; or it exits with code 1, a
    session having found the proxy unusable; or it throws "Invalid time
    value", the start or the end of the window being no date; or it throws
    the error of the [browser.close()] of its [catch], in a session whose
    browser had been launched; or it is still running. Every other failure,
    a refused login, a lost page, a stale verdict, an error in the loop,
    restarts it or is passed over. *)
Theorem runBot_ends_only_by (cfg : Config) (rounds : nat)
    (script : list Session) (g : State) :
  let x := runBot cfg rounds script g in
  (flow_of x = Halt (Exit 0) /\ (0 < Booking.attempts (trace_of x))%nat)
  \/ (flow_of x = Halt (Exit 1)
      /\ exists ss, In ss script /\ ss_proxyOk ss = false)
  \/ (flow_of x = Halt (Thrown "Invalid time value")
      /\ (startDate cfg = None \/ endDate cfg = None))
  \/ (exists ss m, In ss script /\ ss_launch ss = Js.Ok tt
                   /\ ss_close ss = Js.Err m
                   /\ flow_of x = Halt (Thrown m))
  \/ flow_of x = Halt Pending.
Proof.
  cbv zeta. revert g.
  induction script as [|ss rest IH]; intros g; simpl runBot;
    [now right; right; right; right|].
  pose proof (session_ends cfg rounds ss g) as Hs. cbv zeta in Hs.
  unfold flow_of, trace_of in *.
  destruct (session cfg rounds ss g) as [[t g1] r]; simpl in *.
  destruct Hs as [[-> Hp] | [[-> Hd] | [(m & -> & Hl & Hm)
                 | [-> | [[-> Ha] | ->]]]]]; simpl.
  - right. left. split; [reflexivity|]. exists ss. split; [now left | exact Hp].
  - right. right. left. now split.
  - right. right. right. left. exists ss, m. repeat split; tauto.
  - specialize (IH g1).
    destruct (runBot cfg rounds rest g1) as [[t2 g2] r2]; simpl in *.
    destruct IH as [[-> Ha] | [[-> (s' & Hin & Hp)] | [[-> Hd]
                   | [(s' & m & Hin & Hl & Hm & ->) | ->]]]].
    + left. split; [reflexivity|]. rewrite attempts_app. lia.
    + right. left. split; [reflexivity|].
      exists s'. split; [now right | exact Hp].
    + right. right. left. now split.
    + right. right. right. left. exists s', m. repeat split; tauto.
    + now right; right; right; right.
  - left. now split.
  - now right; right; right; right.
Qed.

End Endings.
